(** * bingo: target parsing, manifest store, version resolution and install

    A shallow embedding of [get.go] (package main) and [pkg/bingo/mod.go]
    (package bingo), with the properties of the engine proved over it.

    Go strings are byte sequences and are modelled by [string]; slices are
    lists; [error] results are sums.  Functions keep the names they have in
    the Go source. *)

From Stdlib Require Import String Ascii List Bool Arith ZArith Lia DecimalString.
From stdpp Require Import base decidable option list gmap strings sorting.

Open Scope string_scope.
Open Scope list_scope.
Import ListNotations.

(** ** The part of Go's [strings] package that the engine calls *)

Module strings.

(** [strings.Split(s, sep)] for a one-byte separator: all the fields
    between occurrences of [sep]; never the empty list. *)
Fixpoint Split (s : string) (sep : ascii) : list string :=
  match s with
  | EmptyString => [EmptyString]
  | String a r =>
      if Ascii.eqb a sep then EmptyString :: Split r sep
      else match Split r sep with
           | [] => [String a EmptyString]
           | w :: ws => String a w :: ws
           end
  end.

Definition HasPrefix (s p : string) : bool := String.prefix p s.

Definition HasSuffix (s suf : string) : bool :=
  (String.length suf <=? String.length s)%nat &&
  String.eqb (substring (String.length s - String.length suf)
                        (String.length suf) s) suf.

Definition TrimPrefix (s p : string) : string :=
  if HasPrefix s p
  then substring (String.length p) (String.length s - String.length p) s
  else s.

Definition TrimSuffix (s suf : string) : string :=
  if HasSuffix s suf
  then substring 0 (String.length s - String.length suf) s
  else s.

Fixpoint Contains (s sub : string) : bool :=
  String.prefix sub s ||
  match s with
  | EmptyString => false
  | String _ r => Contains r sub
  end.

Definition Join (elems : list string) (sep : string) : string :=
  String.concat sep elems.

Definition lower (a : ascii) : ascii :=
  let n := nat_of_ascii a in
  if ((65 <=? n) && (n <=? 90))%nat then ascii_of_nat (n + 32) else a.

(** [strings.ToLower] on the ASCII letters; bytes outside 'A'..'Z' are
    kept (Go also maps upper-case runes beyond ASCII). *)
Fixpoint ToLower (s : string) : string :=
  match s with
  | EmptyString => EmptyString
  | String a r => String (lower a) (ToLower r)
  end.

Definition upper (a : ascii) : ascii :=
  let n := nat_of_ascii a in
  if ((97 <=? n) && (n <=? 122))%nat then ascii_of_nat (n - 32) else a.

(** [strings.ToUpper], on the ASCII letters as well. *)
Fixpoint ToUpper (s : string) : string :=
  match s with
  | EmptyString => EmptyString
  | String a r => String (upper a) (ToUpper r)
  end.

(** [strings.ReplaceAll(s, old, new)] for one-byte [old] and [new]. *)
Fixpoint ReplaceAll (s : string) (old new : ascii) : string :=
  match s with
  | EmptyString => EmptyString
  | String a r => String (if Ascii.eqb a old then new else a) (ReplaceAll r old new)
  end.

(** [strings.Trim(s, cutset)] for a one-byte cutset. *)
Fixpoint TrimLeft (s : string) (c : ascii) : string :=
  match s with
  | String a r => if Ascii.eqb a c then TrimLeft r c else s
  | EmptyString => EmptyString
  end.

Fixpoint TrimRight (s : string) (c : ascii) : string :=
  match s with
  | EmptyString => EmptyString
  | String a r =>
      match TrimRight r c with
      | EmptyString => if Ascii.eqb a c then EmptyString else String a EmptyString
      | r' => String a r'
      end
  end.

Definition Trim (s : string) (c : ascii) : string := TrimRight (TrimLeft s c) c.

End strings.

(** ** Go's [path] and [path/filepath] (slash-separated, as on Unix) *)

Module filepath.

(** One step of the lexical clean-up: [stack] holds the kept elements,
    most recent first. *)
Definition clean_step (rooted : bool) (stack : list string) (seg : string)
  : list string :=
  if String.eqb seg "" then stack
  else if String.eqb seg "." then stack
  else if String.eqb seg ".." then
    match stack with
    | top :: rest =>
        if String.eqb top ".." then seg :: stack else rest
    | [] => if rooted then [] else [seg]
    end
  else seg :: stack.

(** [filepath.Clean]: the shortest path equivalent to [p] by purely
    lexical processing. *)
Definition Clean (p : string) : string :=
  let rooted := strings.HasPrefix p "/" in
  let stack := fold_left (clean_step rooted) (strings.Split p "/") [] in
  let body := strings.Join (rev stack) "/" in
  let out := if rooted then "/" +:+ body else body in
  if String.eqb out "" then "." else out.

(** [filepath.Join]: leading empty elements are skipped, the rest is
    joined with a slash and cleaned; all empty gives the empty string. *)
Fixpoint Join (elems : list string) : string :=
  match elems with
  | [] => ""
  | e :: rest =>
      if String.eqb e "" then Join rest
      else Clean (strings.Join elems "/")
  end.

(** The text up to and including the last slash ([""] when none). *)
Fixpoint upto_last_slash (s : string) : string :=
  match s with
  | EmptyString => EmptyString
  | String a r =>
      if strings.Contains r "/" then String a (upto_last_slash r)
      else if Ascii.eqb a "/" then String a EmptyString
      else EmptyString
  end.

(** [filepath.Dir]: all but the last element, cleaned. *)
Definition Dir (p : string) : string := Clean (upto_last_slash p).

(** [path.Base]: the last element, trailing slashes removed first. *)
Definition Base (p : string) : string :=
  if String.eqb p "" then "."
  else
    let q := strings.TrimRight p "/" in
    if String.eqb q "" then "/"
    else List.last (strings.Split q "/") "".

(** The elements of a cleaned path. *)
Definition elements (p : string) : list string :=
  if String.eqb p "" then [] else strings.Split p "/".

Fixpoint stripCommon (b t : list string) : list string * list string :=
  match b, t with
  | x :: b', y :: t' => if String.eqb x y then stripCommon b' t' else (b, t)
  | _, _ => (b, t)
  end.

(** [filepath.Rel]: the path that leads from [basepath] to [targpath];
    [None] when there is none. *)
Definition Rel (basepath targpath : string) : option string :=
  let base := Clean basepath in
  let targ := Clean targpath in
  if String.eqb targ base then Some "."
  else
    let base := if String.eqb base "." then "" else base in
    if negb (Bool.eqb (strings.HasPrefix base "/") (strings.HasPrefix targ "/"))
    then None
    else
      let '(b, t) := stripCommon (elements base) (elements targ) in
      match b with
      | [] => Some (strings.Join t "/")
      | b0 :: _ =>
          if String.eqb b0 ".." then None
          else Some (strings.Join (map (fun _ => "..") b ++ t) "/")
      end.

End filepath.


(** ** Errors and results

    An error is identified by the text of its message format; [Wrap]
    is [errors.Wrap]: the same failure with a line of context, and
    [Wrapf] the same with another error printed in that line.  A Go
    function can also panic (an index or slice out of range, a nil
    dereference). *)

Inductive error : Type :=
| Errorf (msg : string)
| Wrap (e : error) (ctx : string)
| Wrapf (e : error) (ctx : string) (arg : error).

Inductive result (A : Type) : Type :=
| Ok (a : A)
| Fail (e : error)
| Panic (msg : string).
Arguments Ok {A} a.
Arguments Fail {A} e.
Arguments Panic {A} msg.

Definition is_ok {A} (r : result A) : bool :=
  match r with Ok _ => true | _ => false end.

Definition is_fail {A} (r : result A) : bool :=
  match r with Fail _ => true | _ => false end.

(** ** get.go: the target parser *)

(** [goModVersionRegexp], the regular expression [^v[0-9]*$]. *)
Definition isDigit (a : ascii) : bool :=
  let n := nat_of_ascii a in ((48 <=? n) && (n <=? 57))%nat.

Fixpoint allDigits (s : string) : bool :=
  match s with
  | EmptyString => true
  | String a r => isDigit a && allDigits r
  end.

Definition goModVersionRegexp (s : string) : bool :=
  match s with
  | String a r => Ascii.eqb a "v" && allDigits r
  | EmptyString => false
  end.

Definition errTargetEmpty : error :=
  Errorf "target is empty, this should be filtered earlier".
Definition errVersionDuplicates : error :=
  Errorf "version duplicates are not allowed, got: %v".
Definition errNoneWithOthers : error :=
  Errorf "none is not allowed when there are more than one specified Version, got: %v".

(** The loop of [parseTarget] over the versions: [dup] is the set of the
    versions seen so far. *)
Fixpoint checkVersions (dup : gset string) (versions : list string)
  : option error :=
  match versions with
  | [] => None
  | v :: rest =>
      if decide (v ∈ dup) then Some errVersionDuplicates
      else if String.eqb v "none" then Some errNoneWithOthers
      else checkVersions ({[v]} ∪ dup) rest
  end.

Definition parseTarget (rawTarget : string)
  : result (string * string * list string) :=
  if String.eqb rawTarget "" then Fail errTargetEmpty
  else
    let s := strings.Split rawTarget "@" in
    let nameOrPackage := hd "" s in
    let versions :=
      match s with
      | _ :: s1 :: _ => strings.Split s1 ","
      | _ => [""]
      end in
    match (if (1 <? length versions)%nat
           then checkVersions ∅ versions else None) with
    | Some e => Fail e
    | None =>
        let '(name, pkgPath) :=
          if strings.Contains nameOrPackage "/" then
            let pkgPath := nameOrPackage in
            let name := filepath.Base pkgPath in
            let pkgSplit := strings.Split pkgPath "/" in
            if (3 <? length pkgSplit)%nat && goModVersionRegexp name
            then (nth (length pkgSplit - 2) pkgSplit "", pkgPath)
            else (name, pkgPath)
          else (nameOrPackage, "") in
        Ok (strings.ToLower name, pkgPath, versions)
    end.

(** ** golang.org/x/mod: module coordinates and the manifest syntax

    The module-file library is an external dependency of the repository.
    The model keeps what the manifest store relies on: a file is a module
    line, require lines, replace lines and comments; comments are kept as
    their tokens (["// ..."]); printing trims the blanks around a comment
    token; parsing marks a require line indirect when its comment says so,
    and rejects a require line whose coordinate the library refuses. *)

Module module.
(** [module.Version]: a module path and a version. *)
Record Version : Type := mkVersion { Path : string; Vers : string }.

Definition String (m : Version) : string :=
  if String.eqb (Vers m) "" then Path m else Path m +:+ "@" +:+ Vers m.
End module.

Module modfile.

(** A require statement: [Suffix] holds the tokens of the comments at
    the end of its line ([Syntax.Suffix]). *)
Record Req : Type := mkReq {
  Mod : module.Version;
  Indirect : bool;
  Suffix : list string
}.

Record Replace : Type := mkReplace {
  Old : module.Version;
  New : module.Version
}.

(** The parsed file.  [ModuleStmt] is [None] when the file has no module
    line, else the suffix comments of that line; [Comments] are the
    tokens of the comments standing before or after the statements. *)
Record File : Type := mkFile {
  ModuleStmt : option (list string);
  Requires : list Req;
  Replaces : list Replace;
  Comments : list string
}.

(** The text of a file, as [Format] prints it and [Parse] reads it. *)
Record ReqLine : Type := mkReqLine {
  l_path : string;
  l_vers : string;
  l_suffix : list string
}.

Record Text : Type := mkText {
  t_module : option (list string);
  t_require : list ReqLine;
  t_replace : list Replace;
  t_comments : list string
}.

Definition isSpace (a : ascii) : bool :=
  let n := nat_of_ascii a in
  ((9 <=? n) && (n <=? 13))%nat || (n =? 32)%nat.

Fixpoint trimLeftSpace (s : string) : string :=
  match s with
  | String a r => if isSpace a then trimLeftSpace r else s
  | EmptyString => EmptyString
  end.

Fixpoint trimRightSpace (s : string) : string :=
  match s with
  | EmptyString => EmptyString
  | String a r =>
      match trimRightSpace r with
      | EmptyString => if isSpace a then EmptyString else String a EmptyString
      | r' => String a r'
      end
  end.

(** [strings.TrimSpace], on the ASCII blanks. *)
Definition TrimSpace (s : string) : string := trimRightSpace (trimLeftSpace s).

(** [strings.Fields]: the maximal runs of non-blank bytes. [cur] is the
    field being read, reversed. *)
Fixpoint fieldsFrom (cur : list ascii) (s : string) : list string :=
  let flush := match cur with
               | [] => []
               | _ => [string_of_list_ascii (rev cur)]
               end in
  match s with
  | EmptyString => flush
  | String a r =>
      if isSpace a then flush ++ fieldsFrom [] r
      else fieldsFrom (a :: cur) r
  end.

Definition Fields (s : string) : list string := fieldsFrom [] s.

(** Whether a require line carries the [// indirect] comment. *)
Definition isIndirect (suffix : list string) : bool :=
  match suffix with
  | [] => false
  | tok :: _ =>
      match Fields (strings.TrimPrefix tok "//") with
      | [] => false
      | [f0] => String.eqb f0 "indirect"
      | f0 :: _ => String.eqb f0 "indirect;"
      end
  end.

Definition Format (f : File) : Text :=
  {| t_module := option_map (map TrimSpace) (ModuleStmt f);
     t_require := map (fun r => {| l_path := module.Path (Mod r);
                                   l_vers := module.Vers (Mod r);
                                   l_suffix := map TrimSpace (Suffix r) |})
                      (Requires f);
     t_replace := Replaces f;
     t_comments := map TrimSpace (Comments f) |}.

Definition errParse : error := Errorf "parse".

(** [Parse]; [check path version] tells whether the library accepts
    the coordinate of a require line. *)
Definition Parse (check : string -> string -> bool) (t : Text) : result File :=
  if forallb (fun l => check (l_path l) (l_vers l)) (t_require t) then
    Ok {| ModuleStmt := t_module t;
          Requires := map (fun l => {| Mod := module.mkVersion (l_path l) (l_vers l);
                                       Indirect := isIndirect (l_suffix l);
                                       Suffix := l_suffix l |})
                          (t_require t);
          Replaces := t_replace t;
          Comments := t_comments t |}
  else Fail errParse.

(** [AddNewRequire path vers false]: one more require line, without
    comment. *)
Definition AddNewRequire (f : File) (path vers : string) : File :=
  {| ModuleStmt := ModuleStmt f;
     Requires := Requires f ++ [ {| Mod := module.mkVersion path vers;
                                    Indirect := false; Suffix := [] |} ];
     Replaces := Replaces f;
     Comments := Comments f |}.

Definition setRequires (f : File) (rs : list Req) : File :=
  {| ModuleStmt := ModuleStmt f; Requires := rs;
     Replaces := Replaces f; Comments := Comments f |}.

Definition setReplaces (f : File) (rs : list Replace) : File :=
  {| ModuleStmt := ModuleStmt f; Requires := Requires f;
     Replaces := rs; Comments := Comments f |}.

Definition setModuleSuffix (f : File) (sfx : list string) : File :=
  {| ModuleStmt := Some sfx; Requires := Requires f;
     Replaces := Replaces f; Comments := Comments f |}.

(** [Cleanup]: the entries whose path was blanked are dropped. *)
Definition Cleanup (f : File) : File :=
  setReplaces
    (setRequires f (List.filter (fun r => negb (String.eqb (module.Path (Mod r)) ""))
                           (Requires f)))
    (List.filter (fun r => negb (String.eqb (module.Path (Old r)) "")) (Replaces f)).

Definition sameOld (oldPath oldVers : string) (r : Replace) : bool :=
  String.eqb (module.Path (Old r)) oldPath &&
  (String.eqb oldVers "" || String.eqb (module.Vers (Old r)) oldVers).

(** [AddReplace]: the first replacement of the old coordinate is
    updated and its other replacements removed; without one, a line is
    added. *)
Fixpoint updateReplace (oldPath oldVers : string) (new : module.Version)
    (need : bool) (rs : list Replace) : list Replace * bool :=
  match rs with
  | [] => ([], need)
  | r :: rest =>
      if sameOld oldPath oldVers r then
        if need then
          let '(rest', n) := updateReplace oldPath oldVers new false rest in
          ({| Old := Old r; New := new |} :: rest', n)
        else updateReplace oldPath oldVers new need rest
      else
        let '(rest', n) := updateReplace oldPath oldVers new need rest in
        (r :: rest', n)
  end.

Definition AddReplace (f : File) (old new : module.Version) : File :=
  let '(rs, need) :=
    updateReplace (module.Path old) (module.Vers old) new true (Replaces f) in
  setReplaces f (if need then rs ++ [ {| Old := old; New := new |} ] else rs).

(** [DropReplace]: the replacements of exactly this old coordinate go. *)
Definition DropReplace (f : File) (oldPath oldVers : string) : File :=
  setReplaces f
    (List.filter (fun r => negb (String.eqb (module.Path (Old r)) oldPath &&
                            String.eqb (module.Vers (Old r)) oldVers))
            (Replaces f)).

End modfile.

(** ** The file system and the world the engine runs in

    The pin directory is one flat directory: a file is addressed by its
    name in it.  A name is bound to an inode whose content is in
    [blocks]; an open file is the inode, so that a handle keeps reaching
    its file after the name was removed or another file was renamed over
    it. *)

Inductive content : Type :=
| Manifest (t : modfile.Text)
| Bytes (s : string).

Record FS : Type := mkFS {
  names : gmap string nat;
  blocks : list content
}.

Module os.

Definition errNotExist : error := Errorf "no such file or directory".

Definition Lookup (fs : FS) (name : string) : option nat := names fs !! name.

Definition ReadInode (fs : FS) (ino : nat) : option content := blocks fs !! ino.

(** [ioutil.ReadFile]. *)
Definition ReadFile (fs : FS) (name : string) : option content :=
  ino ← Lookup fs name; ReadInode fs ino.

(** Truncate, seek and write through an open file. *)
Definition WriteInode (fs : FS) (ino : nat) (c : content) : FS :=
  {| names := names fs; blocks := <[ino := c]> (blocks fs) |}.

(** [os.Create] followed by the writes ([ioutil.WriteFile], the copy
    loop): an existing file is truncated and rewritten in place, a
    missing one is created. *)
Definition WriteFile (fs : FS) (name : string) (c : content) : FS :=
  match Lookup fs name with
  | Some ino => WriteInode fs ino c
  | None => {| names := <[name := length (blocks fs)]> (names fs);
               blocks := blocks fs ++ [c] |}
  end.

(** [os.RemoveAll]: no error when the name is missing. *)
Definition RemoveAll (fs : FS) (name : string) : FS :=
  {| names := delete name (names fs); blocks := blocks fs |}.

(** [os.Rename]. *)
Definition Rename (fs : FS) (old new : string) : result unit * FS :=
  match Lookup fs old with
  | Some ino => (Ok tt, {| names := <[new := ino]> (delete old (names fs));
                           blocks := blocks fs |})
  | None => (Fail errNotExist, fs)
  end.

Definition name_le (a b : string) : Prop := String.leb a b = true.

#[global] Instance name_le_dec (a b : string) : Decision (name_le a b) :=
  bool_dec (String.leb a b) true.

(** The names of the directory, sorted as [ReadDir] gives them. *)
Definition ReadDirNames (fs : FS) : list string :=
  merge_sort name_le (map fst (map_to_list (names fs))).

End os.

(** What the install directory holds. *)
Inductive binfile : Type :=
| Binary (pkg : string) (modFile : string)
| Symlink (target : string).

(** What the world records of a run: the calls of the go toolchain,
    and the rename that commits a manifest. *)
Inductive call : Type :=
| CallModInit (modFile : string)
| CallGetD (modFile : string) (target : string)
| CallList (modFile : string) (args : list string)
| CallBuild (modFile : string) (pkg : string) (out : string)
| CallRename (old new : string).

Record World : Type := mkWorld {
  pin : FS;
  bin : gmap string binfile;
  calls : list call
}.

Definition setPin (w : World) (fs : FS) : World :=
  {| pin := fs; bin := bin w; calls := calls w |}.

Definition logCall (c : call) (w : World) : World :=
  {| pin := pin w; bin := bin w; calls := calls w ++ [c] |}.

Module runner.
(** [runner.GetUpdatePolicy]. *)
Inductive GetUpdatePolicy : Type :=
| NoUpdatePolicy
| UpdatePolicy
| UpdatePatchPolicy.

Definition isNoUpdate (u : GetUpdatePolicy) : bool :=
  match u with NoUpdatePolicy => true | _ => false end.
End runner.

(** A node of the host file system outside the pin directory (the
    module download cache, the extracted modules); it is only read.  A
    directory is its entries, each a name and whether it is a directory;
    a file is the lines a scanner reads from it and, when it is a module
    file, its text; [HostErr] is a node that cannot be examined. *)
Inductive hostnode : Type :=
| HostDir (entries : list (string * bool))
| HostFile (lines : list string) (parsed : option modfile.Text)
| HostErr (e : error).

(** The collaborators of the engine: the go toolchain behind
    [runner.Runner], the environment and the host file system, and the
    library functions taken as given ([filepath.Match], with [None] for a
    malformed pattern; the coordinate check of the module-file parser). *)
Record Env : Type := mkEnv {
  GoModInit : string -> string -> FS -> option error * FS;
  GoGetD : string -> runner.GetUpdatePolicy -> string -> FS -> (string * option error) * FS;
  GoList : string -> list string -> FS -> result string * FS;
  GoBuild : string -> list string -> string -> string -> list string -> FS
            -> option error * FS;
  GoEnv : string -> result string;
  Getenv : string -> string;
  host : string -> option hostnode;
  Match : string -> string -> option bool;
  CheckRequire : string -> string -> bool
}.

(** ** The monad of the engine: a world, and a result or a panic *)

Definition M (A : Type) : Type := World -> result A * World.

Definition ret {A} (a : A) : M A := fun w => (Ok a, w).
Definition fail {A} (e : error) : M A := fun w => (Fail e, w).
Definition bind {A B} (m : M A) (k : A -> M B) : M B :=
  fun w =>
    match m w with
    | (Ok a, w') => k a w'
    | (Fail e, w') => (Fail e, w')
    | (Panic s, w') => (Panic s, w')
    end.

Notation "x <- m ;; k" := (bind m (fun x => k))
  (at level 62, m at next level, right associativity).
Notation "m ;;; k" := (bind m (fun _ => k))
  (at level 62, right associativity).

(** [errors.Wrap] of the error of [m]. *)
Definition wrapM {A} (ctx : string) (m : M A) : M A :=
  fun w =>
    match m w with
    | (Fail e, w') => (Fail (Wrap e ctx), w')
    | rw => rw
    end.

Definition modifyPin (f : FS -> FS) : M unit :=
  fun w => (Ok tt, setPin w (f (pin w))).

(** [errcapture.Do(&err, closer, msg)] in a [defer]: [r] is what the
    function was returning, [c] what the closer returned; the error of the
    closer is added to the returned one, and a panic goes on. *)
Definition errcapture {A} (r : result A) (c : result unit) (msg : string) : result A :=
  match r, c with
  | Panic s, _ => Panic s
  | _, Panic s => Panic s
  | Ok _, Fail e => Fail (Wrap e msg)
  | _, _ => r
  end.

(** ** Globbing in the pin directory *)

Definition errBadPattern : error := Errorf "syntax error in pattern".

Definition matches (E : Env) (pattern name : string) : bool :=
  match Match E pattern name with Some true => true | _ => false end.

(** [filepath.Glob] in the pin directory. *)
Definition Glob (E : Env) (pattern : string) (fs : FS) : result (list string) :=
  match Match E pattern "" with
  | None => Fail errBadPattern
  | Some _ => Ok (List.filter (fun n => matches E pattern n) (os.ReadDirNames fs))
  end.

(** ** pkg/bingo/mod.go: the manifest store *)

Module bingo.

Definition FakeRootModFileName : string := "go.mod".
Definition NoReplaceCommand : string := "bingo:no_replace_fetch".
Definition metaComment : string :=
  "// Auto generated by https://github.com/bwplotka/bingo. DO NOT EDIT".

(** [Package]: a module coordinate, the path of the package inside the
    module, and the build overrides. *)
Record Package : Type := mkPackage {
  Module_ : module.Version;
  RelPath : string;
  BuildEnvs : list string;
  BuildFlags : list string
}.

Definition Path (m : Package) : string :=
  filepath.Join [module.Path (Module_ m); RelPath m].

Definition String (m : Package) : string :=
  if String.eqb (module.Vers (Module_ m)) "" then Path m
  else Path m +:+ "@" +:+ module.Vers (Module_ m).

(** [ModFile]: [f] is the open file, [m] the parsed syntax ([None] for
    Go's nil, left by a reload whose parse failed). *)
Record ModFile : Type := mkModFile {
  filename : string;
  f : nat;
  m : option modfile.File;
  directPackage : option Package;
  autoReplaceDisabled : bool
}.

Definition FileName (mf : ModFile) : string := filename mf.
Definition AutoReplaceDisabled (mf : ModFile) : bool := autoReplaceDisabled mf.
Definition DirectPackage (mf : ModFile) : option Package := directPackage mf.

Definition errNilFile : string := "nil pointer dereference".
Definition errSliceBounds : string := "slice bounds out of range".

(** The loop of [parseDirectPackageMeta] over the fields of the line:
    [elem] is what is left of them ([elem[i:]]). *)
Fixpoint metaLoop (elem : list string) (relPath : string) (buildEnv : list string)
  : string * list string * list string :=
  match elem with
  | [] => (relPath, buildEnv, [])
  | l :: rest =>
      if String.eqb l "" then metaLoop rest relPath buildEnv
      else if strings.HasPrefix l "-" then (relPath, buildEnv, elem)
      else if negb (strings.Contains l "=") then metaLoop rest l buildEnv
      else metaLoop rest relPath (buildEnv ++ [l])
  end.

Definition parseDirectPackageMeta (line : string)
  : string * list string * list string :=
  metaLoop (strings.Split line " ") "" [].

Definition dropAllRequire (file : modfile.File) : modfile.File :=
  modfile.setRequires file [].

(** The words of the comment of the direct require line. *)
Definition directMeta (target : Package) : list string :=
  (if negb (String.eqb (RelPath target) "") && negb (String.eqb (RelPath target) ".")
   then [RelPath target] else [])
  ++ BuildEnvs target ++ BuildFlags target.

Definition setFirstSuffix (file : modfile.File) (tok : string) : modfile.File :=
  match modfile.Requires file with
  | r :: rest =>
      modfile.setRequires file
        ({| modfile.Mod := modfile.Mod r; modfile.Indirect := modfile.Indirect r;
            modfile.Suffix := [tok] |} :: rest)
  | [] => file
  end.

(** [SetDirectRequire] on the parsed syntax. *)
Definition setDirectRequire (file : modfile.File) (target : Package) : modfile.File :=
  let file := dropAllRequire file in
  let file := modfile.AddNewRequire file (module.Path (Module_ target))
                                    (module.Vers (Module_ target)) in
  let meta := directMeta target in
  let file := if (0 <? length meta)%nat
              then setFirstSuffix file ("// " +:+ strings.Join meta " ")
              else file in
  modfile.Cleanup file.

Definition SetDirectRequire (mf : ModFile) (target : Package) : result ModFile :=
  match m mf with
  | None => Panic errNilFile
  | Some file =>
      Ok {| filename := filename mf; f := f mf;
            m := Some (setDirectRequire file target);
            directPackage := Some target;
            autoReplaceDisabled := autoReplaceDisabled mf |}
  end.

(** [SetReplace]: the old replacements are dropped, the given ones added. *)
Definition SetReplace (mf : ModFile) (target : list modfile.Replace) : result ModFile :=
  match m mf with
  | None => Panic errNilFile
  | Some file =>
      let file := fold_left (fun fl r => modfile.DropReplace fl
                               (module.Path (modfile.Old r)) (module.Vers (modfile.Old r)))
                            (modfile.Replaces file) file in
      let file := fold_left (fun fl r => modfile.AddReplace fl (modfile.Old r) (modfile.New r))
                            target file in
      Ok {| filename := filename mf; f := f mf;
            m := Some (modfile.Cleanup file);
            directPackage := directPackage mf;
            autoReplaceDisabled := autoReplaceDisabled mf |}
  end.

Definition errRead : error := Errorf "read".

(** [ParseModFileOrReader] of what was read. *)
Definition parseContent (E : Env) (c : option content) : result modfile.File :=
  match c with
  | None => Fail (Wrap errRead "read")
  | Some (Bytes _) => Fail (Wrap modfile.errParse "parse")
  | Some (Manifest t) =>
      match modfile.Parse (CheckRequire E) t with
      | Fail e => Fail (Wrap e "parse")
      | r => r
      end
  end.

(** The direct package that [Reload] reads from the first require line
    that is not indirect; [s[3:]] panics on a token shorter than three
    bytes. *)
Fixpoint firstDirect (rs : list modfile.Req) : result (option Package) :=
  match rs with
  | [] => Ok None
  | r :: rest =>
      if modfile.Indirect r then firstDirect rest
      else
        match modfile.Suffix r with
        | [] => Ok (Some {| Module_ := modfile.Mod r; RelPath := "";
                           BuildEnvs := []; BuildFlags := [] |})
        | tok :: _ =>
            if (String.length tok <? 3)%nat then Panic errSliceBounds
            else
              let '(relPath, buildEnv, buildFlags) :=
                parseDirectPackageMeta
                  (strings.Trim (substring 3 (String.length tok - 3) tok) "010") in
              Ok (Some {| Module_ := modfile.Mod r; RelPath := relPath;
                          BuildEnvs := buildEnv; BuildFlags := buildFlags |})
        end
  end.

(** The comments of the statements, searched for the no-replace mark. *)
Definition stmtComments (file : modfile.File) : list string :=
  modfile.Comments file
  ++ match modfile.ModuleStmt file with Some sfx => sfx | None => [] end
  ++ concat (map modfile.Suffix (modfile.Requires file)).

(** [Reload]: parse what the open file holds, recompute the no-replace
    mark and the direct package, keep only the direct require line. *)
Definition Reload (E : Env) (mf : ModFile) (fs : FS) : result unit * ModFile :=
  match parseContent E (os.ReadInode fs (f mf)) with
  | Fail e =>
      (Fail e, {| filename := filename mf; f := f mf; m := None;
                  directPackage := directPackage mf;
                  autoReplaceDisabled := autoReplaceDisabled mf |})
  | Panic s => (Panic s, mf)
  | Ok file =>
      let disabled :=
        existsb (fun tok => strings.Contains tok NoReplaceCommand) (stmtComments file) in
      let mf1 := {| filename := filename mf; f := f mf; m := Some file;
                    directPackage := None; autoReplaceDisabled := disabled |} in
      match firstDirect (modfile.Requires file) with
      | Panic s => (Panic s, mf1)
      | Fail e => (Fail e, mf1)
      | Ok None =>
          (Ok tt, {| filename := filename mf; f := f mf;
                     m := Some (dropAllRequire file);
                     directPackage := None; autoReplaceDisabled := disabled |})
      | Ok (Some p) =>
          (Ok tt, {| filename := filename mf; f := f mf;
                     m := Some (setDirectRequire (dropAllRequire file) p);
                     directPackage := Some p; autoReplaceDisabled := disabled |})
      end
  end.

(** [Flush]: the syntax is printed over the open file, which is then
    reloaded. *)
Definition Flush (E : Env) (mf : ModFile) (fs : FS) : result unit * ModFile * FS :=
  match m mf with
  | None => (Panic errNilFile, mf, fs)
  | Some file =>
      let fs' := os.WriteInode fs (f mf) (Manifest (modfile.Format file)) in
      (Reload E mf fs', fs')
  end.

(** [Close]: flush, then release the file. *)
Definition Close (E : Env) (mf : ModFile) (fs : FS) : result unit * ModFile * FS :=
  Flush E mf fs.

Definition errNoModule : error := Errorf "failed to parse; no module".

(** [errOnMetaMissing]: is the marker the first suffix comment? *)
Definition metaMissing (suffix : list string) : bool :=
  match suffix with
  | [] => true
  | tok :: _ => negb (String.eqb (strings.Trim tok "010") metaComment)
  end.

(** [OpenModFile]: open, reload, and add the marker to the module line
    when it is missing. *)
Definition OpenModFile (E : Env) (modFile : string) (fs : FS) : result ModFile :=
  match os.Lookup fs modFile with
  | None => Fail os.errNotExist
  | Some ino =>
      let mf0 := {| filename := modFile; f := ino; m := None;
                    directPackage := None; autoReplaceDisabled := false |} in
      match Reload E mf0 fs with
      | (Fail e, _) => Fail e
      | (Panic s, _) => Panic s
      | (Ok _, mf) =>
          match m mf with
          | None => Panic errNilFile
          | Some file =>
              match modfile.ModuleStmt file with
              | None => Fail errNoModule
              | Some suffix =>
                  if metaMissing suffix then
                    Ok {| filename := filename mf; f := f mf;
                          m := Some (modfile.setModuleSuffix file (suffix ++ [metaComment]));
                          directPackage := directPackage mf;
                          autoReplaceDisabled := autoReplaceDisabled mf |}
                  else Ok mf
              end
          end
      end
  end.

(** [copyFile]. *)
Definition copyFile (src dst : string) (fs : FS) : result unit * FS :=
  match os.ReadFile fs src with
  | None => (Fail os.errNotExist, fs)
  | Some c => (Ok tt, os.WriteFile fs dst c)
  end.

(** [CreateFromExistingOrNew]: the new file is a copy of the existing
    one when that one opens, else an empty manifest made by the
    toolchain. *)
Definition CreateFromExistingOrNew (E : Env) (existingFile modFile : string)
  : M ModFile :=
  fun w =>
    let fs := os.RemoveAll (pin w) modFile in
    let fromScratch (fs : FS) :=
      let w1 := logCall (CallModInit modFile) (setPin w fs) in
      match GoModInit E (filepath.Dir existingFile) modFile fs with
      | (Some e, fs1) => (Fail (Wrap e "mod init"), setPin w1 fs1)
      | (None, fs1) => (OpenModFile E modFile fs1, setPin w1 fs1)
      end in
    if negb (String.eqb existingFile "") then
      match os.Lookup fs existingFile with
      | None => fromScratch fs
      | Some _ =>
          match OpenModFile E existingFile fs with
          | Ok o =>
              match Close E o fs with
              | (Ok _, _, fs1) =>
                  match copyFile existingFile modFile fs1 with
                  | (Ok _, fs2) => (OpenModFile E modFile fs2, setPin w fs2)
                  | (Fail e, fs2) => (Fail e, setPin w fs2)
                  | (Panic s, fs2) => (Panic s, setPin w fs2)
                  end
              | (Fail e, _, fs1) => (Fail e, setPin w fs1)
              | (Panic s, _, fs1) => (Panic s, setPin w fs1)
              end
          | Panic s => (Panic s, setPin w fs)
          | Fail _ => fromScratch fs
          end
      end
    else fromScratch fs.

Definition errNoDirectPackage : error :=
  Errorf "no direct package found in %s; empty module?".

(** [ModDirectPackage]: open, read the direct package, close. *)
Definition ModDirectPackage (E : Env) (modFile : string) (fs : FS)
  : result Package * FS :=
  match OpenModFile E modFile fs with
  | Fail e => (Fail e, fs)
  | Panic s => (Panic s, fs)
  | Ok mf =>
      let r := match directPackage mf with
               | None => Fail errNoDirectPackage
               | Some p => Ok p
               end in
      let '(c, _, fs1) := Close E mf fs in
      (errcapture r c "close", fs1)
  end.

(** [ModIndirectModules]: the coordinates of the indirect require
    lines of a file. *)
Definition ModIndirectModules (E : Env) (modFile : string) (fs : FS)
  : result (list module.Version) :=
  match parseContent E (os.ReadFile fs modFile) with
  | Ok file => Ok (map modfile.Mod (List.filter modfile.Indirect (modfile.Requires file)))
  | Fail e => Fail e
  | Panic s => Panic s
  end.

(** [NameFromModFile]: the tool name of a manifest file. *)
Definition NameFromModFile (modFile : string) : string * bool :=
  let n := strings.Split (strings.TrimSuffix (filepath.Base modFile) ".mod") "." in
  (hd "" n, (1 <? length n)%nat).

Record PackageVersionRenderable : Type := mkPackageVersionRenderable {
  pv_Version : string;
  pv_ModFile : string
}.

Record PackageRenderable : Type := mkPackageRenderable {
  Name : string;
  ModPath : string;
  PackagePath : string;
  EnvVarName : string;
  Versions : list PackageVersionRenderable;
  pr_BuildFlags : list string;
  pr_BuildEnvVars : list string
}.

Definition ToPackages (p : PackageRenderable) : list Package :=
  map (fun v =>
         let relPath := default "" (filepath.Rel (ModPath p) (PackagePath p)) in
         {| Module_ := module.mkVersion (ModPath p) (pv_Version v);
            RelPath := relPath; BuildEnvs := []; BuildFlags := [] |})
      (Versions p).

(** The version of one more manifest of a tool that is listed already:
    the file without index comes first. *)
Fixpoint addVersion (name varName base : string) (v : PackageVersionRenderable)
    (pkgs : list PackageRenderable) : option (list PackageRenderable) :=
  match pkgs with
  | [] => None
  | p :: rest =>
      if String.eqb (Name p) name then
        Some ({| Name := Name p; ModPath := ModPath p; PackagePath := PackagePath p;
                 EnvVarName := varName +:+ "_ARRAY";
                 Versions := if String.eqb base (Name p +:+ ".mod")
                             then v :: Versions p else Versions p ++ [v];
                 pr_BuildFlags := pr_BuildFlags p;
                 pr_BuildEnvVars := pr_BuildEnvVars p |} :: rest)
      else option_map (cons p) (addVersion name varName base v rest)
  end.

(** The loop of [ListPinnedMainPackages] over the manifest files. *)
Fixpoint listLoop (E : Env) (remMalformed : bool) (modFiles : list string)
    (pkgs : list PackageRenderable) (fs : FS)
  : result (list PackageRenderable) * FS :=
  match modFiles with
  | [] => (Ok pkgs, fs)
  | file :: rest =>
      if String.eqb (filepath.Base file) FakeRootModFileName
      then listLoop E remMalformed rest pkgs fs
      else
        match ModDirectPackage E file fs with
        | (Panic s, fs1) => (Panic s, fs1)
        | (Fail _, fs1) =>
            listLoop E remMalformed rest pkgs
              (if remMalformed
               then os.RemoveAll fs1 (strings.TrimSuffix file "." +:+ "*")
               else fs1)
        | (Ok pkg, fs1) =>
            let name := fst (NameFromModFile file) in
            let varName :=
              strings.ReplaceAll (strings.ReplaceAll (strings.ToUpper name) "." "_")
                                 "-" "_" in
            let v := {| pv_Version := module.Vers (Module_ pkg);
                        pv_ModFile := filepath.Base file |} in
            match addVersion name varName (filepath.Base file) v pkgs with
            | Some pkgs' => listLoop E remMalformed rest pkgs' fs1
            | None =>
                listLoop E remMalformed rest
                  (pkgs ++ [ {| Name := name; ModPath := module.Path (Module_ pkg);
                                PackagePath := Path pkg; EnvVarName := varName;
                                Versions := [v];
                                pr_BuildFlags := BuildFlags pkg;
                                pr_BuildEnvVars := BuildEnvs pkg |} ])
                  fs1
            end
        end
  end.

(** [ListPinnedMainPackages]: the pinned tools, in the order of the
    directory. *)
Definition ListPinnedMainPackages (E : Env) (remMalformed : bool) (fs : FS)
  : result (list PackageRenderable) * FS :=
  match Glob E "*.mod" fs with
  | Ok modFiles => listLoop E remMalformed modFiles [] fs
  | Fail e => (Fail e, fs)
  | Panic s => (Panic s, fs)
  end.

End bingo.

(** ** get.go: the clean-up of temporary files *)

Definition removeAllGlob (E : Env) (glob : string) : M unit :=
  fun w =>
    match Glob E glob (pin w) with
    | Ok files => (Ok tt, setPin w (fold_left os.RemoveAll files (pin w)))
    | Fail e => (Fail e, w)
    | Panic s => (Panic s, w)
    end.

Definition cleanGoGetTmpFiles (E : Env) : M unit :=
  removeAllGlob E "*.sum" ;;;
  removeAllGlob E "*.*.tmp.*" ;;;
  removeAllGlob E "*.tmp.*".

Definition existingModFiles (E : Env) (targetName : string) (fs : FS)
  : result (list string) :=
  match Glob E (targetName +:+ ".mod") fs with
  | Ok existingModFiles =>
      match Glob E (targetName +:+ ".*.mod") fs with
      | Ok existingModArrFiles => Ok (existingModFiles ++ existingModArrFiles)
      | r => r
      end
  | r => r
  end.

Definition errSameName : error := Errorf "cannot be the same as module name %v".
Definition errWithNone : error := Errorf "cannot use with @none logic".

Definition validateNewName (versions : list string) (old new : string) : option error :=
  if String.eqb new old then Some errSameName
  else if String.eqb (hd "" versions) "none" then Some errWithNone
  else None.

Definition errAmbiguousName : error :=
  Errorf "package would be installed with ambiguous name %s.".
Definition errImpossibleName : error :=
  Errorf "requested binary with name %q`. This is impossible, choose different name using -n flag".

Definition validateTargetName (targetName : string) : option error :=
  if String.eqb targetName "cmd" then Some errAmbiguousName
  else if String.eqb targetName (strings.TrimSuffix bingo.FakeRootModFileName ".mod")
  then Some errImpossibleName
  else None.

(** ** get.go: the cache prober *)

Definition gomodcache (E : Env) : string :=
  let cachepath := Getenv E "GOMODCACHE" in
  let gpath := Getenv E "GOPATH" in
  if negb (String.eqb gpath "") && String.eqb cachepath ""
  then filepath.Join [gpath; "pkg/mod"]
  else cachepath.

Definition errEmptyFile : error := Errorf "empty file".
Definition errIsDirectory : error := Errorf "is a directory".
Definition errNotDirectory : error := Errorf "not a directory".

(** [latestModVersion]: the last line of the list file. *)
Definition latestModVersion (E : Env) (listFile : string) : result string :=
  match host E listFile with
  | None => Fail os.errNotExist
  | Some (HostErr e) => Fail e
  | Some (HostDir _) => Fail errIsDirectory
  | Some (HostFile lines _) =>
      let lastVersion := List.last lines "" in
      if String.eqb lastVersion "" then Fail errEmptyFile else Ok lastVersion
  end.

(** [ioutil.ReadDir] on the host. *)
Definition ReadDir (E : Env) (dir : string) : result (list (string * bool)) :=
  match host E dir with
  | None => Fail os.errNotExist
  | Some (HostErr e) => Fail e
  | Some (HostFile _ _) => Fail errNotDirectory
  | Some (HostDir entries) => Ok entries
  end.

Definition errNoCachedModule : error :=
  Errorf "no module was cached matching given package %v".

(** The package once its module is known to be [modulePath] at
    [version]: the module path is cut off the relative path. *)
Definition resolved (target : bingo.Package) (modulePath version : string)
  : bingo.Package :=
  {| bingo.Module_ := module.mkVersion modulePath version;
     bingo.RelPath :=
       strings.TrimPrefix (strings.TrimPrefix (bingo.RelPath target) modulePath) "/";
     bingo.BuildEnvs := bingo.BuildEnvs target;
     bingo.BuildFlags := bingo.BuildFlags target |}.

(** The test of the scan for a revision: a file, and a name that ends
    with the first twelve bytes of the revision and [.info]. *)
Definition infoMatches (version : string) (entry : string * bool) : bool :=
  negb (snd entry) &&
  (12 <? String.length version)%nat &&
  strings.HasSuffix (fst entry) (substring 0 12 version +:+ ".info").

(** The loop of [resolveInGoModCache], from the candidate [modulePath]
    on.  Each turn replaces the candidate by its directory, which is
    shorter; [fuel] bounds the turns and [None] is its exhaustion. *)
Fixpoint probe (fuel : nat) (E : Env) (verbose : bool)
    (update : runner.GetUpdatePolicy) (target : bingo.Package)
    (modulePath : string) : option (result bingo.Package) :=
  match fuel with
  | O => None
  | S fuel =>
      if negb (2 <? length (strings.Split modulePath "/"))%nat
      then Some (Fail errNoCachedModule)
      else
        let continue := probe fuel E verbose update target (filepath.Dir modulePath) in
        let modMetaCache := filepath.Join [gomodcache E; "cache/download"] in
        let modMetaDir := filepath.Join [modMetaCache; modulePath; "@v"] in
        let version := module.Vers (bingo.Module_ target) in
        match host E modMetaDir with
        | None => continue
        | Some (HostErr e) => Some (Fail e)
        | Some _ =>
            if negb (runner.isNoUpdate update) || String.eqb version "" then
              match latestModVersion E (filepath.Join [modMetaDir; "list"]) with
              | Ok latest => Some (Ok (resolved target modulePath latest))
              | Fail e => Some (Fail (Wrap e "get latest version from %v"))
              | Panic s => Some (Panic s)
              end
            else if strings.HasPrefix version "v" then
              match host E (filepath.Join [modMetaDir; version +:+ ".info"]) with
              | None => continue
              | Some (HostErr e) => Some (Fail e)
              | Some _ => Some (Ok (resolved target modulePath version))
              end
            else
              match ReadDir E modMetaDir with
              | Ok files =>
                  match find (infoMatches version) files with
                  | Some entry =>
                      Some (Ok (resolved target modulePath
                                         (strings.TrimSuffix (fst entry) ".info")))
                  | None =>
                      if verbose && (String.length version <? 12)%nat
                      then Some (Panic bingo.errSliceBounds)
                      else continue
                  end
              | Fail e => Some (Fail e)
              | Panic s => Some (Panic s)
              end
        end
  end.

Definition errOutOfFuel : string := "probe: out of fuel".

(** [resolveInGoModCache]: the probe from the full package path on. *)
Definition resolveInGoModCache (E : Env) (verbose : bool)
    (update : runner.GetUpdatePolicy) (target : bingo.Package)
  : result bingo.Package :=
  let modulePath := bingo.Path target in
  match probe (S (String.length modulePath)) E verbose update target modulePath with
  | Some r => r
  | None => Panic errOutOfFuel
  end.

(** ** get.go: the version-resolution engine *)

Definition errNoIndirectModule : error := Errorf "no indirect module found on %v".
Definition errNoIndirectModuleFor : error :=
  Errorf "no indirect module found on %v for %v module".
Definition ctxFallbackFailed : string :=
  "fallback to local go mod cache resolution failed after go get failure: %v".

(** The fallback of [resolvePackage] to the cache, after the failure
    [gerr] of the toolchain. *)
Definition cacheFallback (E : Env) (verbose : bool) (update : runner.GetUpdatePolicy)
    (target : bingo.Package) (gerr : error) : result bingo.Package :=
  match resolveInGoModCache E verbose update target with
  | Fail e => Fail (Wrapf e ctxFallbackFailed gerr)
  | r => r
  end.

Definition pathIs (p : string) (m : module.Version) : bool :=
  String.eqb (module.Path m) p.

(** What [resolvePackage] does with the indirect modules of the
    populated manifest after a successful [go get -d] that printed
    [out]. *)
Definition pickModule (E : Env) (verbose : bool) (update : runner.GetUpdatePolicy)
    (target : bingo.Package) (out : string) (mods : list module.Version)
  : result bingo.Package :=
  match mods with
  | [] => Fail errNoIndirectModule
  | [m0] => Ok (resolved target (module.Path m0) (module.Vers m0))
  | _ =>
      if negb (String.eqb (module.Path (bingo.Module_ target)) "") then
        match find (pathIs (module.Path (bingo.Module_ target))) mods with
        | Some m => Ok (resolved target (module.Path m) (module.Vers m))
        | None => Fail errNoIndirectModuleFor
        end
      else
        match find (pathIs (bingo.Path target)) mods with
        | Some m => Ok (resolved target (module.Path m) (module.Vers m))
        | None => cacheFallback E verbose update target (Errorf out)
        end
  end.

Definition resolvePackage (E : Env) (verbose : bool) (tmpModFile : string)
    (update : runner.GetUpdatePolicy) (target : bingo.Package) : M bingo.Package :=
  fun w =>
    let '((out, gerr), fs) := GoGetD E tmpModFile update (bingo.String target) (pin w) in
    let w1 := logCall (CallGetD tmpModFile (bingo.String target)) (setPin w fs) in
    match gerr with
    | None =>
        match bingo.ModIndirectModules E tmpModFile fs with
        | Ok mods => (pickModule E verbose update target out mods, w1)
        | Fail e => (Fail e, w1)
        | Panic s => (Panic s, w1)
        end
    | Some e => (cacheFallback E verbose update target e, w1)
    end.

(** The escaping of [localGoModFileAfterGet]: an upper-case letter
    becomes an exclamation mark and the lower-case letter. *)
Fixpoint escapeUpper (s : string) : string :=
  match s with
  | EmptyString => EmptyString
  | String c r =>
      let n := nat_of_ascii c in
      if ((65 <=? n) && (n <=? 90))%nat
      then String "!" (String (strings.lower c) (escapeUpper r))
      else String c (escapeUpper r)
  end.

Definition localGoModFileAfterGet (gopath : string) (target : bingo.Package) : string :=
  let modulePath := module.String (bingo.Module_ target) in
  filepath.Join [gopath; "pkg"; "mod"; escapeUpper modulePath; "go.mod"].

(** [autoFetchReplaceStatements]: the replace lines of the manifest of
    the target module itself, when the toolchain extracted one. *)
Definition autoFetchReplaceStatements (E : Env) (target : bingo.Package)
  : result (list modfile.Replace) :=
  match GoEnv E "GOPATH" with
  | Ok gopath =>
      let targetModFile := localGoModFileAfterGet gopath target in
      match host E targetModFile with
      | None => Ok []
      | Some (HostErr e) => Fail (Wrap e "stat target mod directory %v")
      | Some (HostDir _) => Fail (Wrap (Wrap errIsDirectory "read") "parse target mod file %v")
      | Some (HostFile _ None) =>
          Fail (Wrap (Wrap modfile.errParse "parse") "parse target mod file %v")
      | Some (HostFile _ (Some t)) =>
          match modfile.Parse (CheckRequire E) t with
          | Ok targetModParsed => Ok (modfile.Replaces targetModParsed)
          | Fail e => Fail (Wrap (Wrap e "parse") "parse target mod file %v")
          | Panic s => Panic s
          end
      end
  | Fail e => Fail (Wrap e "go env")
  | Panic s => Panic s
  end.

(** ** get.go: the install orchestrator *)

Record getConfig : Type := mkGetConfig {
  update : runner.GetUpdatePolicy;
  name : string;
  rename : string;
  link : bool;
  verbose : bool
}.

Definition errNonMain : error :=
  Errorf "package %s is non-main (go list output %q), nothing to get and build".

Definition setBin (w : World) (b : gmap string binfile) : World :=
  {| pin := pin w; bin := b; calls := calls w |}.

(** [install]: check that the package is a main package, build the
    versioned binary, link it.  A file of the install directory is
    addressed by its name in it. *)
Definition install (E : Env) (name : string) (link : bool) (modFile : bingo.ModFile)
  : M unit :=
  fun w =>
    match bingo.DirectPackage modFile with
    | None => (Panic bingo.errNilFile, w)
    | Some pkg =>
        match validateTargetName name with
        | Some e => (Fail (Wrap e (bingo.String pkg)), w)
        | None =>
            let listArgs :=
              bingo.BuildFlags pkg ++ ["-mod=mod"; "-f={{.Name}}"; bingo.Path pkg] in
            let '(listed, fs1) := GoList E (bingo.FileName modFile) listArgs (pin w) in
            let w1 := logCall (CallList (bingo.FileName modFile) listArgs) (setPin w fs1) in
            match listed with
            | Fail e => (Fail (Wrap e "list"), w1)
            | Panic s => (Panic s, w1)
            | Ok listOutput =>
                if negb (strings.HasSuffix listOutput "main") then (Fail errNonMain, w1)
                else
                  let binPath := name +:+ "-" +:+ module.Vers (bingo.Module_ pkg) in
                  let '(built, fs2) :=
                    GoBuild E (bingo.FileName modFile) (bingo.BuildEnvs pkg)
                            (bingo.Path pkg) binPath (bingo.BuildFlags pkg) fs1 in
                  let w2 := logCall (CallBuild (bingo.FileName modFile) (bingo.Path pkg) binPath)
                                    (setPin w1 fs2) in
                  match built with
                  | Some e => (Fail (Wrap e "build versioned"), w2)
                  | None =>
                      let w3 := setBin w2 (<[binPath := Binary (bingo.Path pkg)
                                                              (bingo.FileName modFile)]> (bin w2)) in
                      if negb link then (Ok tt, w3)
                      else (Ok tt, setBin w3 (<[name := Symlink binPath]> (delete name (bin w3))))
                  end
            end
        end
    end.

Definition decimal (i : nat) : string := NilZero.string_of_uint (Nat.to_uint i).

(** The file of record, the empty temporary file and the temporary file
    of the tool [name] at index [i]. *)
Definition modFileNames (i : nat) (name : string) : string * string * string :=
  if (0 <? i)%nat then
    (name +:+ "." +:+ decimal i +:+ ".mod",
     name +:+ "." +:+ decimal i +:+ "-e.tmp.mod",
     name +:+ "." +:+ decimal i +:+ ".tmp.mod")
  else (name +:+ ".mod", name +:+ "-e.tmp.mod", name +:+ ".tmp.mod").

(** A deferred [Close] whose error is captured in the returned one. *)
Definition closeCaptured {A} (E : Env) (mf : bingo.ModFile) (r : result A) (w : World)
  : result A * World :=
  let '(c, _, fs) := bingo.Close E mf (pin w) in
  (errcapture r c "close", setPin w fs).

(** A deferred [Close] whose error goes to a variable that is not the
    returned one: only a panic is seen. *)
Definition closeDropped {A} (E : Env) (mf : bingo.ModFile) (r : result A) (w : World)
  : result A * World :=
  let '(c, _, fs) := bingo.Close E mf (pin w) in
  (match r, c with
   | Panic s, _ => Panic s
   | _, Panic s => Panic s
   | _, _ => r
   end, setPin w fs).

(** Does the target need the version-resolution engine? *)
Definition needsResolve (u : runner.GetUpdatePolicy) (target : bingo.Package) : bool :=
  let version := module.Vers (bingo.Module_ target) in
  String.eqb version "" || negb (strings.HasPrefix version "v") ||
  String.eqb (module.Path (bingo.Module_ target)) "" || negb (runner.isNoUpdate u).

Definition withBuild (target old : bingo.Package) : bingo.Package :=
  {| bingo.Module_ := bingo.Module_ target; bingo.RelPath := bingo.RelPath target;
     bingo.BuildEnvs := bingo.BuildEnvs old; bingo.BuildFlags := bingo.BuildFlags old |}.

(** [getPackage] once the temporary manifest is open: replace lines,
    direct require, flush, install, and the rename that commits.  The
    manifest object goes through, for the deferred close. *)
Definition commitPackage (E : Env) (c : getConfig) (name outModFile : string)
    (target : bingo.Package) (replaceStmts : list modfile.Replace)
    (tmpModFile : bingo.ModFile) (w : World) : result unit * bingo.ModFile * World :=
  match (if negb (bingo.AutoReplaceDisabled tmpModFile) && (0 <? length replaceStmts)%nat
         then bingo.SetReplace tmpModFile replaceStmts else Ok tmpModFile) with
  | Panic s => (Panic s, tmpModFile, w)
  | Fail e => (Fail e, tmpModFile, w)
  | Ok mf1 =>
      let target := match bingo.DirectPackage mf1 with
                    | Some old => withBuild target old
                    | None => target
                    end in
      match bingo.SetDirectRequire mf1 target with
      | Panic s => (Panic s, mf1, w)
      | Fail e => (Fail e, mf1, w)
      | Ok mf2 =>
          match bingo.Flush E mf2 (pin w) with
          | (Panic s, mf3, fs) => (Panic s, mf3, setPin w fs)
          | (Fail e, mf3, fs) => (Fail e, mf3, setPin w fs)
          | (Ok _, mf3, fs) =>
              match install E name (link c) mf3 (setPin w fs) with
              | (Panic s, w1) => (Panic s, mf3, w1)
              | (Fail e, w1) => (Fail (Wrap e "install"), mf3, w1)
              | (Ok _, w1) =>
                  match os.Rename (pin w1) (bingo.FileName mf3) outModFile with
                  | (Ok _, fs2) =>
                      (Ok tt, mf3,
                       logCall (CallRename (bingo.FileName mf3) outModFile) (setPin w1 fs2))
                  | (Fail e, fs2) => (Fail (Wrap e "rename"), mf3, setPin w1 fs2)
                  | (Panic s, fs2) => (Panic s, mf3, setPin w1 fs2)
                  end
              end
          end
      end
  end.

(** [getPackage] from the clean-up before the temporary manifest on. *)
Definition stagePackage (E : Env) (c : getConfig) (name outModFile tmpModFilePath : string)
    (target : bingo.Package) (replaceStmts : list modfile.Replace) : M unit :=
  fun w =>
    match cleanGoGetTmpFiles E w with
    | (Ok _, w1) =>
        match wrapM "create tmp mod file"
                (bingo.CreateFromExistingOrNew E outModFile tmpModFilePath) w1 with
        | (Ok tmpModFile, w2) =>
            let '(r, mf, w3) :=
              commitPackage E c name outModFile target replaceStmts tmpModFile w2 in
            closeCaptured E mf r w3
        | (Fail e, w2) => (Fail e, w2)
        | (Panic s, w2) => (Panic s, w2)
        end
    | (Fail e, w1) => (Fail e, w1)
    | (Panic s, w1) => (Panic s, w1)
    end.

(** [getPackage]: the manifest of the tool [name] at index [i] is
    regenerated for [target], the binary built, and the manifest
    committed. *)
Definition getPackage (E : Env) (c : getConfig) (i : nat) (name : string)
    (target : bingo.Package) : M unit :=
  fun w =>
    let '(outModFile, tmpEmptyModFilePath, tmpModFilePath) := modFileNames i name in
    if needsResolve (update c) target then
      match wrapM "create empty tmp mod file"
              (bingo.CreateFromExistingOrNew E "" tmpEmptyModFilePath) w with
      | (Ok tmpEmptyModFile, w1) =>
          let '(r, w2) :=
            (target' <- resolvePackage E (verbose c) (bingo.FileName tmpEmptyModFile)
                                       (update c) target ;;
             replaceStmts <-
               (fun w => (if negb (strings.HasSuffix (module.Vers (bingo.Module_ target'))
                                                     "+incompatible")
                          then autoFetchReplaceStatements E target'
                          else Ok [], w)) ;;
             stagePackage E c name outModFile tmpModFilePath target' replaceStmts) w1 in
          closeDropped E tmpEmptyModFile r w2
      | (Fail e, w1) => (Fail e, w1)
      | (Panic s, w1) => (Panic s, w1)
      end
    else stagePackage E c name outModFile tmpModFilePath target [] w.

(** ** get.go: the multi-target driver *)

(** The [getPackage] of each target, the index counting from [i];
    [ctx] is the context the error is wrapped in. *)
Fixpoint getEach (E : Env) (c : getConfig) (ctx : string) (name : string) (i : nat)
    (targets : list bingo.Package) : M unit :=
  match targets with
  | [] => ret tt
  | t :: rest =>
      wrapM ctx (getPackage E c i name t) ;;;
      getEach E c ctx name (S i) rest
  end.

Definition errNameNoTarget : error :=
  Errorf "name cannot by specified if no target was given".
Definition errRenameNoTarget : error :=
  Errorf "rename cannot by specified if no target was given".

Fixpoint getAllLoop (E : Env) (c : getConfig) (pkgs : list bingo.PackageRenderable)
  : M unit :=
  match pkgs with
  | [] => ret tt
  | p :: rest =>
      getEach E c "%d: getting %s" (bingo.Name p) 0 (bingo.ToPackages p) ;;;
      getAllLoop E c rest
  end.

Definition getAll (E : Env) (c : getConfig) : M unit :=
  if negb (String.eqb (name c) "") then fail errNameNoTarget
  else if negb (String.eqb (rename c) "") then fail errRenameNoTarget
  else
    pkgs <- (fun w => let '(r, fs) := bingo.ListPinnedMainPackages E false (pin w) in
                      (r, setPin w fs)) ;;
    getAllLoop E c pkgs.

Definition fakeRootMod : content :=
  Manifest {| modfile.t_module :=
                Some ["// Fake go.mod auto-created by 'bingo' for go -moddir compatibility with non-Go projects. Commit this file, together with other .mod files."];
              modfile.t_require := []; modfile.t_replace := [];
              modfile.t_comments := [] |}.

Definition modREADME : content := Bytes "# Project Development Dependencies.".
Definition gitignore : content := Bytes "# Ignore everything".

(** [ensureModDirExists]: the fixed files of the pin directory are
    written anew (their text is shortened here). *)
Definition ensureModDirExists : M unit :=
  modifyPin (fun fs => os.WriteFile fs bingo.FakeRootModFileName fakeRootMod) ;;;
  modifyPin (fun fs => os.WriteFile fs "README.md" modREADME) ;;;
  modifyPin (fun fs => os.WriteFile fs ".gitignore" gitignore).

(** [strconv.ParseInt(s, 10, 64)]. *)
Fixpoint parseDigits (s : string) (acc : Z) : option Z :=
  match s with
  | EmptyString => Some acc
  | String a r =>
      if isDigit a
      then parseDigits r (10 * acc + Z.of_nat (nat_of_ascii a - 48))%Z
      else None
  end.

Definition ParseInt (s : string) : option Z :=
  let '(neg, body) :=
    match s with
    | String "-" r => (true, r)
    | String "+" r => (false, r)
    | _ => (false, s)
    end in
  if String.eqb body "" then None
  else
    match parseDigits body 0%Z with
    | None => None
    | Some un =>
        if neg then (if (un <=? 2 ^ 63)%Z then Some (- un)%Z else None)
        else (if (un <? 2 ^ 63)%Z then Some un else None)
    end.

(** How a loop of [get] over the manifests ends: with the targets, or
    with a [return]. *)
Inductive loopEnd : Type :=
| Targets (targets : list bingo.Package)
| Return (r : result unit).

(** The deferred closes of the manifests opened by [get], the last
    opened first. *)
Fixpoint closeAll {A} (E : Env) (opened : list bingo.ModFile) (r : result A) (w : World)
  : result A * World :=
  match opened with
  | [] => (r, w)
  | mf :: rest =>
      let '(r1, w1) := closeDropped E mf r w in
      closeAll E rest r1 w1
  end.

Definition ctxUnparsable : string :=
  "found unparsable mod file %v. Uninstall it first via get %v@none or fix it manually.".

(** The loop of the rename over the existing manifests: [opened] are the
    manifests opened so far, the last first. *)
Fixpoint renameTargets (E : Env) (existing : list string) (fs : FS)
    (opened : list bingo.ModFile) (targets : list bingo.Package)
  : loopEnd * list bingo.ModFile :=
  match existing with
  | [] => (Targets targets, opened)
  | e :: rest =>
      match bingo.OpenModFile E e fs with
      | Fail err => (Return (Fail (Wrap err ctxUnparsable)), opened)
      | Panic s => (Return (Panic s), opened)
      | Ok mf =>
          match bingo.DirectPackage mf with
          | None => (Return (Ok tt), mf :: opened)
          | Some p => renameTargets E rest fs (mf :: opened) (targets ++ [p])
          end
      end
  end.

Definition errRenameByPath : error :=
  Errorf "-r rename has to reference installed tool by name not path, got: %v".
Definition errRenameVersions : error :=
  Errorf "-r rename cannot take version arguments (string after @), got %v".
Definition errRenameTaken : error :=
  Errorf "found existing installed binaries %v under name you want to rename on.".
Definition errNothingToRename : error := Errorf "nothing to rename, tool %v not installed".
Definition ctxExisting : string := "existing mod files for %v".
Definition ctxGetting : string := "%s.mod: getting %s".

Definition hasVersionArgs (versions : list string) : bool :=
  negb (String.eqb (hd "" versions) "") || (1 <? length versions)%nat.

(** The rename branch of [get]. *)
Definition getRename (E : Env) (c : getConfig) (name pkgPath : string)
    (versions : list string) : M unit :=
  if negb (String.eqb pkgPath "") then fail errRenameByPath
  else if hasVersionArgs versions then fail errRenameVersions
  else
    match validateNewName versions name (rename c) with
    | Some e => fail (Wrap e "-r")
    | None =>
        fun w =>
          match existingModFiles E (rename c) (pin w) with
          | Fail e => (Fail (Wrap e ctxExisting), w)
          | Panic s => (Panic s, w)
          | Ok newExisting =>
              if (0 <? length newExisting)%nat then (Fail errRenameTaken, w)
              else
                match existingModFiles E name (pin w) with
                | Fail e => (Fail (Wrap e ctxExisting), w)
                | Panic s => (Panic s, w)
                | Ok existing =>
                    if (length existing =? 0)%nat then (Fail errNothingToRename, w)
                    else
                      let '(ended, opened) := renameTargets E existing (pin w) [] [] in
                      let '(r, w1) :=
                        match ended with
                        | Return r => (r, w)
                        | Targets targets =>
                            (getEach E c ctxGetting (rename c) 0 targets ;;;
                             removeAllGlob E (name +:+ ".*")) w
                        end in
                      closeAll E opened r w1
                end
          end
    end.

Definition errDifferentPath : error :=
  Errorf "found mod file %v that has different package path %q than given %q".
Definition errDifferentArrayPath : error :=
  Errorf "found array mod file %v that has different package path %q than previous in array %q. Manual edit?".
Definition errNeverInstalled : error :=
  Errorf "tool referenced by name %v that was never installed before; Use full path to install a tool".

(** The loop of [get] over the requested versions: [i] is the index,
    [pkgPath] the package path known so far. *)
Fixpoint installTargets (E : Env) (c : getConfig) (pathWasSpecified : bool)
    (existing : list string) (fs : FS) (i : nat) (versions : list string)
    (pkgPath : string) (opened : list bingo.ModFile) (targets : list bingo.Package)
  : loopEnd * list bingo.ModFile :=
  match versions with
  | [] => (Targets targets, opened)
  | v :: rest =>
      let target := {| bingo.Module_ := module.mkVersion "" v; bingo.RelPath := pkgPath;
                       bingo.BuildEnvs := []; bingo.BuildFlags := [] |} in
      let finish (target : bingo.Package) (pkgPath : string) (opened : list bingo.ModFile) :=
        if String.eqb (bingo.Path target) "" then (Return (Fail errNeverInstalled), opened)
        else installTargets E c pathWasSpecified existing fs (S i) rest pkgPath opened
                            (targets ++ [target]) in
      match nth_error existing i with
      | None => finish target pkgPath opened
      | Some e =>
          match bingo.OpenModFile E e fs with
          | Fail err => (Return (Fail (Wrap err ctxUnparsable)), opened)
          | Panic s => (Return (Panic s), opened)
          | Ok mf =>
              let opened := mf :: opened in
              match bingo.DirectPackage mf with
              | Some direct =>
                  if negb (String.eqb (bingo.Path target) "") &&
                     negb (String.eqb (bingo.Path target) (bingo.Path direct))
                  then (Return (Fail (if pathWasSpecified then errDifferentPath
                                      else errDifferentArrayPath)), opened)
                  else
                    let version :=
                      if String.eqb v "" && runner.isNoUpdate (update c)
                      then module.Vers (bingo.Module_ direct) else v in
                    let target :=
                      {| bingo.Module_ :=
                           module.mkVersion (module.Path (bingo.Module_ direct)) version;
                         bingo.RelPath := bingo.RelPath direct;
                         bingo.BuildEnvs := []; bingo.BuildFlags := [] |} in
                    finish target (bingo.Path target) opened
              | None =>
                  if String.eqb (bingo.Path target) "" then (Return (Ok tt), opened)
                  else finish target pkgPath opened
              end
          end
      end
  end.

Definition errIndexOutOfRange : string := "index out of range".

(** The last loop of [get]: the array manifests beyond the requested
    versions are removed. *)
Fixpoint dropUnusedArrFiles (files : list string) (n : nat) (fs : FS) : result unit * FS :=
  match files with
  | [] => (Ok tt, fs)
  | file :: rest =>
      match strings.Split (filepath.Base file) "." with
      | _ :: index :: _ =>
          match ParseInt index with
          | Some i =>
              if (Z.of_nat n <=? i)%Z then dropUnusedArrFiles rest n (os.RemoveAll fs file)
              else dropUnusedArrFiles rest n fs
          | None => dropUnusedArrFiles rest n (os.RemoveAll fs file)
          end
      | _ => (Panic errIndexOutOfRange, fs)
      end
  end.

Definition errDeleteByPath : error :=
  Errorf "cannot delete tool by full path. Use just %v@none name instead".
Definition errNothingToDelete : error :=
  Errorf "nothing to delete, tool %v is not installed".

(** The branch of [get] for one tool: uninstall, or install each
    requested version. *)
Definition getTool (E : Env) (c : getConfig) (name0 pkgPath : string)
    (versions : list string) : M unit :=
  match (if negb (String.eqb (name c) "")
         then match validateNewName versions name0 (name c) with
              | Some e => Fail (Wrap e "-n")
              | None => Ok (name c)
              end
         else Ok name0) with
  | Fail e => fail e
  | Panic s => fun w => (Panic s, w)
  | Ok targetName =>
      fun w =>
        match existingModFiles E targetName (pin w) with
        | Fail e => (Fail (Wrap e ctxExisting), w)
        | Panic s => (Panic s, w)
        | Ok existing =>
            if String.eqb (hd "" versions) "none" then
              if negb (String.eqb pkgPath "") then (Fail errDeleteByPath, w)
              else if (length existing =? 0)%nat then (Fail errNothingToDelete, w)
              else removeAllGlob E (name0 +:+ ".*") w
            else
              let versions :=
                if String.eqb (hd "" versions) "" && (1 <? length existing)%nat &&
                   runner.isNoUpdate (update c)
                then repeat "" (length existing) else versions in
              let '(ended, opened) :=
                installTargets E c (negb (String.eqb pkgPath "")) existing (pin w) 0
                               versions pkgPath [] [] in
              let '(r, w1) :=
                match ended with
                | Return r => (r, w)
                | Targets targets =>
                    (getEach E c ctxGetting targetName 0 targets ;;;
                     (fun w =>
                        match Glob E (targetName +:+ ".*.mod") (pin w) with
                        | Ok files =>
                            let '(r, fs) := dropUnusedArrFiles files (length versions) (pin w) in
                            (r, setPin w fs)
                        | Fail e => (Fail e, w)
                        | Panic s => (Panic s, w)
                        end)) w
                end in
              closeAll E opened r w1
        end
  end.

Definition errUpgradeVersions : error :=
  Errorf "-u specified; upgrade cannot take version arguments (string after @), got %v".

(** [get]: bingo get. *)
Definition get (E : Env) (c : getConfig) (rawTarget : string) : M unit :=
  cleanGoGetTmpFiles E ;;;
  wrapM "ensure mod dir" ensureModDirExists ;;;
  if String.eqb rawTarget "" then getAll E c
  else
    match parseTarget rawTarget with
    | Fail e => fail (Wrap e "parse %v")
    | Panic s => fun w => (Panic s, w)
    | Ok (name0, pkgPath, versions) =>
        if negb (runner.isNoUpdate (update c)) && hasVersionArgs versions
        then fail errUpgradeVersions
        else if negb (String.eqb (rename c) "")
        then getRename E c name0 pkgPath versions
        else getTool E c name0 pkgPath versions
    end.

(** ** Sample collaborators

    Concrete collaborators, on which the engine can be run: a pattern
    matcher for the star, the question mark and literal bytes, and a
    toolchain that answers as told and writes an empty manifest when asked
    to initialise one. *)

Module sample.

Fixpoint globMatch (pattern : string) : string -> bool :=
  match pattern with
  | EmptyString => fun n => String.eqb n ""
  | String c p' =>
      if Ascii.eqb c "*" then
        fix star (n : string) : bool :=
          globMatch p' n ||
          match n with
          | EmptyString => false
          | String d n' => if Ascii.eqb d "/" then false else star n'
          end
      else
        fun n =>
          match n with
          | EmptyString => false
          | String d n' =>
              (if Ascii.eqb c "?" then negb (Ascii.eqb d "/") else Ascii.eqb c d)
              && globMatch p' n'
          end
  end.

(** Brackets and backslashes are not handled: such a pattern is
    reported as malformed. *)
Definition matchName (pattern name : string) : option bool :=
  if strings.Contains pattern "[" || strings.Contains pattern "\"
  then None else Some (globMatch pattern name).

Definition checkRequire (path version : string) : bool :=
  negb (String.eqb path "") && negb (String.eqb version "").

Definition emptyManifest : content :=
  Manifest {| modfile.t_module := Some []; modfile.t_require := [];
              modfile.t_replace := []; modfile.t_comments := [] |}.

(** The environment in which [go get -d] fails with [getErr], [go
    list] prints [listOutput], [go build] succeeds, and the host file
    system is [hostfs]. *)
Definition env (getErr : error) (listOutput : string)
    (hostfs : string -> option hostnode) : Env :=
  {| GoModInit := fun _ modFile fs => (None, os.WriteFile fs modFile emptyManifest);
     GoGetD := fun _ _ _ fs => (("", Some getErr), fs);
     GoList := fun _ _ fs => (Ok listOutput, fs);
     GoBuild := fun _ _ _ _ _ fs => (None, fs);
     GoEnv := fun _ => Ok "/go";
     Getenv := fun v => if String.eqb v "GOPATH" then "/go" else "";
     host := hostfs;
     Match := matchName;
     CheckRequire := checkRequire |}.

(** The same, with a [go get -d] that succeeds and leaves the require
    lines [lines] in the manifest it was given. *)
Definition envGet (lines : list modfile.ReqLine) (listOutput : string)
    (hostfs : string -> option hostnode) : Env :=
  {| GoModInit := fun _ modFile fs => (None, os.WriteFile fs modFile emptyManifest);
     GoGetD := fun modFile _ _ fs =>
       (("go: downloading", None),
        os.WriteFile fs modFile
          (Manifest {| modfile.t_module := Some []; modfile.t_require := lines;
                       modfile.t_replace := []; modfile.t_comments := [] |}));
     GoList := fun _ _ fs => (Ok listOutput, fs);
     GoBuild := fun _ _ _ _ _ fs => (None, fs);
     GoEnv := fun _ => Ok "/go";
     Getenv := fun v => if String.eqb v "GOPATH" then "/go" else "";
     host := hostfs;
     Match := matchName;
     CheckRequire := checkRequire |}.

Definition noHost : string -> option hostnode := fun _ => None.

(** A manifest that is open on the only file of a pin directory. *)
Definition manifest : bingo.ModFile :=
  {| bingo.filename := "z.mod"; bingo.f := 0;
     bingo.m := Some {| modfile.ModuleStmt := Some [bingo.metaComment];
                        modfile.Requires := []; modfile.Replaces := [];
                        modfile.Comments := [] |};
     bingo.directPackage := None; bingo.autoReplaceDisabled := false |}.

Definition manifestFS : FS :=
  {| names := {["z.mod" := 0%nat]};
     blocks := [Manifest {| modfile.t_module := Some [bingo.metaComment];
                            modfile.t_require := []; modfile.t_replace := [];
                            modfile.t_comments := [] |}] |}.

Definition quiet : Env := env (Errorf "go get failed") "main" noHost.

Definition toolZ : bingo.Package :=
  bingo.mkPackage (module.mkVersion "github.com/x/y" "v1.2.3") "cmd/z" [] [].

(** A flushed temporary manifest that pins [toolZ]. *)
Definition pinned : bingo.ModFile :=
  {| bingo.filename := "z.tmp.mod"; bingo.f := 0;
     bingo.m := Some (bingo.setDirectRequire
                        {| modfile.ModuleStmt := Some [bingo.metaComment];
                           modfile.Requires := []; modfile.Replaces := [];
                           modfile.Comments := [] |} toolZ);
     bingo.directPackage := Some toolZ; bingo.autoReplaceDisabled := false |}.

(** A download cache that holds the module [github.com/x/y], with two
    tagged versions and one revision. *)
Definition cacheXY (path : string) : option hostnode :=
  if String.eqb path "/go/pkg/mod/cache/download/github.com/x/y/@v" then
    Some (HostDir [("list", false); ("v1.0.0.info", false); ("v1.1.0.info", false);
                   ("v1.1.1-0.20200101000000-abcdef123456.info", false)])
  else if String.eqb path "/go/pkg/mod/cache/download/github.com/x/y/@v/list" then
    Some (HostFile ["v1.0.0"; "v1.1.0"] None)
  else if String.eqb path "/go/pkg/mod/cache/download/github.com/x/y/@v/v1.0.0.info" then
    Some (HostFile ["{}"] None)
  else None.

(** A download cache that holds the module [gopkg.in/yaml.v2]. *)
Definition cacheYaml (path : string) : option hostnode :=
  if String.eqb path "/go/pkg/mod/cache/download/gopkg.in/yaml.v2/@v" then
    Some (HostDir [("list", false); ("v2.4.0.info", false)])
  else if String.eqb path "/go/pkg/mod/cache/download/gopkg.in/yaml.v2/@v/list" then
    Some (HostFile ["v2.4.0"] None)
  else None.

(** A download cache whose only file for [github.com/x/y] starts with
    the first twelve bytes of a revision. *)
Definition cachePrefixed (path : string) : option hostnode :=
  if String.eqb path "/go/pkg/mod/cache/download/github.com/x/y/@v" then
    Some (HostDir [("abcdef123456-dirty.info", false)])
  else None.

(** The require lines of two indirect modules. *)
Definition twoMods : list modfile.ReqLine :=
  [ {| modfile.l_path := "github.com/a/a"; modfile.l_vers := "v1.0.0";
       modfile.l_suffix := ["// indirect"] |};
    {| modfile.l_path := "github.com/b/b"; modfile.l_vers := "v0.2.0";
       modfile.l_suffix := ["// indirect"] |} ].

(** A package of which only the full path is known. *)
Definition unknown (pkgPath version : string) : bingo.Package :=
  {| bingo.Module_ := module.mkVersion "" version; bingo.RelPath := pkgPath;
     bingo.BuildEnvs := []; bingo.BuildFlags := [] |}.

Definition emptyFS : FS := {| names := ∅; blocks := [] |}.

Definition emptyWorld : World := {| pin := emptyFS; bin := ∅; calls := [] |}.

(** The manifest text that pins [toolZ]. *)
Definition textZ : content :=
  Manifest {| modfile.t_module := Some [bingo.metaComment];
              modfile.t_require :=
                [ {| modfile.l_path := "github.com/x/y"; modfile.l_vers := "v1.2.3";
                     modfile.l_suffix := ["// cmd/z"] |} ];
              modfile.t_replace := []; modfile.t_comments := [] |}.

(** A world in which [toolZ] is installed as [z], next to the sum file
    of another tool. *)
Definition installed : World :=
  {| pin := os.WriteFile (os.WriteFile emptyFS "z.mod" textZ) "other.sum" (Bytes "h1:");
     bin := {["z-v1.2.3" := Binary "github.com/x/y/cmd/z" "z.tmp.mod"]};
     calls := [] |}.

(** The same manifest text without the marker on its module line, as
    after an edit by hand. *)
Definition textZunmarked : content :=
  Manifest {| modfile.t_module := Some [];
              modfile.t_require :=
                [ {| modfile.l_path := "github.com/x/y"; modfile.l_vers := "v1.2.3";
                     modfile.l_suffix := ["// cmd/z"] |} ];
              modfile.t_replace := []; modfile.t_comments := [] |}.

Definition edited : World :=
  {| pin := os.WriteFile emptyFS "z.mod" textZunmarked; bin := ∅; calls := [] |}.

(** The environment in which the package is listed as a library. *)
Definition library : Env := env (Errorf "go get failed") "lib" noHost.

Definition config : getConfig :=
  {| update := runner.NoUpdatePolicy; name := ""; rename := "";
     link := false; verbose := false |}.

End sample.

(** ** The words of the specification

    The notions in which the properties are stated. *)

(** The version list of a raw target: the comma-separated section
    after the first [@], or the single empty version. *)
Definition versionList (rawTarget : string) : list string :=
  match strings.Split rawTarget "@" with
  | _ :: s1 :: _ => strings.Split s1 ","
  | _ => [""]
  end.

(** The locator of a raw target: what stands before the first [@]. *)
Definition locator (rawTarget : string) : string := hd "" (strings.Split rawTarget "@").

(** [SetDirectRequire(r); Flush(); DirectPackage()] on the manifest
    [mf], open on the file system [fs]. *)
Definition roundTrip (E : Env) (mf : bingo.ModFile) (r : bingo.Package) (fs : FS)
  : result (option bingo.Package) :=
  match bingo.SetDirectRequire mf r with
  | Ok mf1 =>
      match bingo.Flush E mf1 fs with
      | (Ok _, mf2, _) => Ok (bingo.DirectPackage mf2)
      | (Fail e, _, _) => Fail e
      | (Panic s, _, _) => Panic s
      end
  | Fail e => Fail e
  | Panic s => Panic s
  end.

(** An open manifest: its syntax is there and its file is a file of
    the file system. *)
Definition isOpen (mf : bingo.ModFile) (fs : FS) : Prop :=
  is_Some (bingo.m mf) /\ (bingo.f mf < length (blocks fs))%nat.

Fixpoint noBlank (s : string) : bool :=
  match s with
  | EmptyString => true
  | String a r => negb (modfile.isSpace a) && noBlank r
  end.

(** A word: not empty, and without blank. *)
Definition plainWord (w : string) : bool := negb (String.eqb w "") && noBlank w.

(** A word that reads back as an environment entry. *)
Definition envWord (e : string) : bool :=
  plainWord e && strings.Contains e "=" && negb (strings.HasPrefix e "-").

(** A word that reads back as the relative path. *)
Definition pathWord (p : string) : bool :=
  plainWord p && negb (strings.Contains p "=") && negb (strings.HasPrefix p "-") &&
  negb (String.eqb p ".") && negb (String.eqb p "indirect") &&
  negb (String.eqb p "indirect;").

(** Words that read back as the build flags: the first one starts with
    a dash. *)
Definition flagWords (flags : list string) : bool :=
  match flags with
  | [] => true
  | f0 :: _ => strings.HasPrefix f0 "-" && forallb plainWord flags
  end.

(** The records whose comment can be read back word by word. *)
Definition readable (r : bingo.Package) : bool :=
  (String.eqb (bingo.RelPath r) "" || pathWord (bingo.RelPath r)) &&
  forallb envWord (bingo.BuildEnvs r) && flagWords (bingo.BuildFlags r).

(** The comment that [SetDirectRequire] puts on the require line. *)
Definition directToken (r : bingo.Package) : list string :=
  if (0 <? length (bingo.directMeta r))%nat
  then ["// " +:+ strings.Join (bingo.directMeta r) " "] else [].

Definition withRelPath (r : bingo.Package) (p : string) : bingo.Package :=
  {| bingo.Module_ := bingo.Module_ r; bingo.RelPath := p;
     bingo.BuildEnvs := bingo.BuildEnvs r; bingo.BuildFlags := bingo.BuildFlags r |}.

(** The number of path segments of a module path. *)
Definition segments (p : string) : nat := length (strings.Split p "/").

(** The candidates of the cache prober: the full package path, its
    directory, the directory of that, and so on. *)
Definition candidate (target : bingo.Package) (k : nat) : string :=
  Nat.iter k filepath.Dir (bingo.Path target).

(** The metadata directory of a candidate in the download cache. *)
Definition metaDir (E : Env) (modulePath : string) : string :=
  filepath.Join [filepath.Join [gomodcache E; "cache/download"]; modulePath; "@v"].

(** The candidates before the [k]-th have at least three segments and no
    metadata in the cache. *)
Definition skipped (E : Env) (target : bingo.Package) (k : nat) : Prop :=
  forall j, (j < k)%nat ->
    (2 < segments (candidate target j))%nat /\
    host E (metaDir E (candidate target j)) = None.

(** The metadata directory with the entries [files] serves the request
    with [version]: the last line of the version list when no version is
    pinned or an update is requested; the pinned tagged version when its
    file is there; for a pinned revision, the name without [.info] of the
    first file that ends with the first twelve bytes of the revision and
    [.info]. *)
Inductive serves (E : Env) (u : runner.GetUpdatePolicy) (target : bingo.Package)
    (modulePath : string) (files : list (string * bool)) : string -> Prop :=
| serves_latest latest :
    runner.isNoUpdate u = false \/ module.Vers (bingo.Module_ target) = "" ->
    latestModVersion E (filepath.Join [metaDir E modulePath; "list"]) = Ok latest ->
    serves E u target modulePath files latest
| serves_tagged lines parsed :
    runner.isNoUpdate u = true ->
    module.Vers (bingo.Module_ target) <> "" ->
    strings.HasPrefix (module.Vers (bingo.Module_ target)) "v" = true ->
    host E (filepath.Join [metaDir E modulePath;
                           module.Vers (bingo.Module_ target) +:+ ".info"])
      = Some (HostFile lines parsed) ->
    serves E u target modulePath files (module.Vers (bingo.Module_ target))
| serves_revision before name after :
    runner.isNoUpdate u = true ->
    module.Vers (bingo.Module_ target) <> "" ->
    strings.HasPrefix (module.Vers (bingo.Module_ target)) "v" = false ->
    files = before ++ (name, false) :: after ->
    Forall (fun entry => infoMatches (module.Vers (bingo.Module_ target)) entry = false)
           before ->
    (12 < String.length (module.Vers (bingo.Module_ target)))%nat ->
    strings.HasSuffix name
      (substring 0 12 (module.Vers (bingo.Module_ target)) +:+ ".info") = true ->
    serves E u target modulePath files (strings.TrimSuffix name ".info").

(** The bytes of the elements of a stack or of a list of fields, one
    more for each separator. *)
Definition weight (segs : list string) : nat :=
  list_sum (map (fun s => S (String.length s)) segs).

(** The arguments of the [go list] of [install]. *)
Definition listArgs (pkg : bingo.Package) : list string :=
  bingo.BuildFlags pkg ++ ["-mod=mod"; "-f={{.Name}}"; bingo.Path pkg].

(** The name of the versioned binary in the install directory. *)
Definition binName (name : string) (pkg : bingo.Package) : string :=
  name +:+ "-" +:+ module.Vers (bingo.Module_ pkg).

(** Does the listing allow the build? *)
Definition endsWithMain (listed : result string) : bool :=
  match listed with
  | Ok listOutput => strings.HasSuffix listOutput "main"
  | _ => false
  end.

(** The pre-pass of [get]: the temporary files are removed and the
    fixed files of the pin directory written. *)
Definition prepass (E : Env) : M unit :=
  cleanGoGetTmpFiles E ;;; wrapM "ensure mod dir" ensureModDirExists.

(** The names that the clean-up of temporary files removes. *)
Definition transient (E : Env) (file : string) : bool :=
  matches E "*.sum" file || matches E "*.*.tmp.*" file || matches E "*.tmp.*" file.

(** From [fs] to [fs'], a name keeps its file unless it satisfies
    [P]. *)
Definition removesOnly (P : string -> Prop) (fs fs' : FS) : Prop :=
  forall file ino, names fs !! file = Some ino ->
    names fs' !! file = Some ino \/ P file.

(** Every bound name has its file. *)
Definition wfFS (fs : FS) : Prop :=
  forall file ino, names fs !! file = Some ino -> (ino < length (blocks fs))%nat.

(** The file of record [out] is as recorded: [rec] is the file the name
    is bound to (or [None]), no other name is bound to that file, and the
    file holds [c]. *)
Definition recordIs (out : string) (rec : option nat) (c : option content) (fs : FS)
  : Prop :=
  wfFS fs /\ names fs !! out = rec /\
  forall ino, rec = Some ino ->
    (forall file, names fs !! file = Some ino -> file = out) /\ blocks fs !! ino = c.

(** The toolchain, run on another manifest than the file of record,
    leaves the file of record as it is. *)
Definition toolchainKeeps (E : Env) (out : string) : Prop :=
  forall modFile rec c fs, modFile <> out -> recordIs out rec c fs ->
    (forall dir, recordIs out rec c (snd (GoModInit E dir modFile fs))) /\
    (forall u target, recordIs out rec c (snd (GoGetD E modFile u target fs))) /\
    (forall args, recordIs out rec c (snd (GoList E modFile args fs))) /\
    (forall envs pkg bin flags,
        recordIs out rec c (snd (GoBuild E modFile envs pkg bin flags fs))).

(** What the file [file] holds once it was opened as a manifest and
    closed: its syntax as the manifest store prints it. *)
Definition reformatted (E : Env) (file : string) (fs : FS) : option content :=
  match bingo.OpenModFile E file fs with
  | Ok mf => option_map (fun syntax => Manifest (modfile.Format syntax)) (bingo.m mf)
  | _ => None
  end.

Definition isRename (c : call) : bool :=
  match c with CallRename _ _ => true | _ => false end.

(** The calls recorded from [w] to [w']. *)
Definition callsSince (w w' : World) : list call := skipn (length (calls w)) (calls w').

(** From [w] to [w'] calls were recorded, none of them a rename. *)
Definition noRename (w w' : World) : Prop :=
  exists l, calls w' = calls w ++ l /\ existsb isRename l = false.

(** The outcome of a run from [w] to [w'] with the result [r], for the
    file of record [out] that was bound to [rec] and held [c0]: calls
    were recorded; a success has recorded a rename; and without a rename
    the file of record is as it was, holding [c0] or [c1]. *)
Definition progress {A} (out : string) (rec : option nat) (c0 c1 : option content)
    (w : World) (r : result A) (w' : World) : Prop :=
  exists l, calls w' = calls w ++ l /\
    (is_ok r = true -> existsb isRename l = true) /\
    (existsb isRename l = false ->
     recordIs out rec c0 (pin w') \/ recordIs out rec c1 (pin w')).

(** ** The notions of the further properties *)

Definition isUpper (a : ascii) : bool :=
  let n := nat_of_ascii a in ((65 <=? n) && (n <=? 90))%nat.

(** A string without upper-case ASCII letter. *)
Fixpoint noUpper (s : string) : bool :=
  match s with
  | EmptyString => true
  | String a r => negb (isUpper a) && noUpper r
  end.

Definition isGetD (c : call) : bool :=
  match c with CallGetD _ _ => true | _ => false end.

(** The environment of [sample.quiet] with a [go build] that fails. *)
Definition brokenBuild : Env :=
  {| GoModInit := GoModInit sample.quiet;
     GoGetD := GoGetD sample.quiet;
     GoList := GoList sample.quiet;
     GoBuild := fun _ _ _ _ _ fs => (Some (Errorf "exit status 2"), fs);
     GoEnv := GoEnv sample.quiet;
     Getenv := Getenv sample.quiet;
     host := host sample.quiet;
     Match := Match sample.quiet;
     CheckRequire := CheckRequire sample.quiet |}.

(** The download cache [sample.cacheXY] with, besides, an empty
    metadata directory for the package path [github.com/x/y/cmd/z]. *)
Definition cacheShadowed (path : string) : option hostnode :=
  if String.eqb path "/go/pkg/mod/cache/download/github.com/x/y/cmd/z/@v"
  then Some (HostDir [])
  else sample.cacheXY path.

(** From [w] to [w'] calls were recorded, each of which satisfies
    [P]. *)
Definition callsOnly (P : call -> bool) (w w' : World) : Prop :=
  exists l, calls w' = calls w ++ l /\ forallb P l = true.

(** An upgrade of the tool [z]. *)
Definition upgrade : getConfig :=
  {| update := runner.UpdatePolicy; name := ""; rename := "";
     link := false; verbose := false |}.

(** An install under the name [zed]. *)
Definition named : getConfig :=
  {| update := runner.NoUpdatePolicy; name := "zed"; rename := "";
     link := false; verbose := false |}.

(** A rename of the tool [z] to [zed]. *)
Definition renamed : getConfig :=
  {| update := runner.NoUpdatePolicy; name := ""; rename := "zed";
     link := false; verbose := false |}.

(** The world [sample.installed] with, besides, a manifest of the
    tool [zed]. *)
Definition taken : World :=
  setPin sample.installed (os.WriteFile (pin sample.installed) "zed.mod" sample.textZ).

(** * Properties *)

(** ** The target parser *)

Lemma checkVersions_None dup versions :
  checkVersions dup versions = None <->
  NoDup versions /\ (forall v, v ∈ versions -> v ∉ dup) /\ "none" ∉ versions.
Proof.
  revert dup. induction versions as [|v rest IH]; intros dup; simpl.
  - split; [intros _|done]. split_and!; [constructor | intros v Hv | ]; set_solver.
  - destruct (decide (v ∈ dup)) as [Hin|Hnin].
    + split; [done|]. intros (_ & Hd & _). exfalso. apply (Hd v); [left|done].
    + destruct (String.eqb_spec v "none") as [->|Hne].
      * split; [done|]. intros (_ & _ & Hn). exfalso. apply Hn. left.
      * rewrite IH. split.
        -- intros (Hnd & Hd & Hn). split_and!.
           ++ constructor; [|done]. intros Hv. apply (Hd v Hv). set_solver.
           ++ intros x Hx. apply elem_of_cons in Hx as [->|Hx]; [done|].
              intros Hxd. apply (Hd x Hx). set_solver.
           ++ intros Hx. apply elem_of_cons in Hx as [Hx|Hx]; [congruence|done].
        -- intros (Hnd & Hd & Hn). apply NoDup_cons in Hnd as [Hv Hnd]. split_and!.
           ++ done.
           ++ intros x Hx Hxd. apply elem_of_union in Hxd as [Hxd|Hxd].
              ** apply elem_of_singleton in Hxd as ->. done.
              ** apply (Hd x); [by right|done].
           ++ intros Hx. apply Hn. by right.
Qed.

Lemma parseTarget_versions rawTarget :
  rawTarget <> "" ->
  match parseTarget rawTarget with
  | Ok (_, _, versions) =>
      versions = versionList rawTarget /\
      ((1 < length versions)%nat -> checkVersions ∅ versions = None)
  | Fail e =>
      (1 < length (versionList rawTarget))%nat /\
      checkVersions ∅ (versionList rawTarget) = Some e
  | Panic _ => False
  end.
Proof.
  intros Hne. unfold parseTarget, versionList.
  destruct (String.eqb_spec rawTarget "") as [|_]; [done|].
  set (vs := match strings.Split rawTarget "@" with
             | _ :: s1 :: _ => strings.Split s1 ","
             | _ => [""]
             end).
  destruct (1 <? length vs)%nat eqn:Hlen.
  - destruct (checkVersions ∅ vs) eqn:Hc.
    + split; [by apply Nat.ltb_lt|done].
    + destruct (strings.Contains _ _); [destruct (_ && _)|]; done.
  - destruct (strings.Contains _ _); [destruct (_ && _)|];
      (split; [done|]); intros Hl; apply Nat.ltb_lt in Hl; congruence.
Qed.

Lemma versionList_empty : versionList "" = [""].
Proof. reflexivity. Qed.

(** C4: for a raw target whose version list has more than one element,
    [parseTarget] fails when two listed versions are equal and fails when
    [none] is listed; in every other case it succeeds and returns the
    version list unchanged. *)
Theorem parseTarget_version_list (rawTarget : string) :
  (1 < length (versionList rawTarget))%nat ->
  ((~ NoDup (versionList rawTarget) \/ "none" ∈ versionList rawTarget) ->
   exists e, parseTarget rawTarget = Fail e) /\
  (NoDup (versionList rawTarget) -> "none" ∉ versionList rawTarget ->
   exists name pkgPath, parseTarget rawTarget = Ok (name, pkgPath, versionList rawTarget)).
Proof.
  intros Hlen.
  assert (Hne : rawTarget <> "").
  { intros ->. rewrite versionList_empty in Hlen. simpl in Hlen. lia. }
  pose proof (parseTarget_versions rawTarget Hne) as Hp.
  destruct (parseTarget rawTarget) as [[[n p] vs]|e|s]; [| |done].
  - destruct Hp as [-> Hc]. specialize (Hc Hlen).
    apply checkVersions_None in Hc as (Hnd & _ & Hn). split.
    + intros [H|H]; done.
    + intros _ _. by exists n, p.
  - destruct Hp as [_ Hc]. split.
    + intros _. by exists e.
    + intros Hnd Hn. exfalso.
      assert (checkVersions ∅ (versionList rawTarget) = None) as Hnone.
      { apply checkVersions_None. split_and!; [done| |done]. intros v _. set_solver. }
      congruence.
Qed.

Lemma parseTarget_version_list_witness :
  (1 < length (versionList "foo@v1.0.0,v1.1.0"))%nat /\
  exists name pkgPath,
    parseTarget "foo@v1.0.0,v1.1.0" = Ok (name, pkgPath, ["v1.0.0"; "v1.1.0"]).
Proof.
  split; [vm_compute; lia|].
  apply (parseTarget_version_list "foo@v1.0.0,v1.1.0").
  - vm_compute. lia.
  - vm_compute. repeat constructor; set_solver.
  - vm_compute. set_solver.
Defined.

Lemma prefix_empty s : String.prefix "" s = true.
Proof. by destruct s. Qed.

Lemma Split_not_nil s c : strings.Split s c <> [].
Proof.
  destruct s as [|a r]; simpl; [done|].
  destruct (Ascii.eqb a c); [done|]. by destruct (strings.Split r c).
Qed.

Lemma Split_cons s c : exists w ws, strings.Split s c = w :: ws.
Proof.
  pose proof (Split_not_nil s c). destruct (strings.Split s c) as [|w ws]; [done|eauto].
Qed.

(** A string has the one-byte separator in it exactly when it splits
    into more than one field. *)
Lemma Contains_Split s c :
  strings.Contains s (String c "") = (1 <? length (strings.Split s c))%nat.
Proof.
  induction s as [|a r IH]; [done|].
  cbn [strings.Contains strings.Split String.prefix].
  rewrite prefix_empty. destruct (Ascii.ascii_dec c a) as [->|Hne].
  - rewrite Ascii.eqb_refl. cbn. destruct (Split_cons r a) as (w & ws & ->). done.
  - destruct (Ascii.eqb_spec a c) as [->|_]; [done|].
    rewrite IH. destruct (Split_cons r c) as (w & ws & ->). done.
Qed.

(** Without a separator at its end, a string loses nothing when the
    separators at its end are trimmed. *)
Lemma Split_single s c w : strings.Split s c = [w] -> w = s.
Proof.
  revert w. induction s as [|a r IH]; intros w; simpl; [congruence|].
  destruct (Ascii.eqb a c).
  - destruct (Split_cons r c) as (w' & ws & ->). done.
  - destruct (Split_cons r c) as (w' & ws & Hs). rewrite Hs.
    intros [= <- ->]. by rewrite (IH w').
Qed.

Lemma TrimRight_last_Split s c :
  List.last (strings.Split s c) "" <> "" -> strings.TrimRight s c = s.
Proof.
  induction s as [|a r IH]; [done|].
  cbn [strings.Split strings.TrimRight].
  destruct (Split_cons r c) as (w & ws & Hs). rewrite Hs in *.
  destruct (Ascii.eqb a c) eqn:Hac.
  - intros Hl. change (List.last (w :: ws) "" <> "") in Hl.
    rewrite (IH Hl). destruct r; [|done]. simpl in Hs. by simplify_eq.
  - intros Hl. destruct ws as [|w' ws'].
    + apply Split_single in Hs as ->. destruct r as [|b r']; [done|].
      rewrite IH; done.
    + change (List.last (w' :: ws') "" <> "") in Hl.
      rewrite IH by done. destruct r; [|done]. simpl in Hs. by simplify_eq.
Qed.

Lemma last_snoc2 {A} (init : list A) (x y d : A) : List.last (init ++ [x; y]) d = y.
Proof.
  replace (init ++ [x; y]) with ((init ++ [x]) ++ [y])
    by by rewrite <- app_assoc.
  apply last_last.
Qed.

Lemma nth_snoc2 {A} (init : list A) (x y d : A) :
  nth (length (init ++ [x; y]) - 2) (init ++ [x; y]) d = x.
Proof.
  rewrite length_app. simpl. replace (length init + 2 - 2)%nat with (length init) by lia.
  rewrite app_nth2; [|lia]. by rewrite Nat.sub_diag.
Qed.

(** The last element of a path that does not end with a slash is its
    last field. *)
Lemma Base_last_Split p :
  List.last (strings.Split p "/") "" <> "" ->
  filepath.Base p = List.last (strings.Split p "/") "".
Proof.
  intros Hl. unfold filepath.Base.
  destruct (String.eqb_spec p "") as [->|Hp]; [done|].
  rewrite (TrimRight_last_Split p "/" Hl).
  destruct (String.eqb_spec p "") as [|_]; done.
Qed.

(** C5, amended: for a raw target whose locator has a path separator and
    does not end with one, the name is the lower-cased last segment of the
    locator, except that it is the lower-cased segment before it when the
    locator has more than three segments and the last one matches
    [^v[0-9]*$]. *)
Theorem parseTarget_name (rawTarget name pkgPath : string) (versions init : list string)
    (prev lst : string) :
  parseTarget rawTarget = Ok (name, pkgPath, versions) ->
  strings.Split (locator rawTarget) "/" = init ++ [prev; lst] ->
  lst <> "" ->
  pkgPath = locator rawTarget /\
  name = strings.ToLower
           (if (2 <=? length init)%nat && goModVersionRegexp lst then prev else lst).
Proof.
  intros Hp Hs Hl. unfold parseTarget in Hp. fold (locator rawTarget) in Hp.
  destruct (String.eqb rawTarget ""); [done|].
  destruct (if (1 <? _)%nat then _ else _); [done|].
  rewrite Contains_Split, Hs in Hp.
  assert (Hb : filepath.Base (locator rawTarget) = lst).
  { rewrite Base_last_Split; rewrite Hs, last_snoc2; done. }
  rewrite Hb, nth_snoc2 in Hp.
  replace (1 <? length (init ++ [prev; lst]))%nat with true in Hp
    by (symmetry; apply Nat.ltb_lt; rewrite length_app; simpl; lia).
  replace (3 <? length (init ++ [prev; lst]))%nat with (2 <=? length init)%nat in Hp.
  2:{ rewrite length_app. change (length [prev; lst]) with 2%nat.
      destruct (Nat.leb_spec 2 (length init)), (Nat.ltb_spec 3 (length init + 2));
        first [reflexivity | lia]. }
  destruct ((2 <=? length init)%nat && goModVersionRegexp lst); by simplify_eq.
Qed.

Lemma parseTarget_name_witness :
  parseTarget "github.com/x/y/v2" = Ok ("y", "github.com/x/y/v2", [""]) /\
  "github.com/x/y/v2" = locator "github.com/x/y/v2" /\
  "y" = strings.ToLower "y".
Proof.
  split; [reflexivity|].
  apply (parseTarget_name "github.com/x/y/v2" "y" "github.com/x/y/v2" [""]
           ["github.com"; "x"] "y" "v2"); [reflexivity | reflexivity | discriminate].
Defined.

(** C5, as stated, fails on a locator of three segments: the last
    segment [v2] matches the pattern and is nevertheless the name; the
    segment before it, [y], is not. *)
Lemma parseTarget_name_counterexample :
  strings.Contains "x/y/v2" "/" = true /\
  strings.Split "x/y/v2" "/" = ["x"; "y"; "v2"] /\
  goModVersionRegexp "v2" = true /\
  parseTarget "x/y/v2" = Ok ("v2", "x/y/v2", [""]) /\
  ~ (exists pkgPath versions, parseTarget "x/y/v2" = Ok ("y", pkgPath, versions)).
Proof.
  split_and!; try reflexivity. intros (p & vs & H). vm_compute in H. discriminate.
Qed.

(** ** The comment of the direct require line *)

Lemma substring_all s : substring 0 (String.length s) s = s.
Proof. induction s as [|a r IH]; [done|]. simpl. by rewrite IH. Qed.

Lemma append_cons a r s : String a r +:+ s = String a (r +:+ s).
Proof. reflexivity. Qed.

Lemma append_nil_r s : s +:+ "" = s.
Proof. induction s as [|a r IH]; [done|]. by rewrite append_cons, IH. Qed.

Lemma append_assoc (a b c : string) : (a +:+ b) +:+ c = a +:+ (b +:+ c).
Proof. induction a as [|x a IH]; [done|]. by rewrite !append_cons, IH. Qed.

Lemma plainWord_cons w :
  plainWord w = true ->
  exists a r, w = String a r /\ modfile.isSpace a = false /\ noBlank r = true.
Proof.
  unfold plainWord. destruct w as [|a r]; [done|]. simpl.
  intros H. apply andb_true_iff in H as [Ha Hr]. exists a, r.
  by destruct (modfile.isSpace a).
Qed.

Lemma plainWord_noBlank w : plainWord w = true -> noBlank w = true.
Proof. unfold plainWord. intros H. by apply andb_true_iff in H as [_ H]. Qed.

(** *** Splitting the joined words gives the words back *)

Lemma isSpace_space a : Ascii.eqb a " " = true -> modfile.isSpace a = true.
Proof. intros H. apply Ascii.eqb_eq in H as ->. reflexivity. Qed.

Lemma Split_noBlank_app w rest :
  noBlank w = true ->
  strings.Split (w +:+ String " " rest) " " = w :: strings.Split rest " ".
Proof.
  induction w as [|a r IH]; intros Hw; [done|].
  simpl in Hw. apply andb_true_iff in Hw as [Ha Hr].
  rewrite append_cons. cbn [strings.Split].
  destruct (Ascii.eqb a " ") eqn:Hsp.
  - apply isSpace_space in Hsp. rewrite Hsp in Ha. done.
  - by rewrite (IH Hr).
Qed.

Lemma Split_noBlank w : noBlank w = true -> strings.Split w " " = [w].
Proof.
  induction w as [|a r IH]; intros Hw; [done|].
  simpl in Hw. apply andb_true_iff in Hw as [Ha Hr]. cbn [strings.Split].
  destruct (Ascii.eqb a " ") eqn:Hsp.
  - apply isSpace_space in Hsp. rewrite Hsp in Ha. done.
  - by rewrite (IH Hr).
Qed.

Lemma Join_cons w w' ws :
  strings.Join (w :: w' :: ws) " " = w +:+ String " " (strings.Join (w' :: ws) " ").
Proof. reflexivity. Qed.

Lemma Split_Join ws :
  ws <> [] -> forallb noBlank ws = true ->
  strings.Split (strings.Join ws " ") " " = ws.
Proof.
  induction ws as [|w ws IH]; [done|]. intros _ Hws.
  simpl in Hws. apply andb_true_iff in Hws as [Hw Hr].
  destruct ws as [|w' ws'].
  - simpl. by apply Split_noBlank.
  - rewrite Join_cons, Split_noBlank_app by done. by rewrite IH.
Qed.

(** *** Trimming leaves a line of words as it is *)

Lemma trimRightSpace_noBlank r : noBlank r = true -> modfile.trimRightSpace r = r.
Proof.
  induction r as [|a r IH]; [done|]. simpl. intros H.
  apply andb_true_iff in H as [Ha Hr]. rewrite (IH Hr).
  destruct (modfile.isSpace a); [done|]. by destruct r.
Qed.

Lemma trimRightSpace_app a w :
  plainWord w = true -> modfile.trimRightSpace (a +:+ w) = a +:+ w.
Proof.
  intros Hw. induction a as [|x a IH].
  - apply trimRightSpace_noBlank, plainWord_noBlank, Hw.
  - rewrite append_cons. cbn [modfile.trimRightSpace]. rewrite IH.
    destruct (plainWord_cons w Hw) as (c & r & -> & _ & _).
    by destruct a.
Qed.

Lemma isSpace_newline a : Ascii.eqb a "010" = true -> modfile.isSpace a = true.
Proof. intros H. apply Ascii.eqb_eq in H as ->. reflexivity. Qed.

Lemma TrimRight_noBlank r : noBlank r = true -> strings.TrimRight r "010" = r.
Proof.
  induction r as [|a r IH]; [done|]. simpl. intros H.
  apply andb_true_iff in H as [Ha Hr]. rewrite (IH Hr).
  destruct (Ascii.eqb a "010") eqn:Hnl.
  - apply isSpace_newline in Hnl. by rewrite Hnl in Ha.
  - by destruct r.
Qed.

Lemma TrimRight_app a w :
  plainWord w = true -> strings.TrimRight (a +:+ w) "010" = a +:+ w.
Proof.
  intros Hw. induction a as [|x a IH].
  - apply TrimRight_noBlank, plainWord_noBlank, Hw.
  - rewrite append_cons. cbn [strings.TrimRight]. rewrite IH.
    destruct (plainWord_cons w Hw) as (c & r & -> & _ & _).
    by destruct a.
Qed.

(** A line of words ends with a word and, when it has one, starts with
    a byte that is no blank. *)
Lemma Join_last ws :
  ws <> [] -> forallb plainWord ws = true ->
  exists pre w, strings.Join ws " " = pre +:+ w /\ plainWord w = true.
Proof.
  induction ws as [|w ws IH]; [done|]. intros _ H.
  simpl in H. apply andb_true_iff in H as [Hw Hws].
  destruct ws as [|w' ws'].
  - exists "", w. done.
  - destruct IH as (pre & wl & Hj & Hwl); [done|done|].
    exists (w +:+ String " " pre), wl. split; [|done].
    by rewrite Join_cons, Hj, append_assoc, append_cons.
Qed.

Lemma Join_first ws :
  ws <> [] -> forallb plainWord ws = true ->
  exists a r, strings.Join ws " " = String a r /\ modfile.isSpace a = false.
Proof.
  destruct ws as [|w ws]; [done|]. intros _ H.
  simpl in H. apply andb_true_iff in H as [Hw Hws].
  destruct (plainWord_cons w Hw) as (a & r & -> & Ha & _).
  destruct ws as [|w' ws']; [by exists a, r|].
  rewrite Join_cons, append_cons. eauto.
Qed.

Lemma TrimSpace_token ws :
  ws <> [] -> forallb plainWord ws = true ->
  modfile.TrimSpace ("// " +:+ strings.Join ws " ") = "// " +:+ strings.Join ws " ".
Proof.
  intros Hne Hws. unfold modfile.TrimSpace.
  destruct (Join_last ws Hne Hws) as (pre & w & -> & Hw).
  rewrite <- append_assoc.
  replace (modfile.trimLeftSpace (("// " +:+ pre) +:+ w)) with (("// " +:+ pre) +:+ w)
    by reflexivity.
  by apply trimRightSpace_app.
Qed.

Lemma Trim_newline_words ws :
  ws <> [] -> forallb plainWord ws = true ->
  strings.Trim (strings.Join ws " ") "010" = strings.Join ws " ".
Proof.
  intros Hne Hws. unfold strings.Trim.
  assert (strings.TrimLeft (strings.Join ws " ") "010" = strings.Join ws " ") as ->.
  { destruct (Join_first ws Hne Hws) as (a & r & -> & Ha). simpl.
    destruct (Ascii.eqb a "010") eqn:Hnl; [|done].
    apply isSpace_newline in Hnl. congruence. }
  destruct (Join_last ws Hne Hws) as (pre & w & -> & Hw).
  by apply TrimRight_app.
Qed.

(** *** The fields of a line of words are the words *)

Lemma fieldsFrom_word cur w rest :
  noBlank w = true ->
  modfile.fieldsFrom cur (w +:+ rest) =
  modfile.fieldsFrom (rev (list_ascii_of_string w) ++ cur) rest.
Proof.
  revert cur. induction w as [|a r IH]; intros cur Hw; [done|].
  simpl in Hw. apply andb_true_iff in Hw as [Ha Hr].
  rewrite append_cons. cbn [modfile.fieldsFrom].
  destruct (modfile.isSpace a); [done|].
  rewrite (IH _ Hr). simpl. by rewrite <- app_assoc.
Qed.

Lemma fieldsFrom_end w :
  plainWord w = true ->
  modfile.fieldsFrom (rev (list_ascii_of_string w)) "" = [w].
Proof.
  intros Hw. destruct (plainWord_cons w Hw) as (a & r & -> & _ & _).
  cbn [modfile.fieldsFrom].
  rewrite rev_involutive, string_of_list_ascii_of_string.
  simpl. by destruct (rev (list_ascii_of_string r) ++ [a]) eqn:Heq;
    [apply app_eq_nil in Heq as [_ ?]|].
Qed.

Lemma fieldsFrom_space w rest :
  plainWord w = true ->
  modfile.fieldsFrom (rev (list_ascii_of_string w)) (String " " rest) =
  w :: modfile.fieldsFrom [] rest.
Proof.
  intros Hw. destruct (plainWord_cons w Hw) as (a & r & -> & _ & _).
  cbn [modfile.fieldsFrom]. change (modfile.isSpace " ") with true. cbv iota.
  rewrite rev_involutive, string_of_list_ascii_of_string.
  simpl. by destruct (rev (list_ascii_of_string r) ++ [a]) eqn:Heq;
    [apply app_eq_nil in Heq as [_ ?]|].
Qed.

Lemma Fields_words ws :
  forallb plainWord ws = true -> modfile.Fields (strings.Join ws " ") = ws.
Proof.
  unfold modfile.Fields. induction ws as [|w ws IH]; [done|]. intros H.
  simpl in H. apply andb_true_iff in H as [Hw Hws].
  destruct ws as [|w' ws'].
  - change (strings.Join [w] " ") with w. rewrite <- (append_nil_r w) at 1.
    rewrite fieldsFrom_word by by apply plainWord_noBlank.
    rewrite app_nil_r. by apply fieldsFrom_end.
  - rewrite Join_cons, fieldsFrom_word by by apply plainWord_noBlank.
    rewrite app_nil_r, fieldsFrom_space by done. by rewrite IH.
Qed.

Lemma TrimPrefix_slashes rest :
  strings.TrimPrefix (String "/" (String "/" rest)) "//" = rest.
Proof.
  unfold strings.TrimPrefix, strings.HasPrefix. simpl String.prefix.
  rewrite prefix_empty. simpl. rewrite Nat.sub_0_r. apply substring_all.
Qed.

Lemma Fields_token ws :
  forallb plainWord ws = true ->
  modfile.Fields (strings.TrimPrefix ("// " +:+ strings.Join ws " ") "//") = ws.
Proof.
  intros Hws.
  change ("// " +:+ strings.Join ws " ")
    with (String "/" (String "/" (String " " (strings.Join ws " ")))).
  rewrite TrimPrefix_slashes. unfold modfile.Fields. cbn [modfile.fieldsFrom].
  change (modfile.isSpace " ") with true. cbv iota. by apply Fields_words.
Qed.

(** *** Reading the words back *)

Lemma envWord_spec e :
  envWord e = true ->
  plainWord e = true /\ strings.Contains e "=" = true /\ strings.HasPrefix e "-" = false.
Proof.
  unfold envWord.
  destruct (plainWord e), (strings.Contains e "="), (strings.HasPrefix e "-"); done.
Qed.

Lemma pathWord_spec p :
  pathWord p = true ->
  plainWord p = true /\ strings.Contains p "=" = false /\
  strings.HasPrefix p "-" = false /\ String.eqb p "." = false /\
  String.eqb p "indirect" = false /\ String.eqb p "indirect;" = false.
Proof.
  unfold pathWord.
  destruct (plainWord p), (strings.Contains p "="), (strings.HasPrefix p "-"),
    (String.eqb p "."), (String.eqb p "indirect"), (String.eqb p "indirect;"); done.
Qed.

Lemma readable_spec r :
  readable r = true ->
  (bingo.RelPath r = "" \/ pathWord (bingo.RelPath r) = true) /\
  forallb envWord (bingo.BuildEnvs r) = true /\ flagWords (bingo.BuildFlags r) = true.
Proof.
  unfold readable. destruct (String.eqb_spec (bingo.RelPath r) "") as [->|Hne];
    destruct (pathWord _), (forallb envWord _), (flagWords _); simpl; try done;
    intros _; split_and!; auto.
Qed.

Lemma plainWord_not_empty w : plainWord w = true -> String.eqb w "" = false.
Proof. unfold plainWord. by destruct (String.eqb w ""). Qed.

Lemma flagWords_spec f0 flags :
  flagWords (f0 :: flags) = true ->
  strings.HasPrefix f0 "-" = true /\ plainWord f0 = true /\ forallb plainWord flags = true.
Proof.
  unfold flagWords. simpl.
  destruct (strings.HasPrefix f0 "-"), (plainWord f0), (forallb plainWord flags); done.
Qed.

Lemma flagWords_plain flags : flagWords flags = true -> forallb plainWord flags = true.
Proof.
  destruct flags as [|f0 flags]; [done|]. intros H.
  destruct (flagWords_spec _ _ H) as (_ & H1 & H2). simpl. by rewrite H1, H2.
Qed.

Lemma forallb_envWord_plain envs :
  forallb envWord envs = true -> forallb plainWord envs = true.
Proof.
  induction envs as [|e envs IH]; [done|]. simpl. intros H.
  apply andb_true_iff in H as [He Hs].
  destruct (envWord_spec e He) as (Hp & _). by rewrite Hp, IH.
Qed.

Lemma metaLoop_envs envs rest rel acc :
  forallb envWord envs = true ->
  bingo.metaLoop (envs ++ rest) rel acc = bingo.metaLoop rest rel (acc ++ envs).
Proof.
  revert acc. induction envs as [|e envs IH]; intros acc H.
  - by rewrite app_nil_r.
  - simpl in H. apply andb_true_iff in H as [He Hs].
    destruct (envWord_spec e He) as (Hp & Hc & Hd).
    rewrite <- app_comm_cons. cbn [bingo.metaLoop].
    rewrite (plainWord_not_empty e Hp), Hc, Hd. simpl.
    rewrite (IH _ Hs). by rewrite <- app_assoc.
Qed.

Lemma metaLoop_flags flags rel acc :
  flagWords flags = true -> bingo.metaLoop flags rel acc = (rel, acc, flags).
Proof.
  destruct flags as [|f0 flags]; [done|]. intros H.
  destruct (flagWords_spec _ _ H) as (Hd & Hp & _).
  cbn [bingo.metaLoop]. by rewrite (plainWord_not_empty f0 Hp), Hd.
Qed.

Lemma metaLoop_path p rest acc rel :
  pathWord p = true -> bingo.metaLoop (p :: rest) rel acc = bingo.metaLoop rest p acc.
Proof.
  intros H. destruct (pathWord_spec p H) as (Hp & Hc & Hd & _).
  cbn [bingo.metaLoop]. by rewrite (plainWord_not_empty p Hp), Hc, Hd.
Qed.

Lemma readable_words r :
  readable r = true -> forallb plainWord (bingo.directMeta r) = true.
Proof.
  intros H. destruct (readable_spec r H) as (Hp & He & Hf). unfold bingo.directMeta.
  rewrite !forallb_app, (forallb_envWord_plain _ He), (flagWords_plain _ Hf).
  destruct Hp as [->|Hp]; [done|].
  destruct (pathWord_spec _ Hp) as (Hw & _ & _ & Hdot & _).
  rewrite (plainWord_not_empty _ Hw), Hdot. simpl. by rewrite Hw.
Qed.

Lemma readable_metaLoop r :
  readable r = true ->
  bingo.metaLoop (bingo.directMeta r) "" [] =
  (bingo.RelPath r, bingo.BuildEnvs r, bingo.BuildFlags r).
Proof.
  intros H. destruct (readable_spec r H) as (Hp & He & Hf). unfold bingo.directMeta.
  destruct Hp as [->|Hp].
  - cbn [String.eqb negb andb app]. rewrite (metaLoop_envs _ _ _ _ He).
    by apply metaLoop_flags.
  - destruct (pathWord_spec _ Hp) as (Hw & _ & _ & Hdot & _).
    rewrite (plainWord_not_empty _ Hw), Hdot. cbn [negb andb app].
    rewrite (metaLoop_path _ _ _ _ Hp), (metaLoop_envs _ _ _ _ He).
    by apply metaLoop_flags.
Qed.

Lemma not_indirect_word e :
  strings.Contains e "=" = true \/ strings.HasPrefix e "-" = true ->
  String.eqb e "indirect" = false /\ String.eqb e "indirect;" = false.
Proof.
  intros [Hc|Hc];
    (split; [destruct (String.eqb_spec e "indirect") as [->|]
            |destruct (String.eqb_spec e "indirect;") as [->|]]; done).
Qed.

Lemma readable_first r w ws :
  readable r = true -> bingo.directMeta r = w :: ws ->
  String.eqb w "indirect" = false /\ String.eqb w "indirect;" = false.
Proof.
  intros H. destruct (readable_spec r H) as (Hp & He & Hf). unfold bingo.directMeta.
  destruct Hp as [->|Hp].
  - simpl. destruct (bingo.BuildEnvs r) as [|e envs].
    + simpl. destruct (bingo.BuildFlags r) as [|f0 fl]; [done|]. intros [= <- <-].
      apply not_indirect_word. right. by destruct (flagWords_spec _ _ Hf) as (? & _).
    + intros [= <- <-]. apply not_indirect_word. left. simpl in He.
      apply andb_true_iff in He as [He _]. by destruct (envWord_spec _ He) as (_ & ? & _).
  - destruct (pathWord_spec _ Hp) as (Hw & _ & _ & Hdot & H1 & H2).
    rewrite (plainWord_not_empty _ Hw), Hdot. simpl. by intros [= <- <-].
Qed.

Lemma readable_not_indirect r :
  readable r = true ->
  modfile.isIndirect ["// " +:+ strings.Join (bingo.directMeta r) " "] = false.
Proof.
  intros H. unfold modfile.isIndirect.
  rewrite (Fields_token _ (readable_words r H)).
  destruct (bingo.directMeta r) as [|w ws] eqn:Hm; [done|].
  destruct (readable_first r w ws H Hm) as [H1 H2]. by destruct ws.
Qed.

(** *** The round trip *)

Lemma setDirectRequire_Requires file r :
  module.Path (bingo.Module_ r) <> "" ->
  modfile.Requires (bingo.setDirectRequire file r) =
  [ {| modfile.Mod := bingo.Module_ r; modfile.Indirect := false;
       modfile.Suffix := directToken r |} ].
Proof.
  intros Hp. unfold bingo.setDirectRequire, directToken.
  destruct (bingo.Module_ r) as [path vers] eqn:Hm. simpl in Hp.
  destruct (0 <? length (bingo.directMeta r))%nat; simpl;
    destruct (String.eqb_spec path "") as [|_]; done.
Qed.

Lemma readBack_token r :
  forallb plainWord (bingo.directMeta r) = true ->
  modfile.isIndirect (map modfile.TrimSpace (directToken r)) = false ->
  bingo.firstDirect
    [ {| modfile.Mod := bingo.Module_ r;
         modfile.Indirect := modfile.isIndirect (map modfile.TrimSpace (directToken r));
         modfile.Suffix := map modfile.TrimSpace (directToken r) |} ] =
  Ok (Some (let '(rel, env, flags) := bingo.metaLoop (bingo.directMeta r) "" [] in
            bingo.mkPackage (bingo.Module_ r) rel env flags)).
Proof.
  intros Hw Hi. cbn [bingo.firstDirect]. rewrite Hi. cbn [modfile.Indirect modfile.Suffix].
  unfold directToken. destruct (bingo.directMeta r) as [|w ws] eqn:Hm; [done|].
  cbn [length Nat.ltb Nat.leb map].
  assert (Hne : w :: ws <> []) by done.
  rewrite (TrimSpace_token _ Hne Hw).
  change ("// " +:+ strings.Join (w :: ws) " ")
    with (String "/" (String "/" (String " " (strings.Join (w :: ws) " ")))).
  cbn [String.length Nat.ltb Nat.leb substring Nat.sub]. rewrite Nat.sub_0_r, substring_all.
  rewrite (Trim_newline_words _ Hne Hw). unfold bingo.parseDirectPackageMeta.
  rewrite Split_Join; [|done|].
  - by destruct (bingo.metaLoop (w :: ws) "" []) as [[rel env] flags].
  - clear -Hw. induction (w :: ws) as [|x xs IH]; [done|]. simpl in *.
    apply andb_true_iff in Hw as [Hx Hxs]. by rewrite (plainWord_noBlank x Hx), IH.
Qed.

Lemma roundTrip_words E mf r fs :
  isOpen mf fs ->
  module.Path (bingo.Module_ r) <> "" ->
  CheckRequire E (module.Path (bingo.Module_ r)) (module.Vers (bingo.Module_ r)) = true ->
  forallb plainWord (bingo.directMeta r) = true ->
  modfile.isIndirect (map modfile.TrimSpace (directToken r)) = false ->
  roundTrip E mf r fs =
  Ok (Some (let '(rel, env, flags) := bingo.metaLoop (bingo.directMeta r) "" [] in
            bingo.mkPackage (bingo.Module_ r) rel env flags)).
Proof.
  intros [[file Hfile] Hino] Hp Hc Hw Hi.
  unfold roundTrip, bingo.SetDirectRequire. rewrite Hfile.
  unfold bingo.Flush. cbn [bingo.m bingo.f].
  unfold bingo.Reload. cbn [bingo.f bingo.filename bingo.directPackage bingo.autoReplaceDisabled].
  unfold os.ReadInode, os.WriteInode. cbn [blocks].
  rewrite list_lookup_insert_eq by done.
  unfold bingo.parseContent, modfile.Parse, modfile.Format.
  cbn [modfile.t_require modfile.t_module modfile.t_replace modfile.t_comments].
  rewrite (setDirectRequire_Requires file r Hp).
  cbn [map forallb modfile.l_path modfile.l_vers modfile.l_suffix modfile.Mod modfile.Suffix
       modfile.Requires].
  rewrite Hc. cbn [andb].
  replace (module.mkVersion (module.Path (bingo.Module_ r)) (module.Vers (bingo.Module_ r)))
    with (bingo.Module_ r) by by destruct (bingo.Module_ r).
  cbn [modfile.Requires]. rewrite (readBack_token r Hw Hi). reflexivity.
Qed.

Lemma readable_token_direct r :
  readable r = true ->
  modfile.isIndirect (map modfile.TrimSpace (directToken r)) = false.
Proof.
  intros H. unfold directToken.
  destruct (bingo.directMeta r) as [|w ws] eqn:Hm; [done|].
  cbn [length Nat.ltb Nat.leb map]. rewrite <- Hm.
  rewrite TrimSpace_token.
  - by apply readable_not_indirect.
  - by rewrite Hm.
  - by apply readable_words.
Qed.

Lemma directMeta_dot r :
  bingo.RelPath r = "." -> bingo.directMeta r = bingo.directMeta (withRelPath r "").
Proof. unfold bingo.directMeta. intros ->. reflexivity. Qed.

(** A subpath of [.] leaves the same syntax as the empty subpath. *)
Lemma setDirectRequire_dot file r :
  bingo.RelPath r = "." ->
  bingo.setDirectRequire file r = bingo.setDirectRequire file (withRelPath r "").
Proof.
  intros Hr. unfold bingo.setDirectRequire. by rewrite (directMeta_dot r Hr).
Qed.




(** The round trip also loses a flag with a blank in it, and an
    environment entry without [=]. *)
Example roundTrip_flag_with_blank :
  roundTrip sample.quiet sample.manifest
    (bingo.mkPackage (module.mkVersion "github.com/x/y" "v1.2.3") "" []
                     ["-ldflags=-s -w"])
    sample.manifestFS
  = Ok (Some (bingo.mkPackage (module.mkVersion "github.com/x/y" "v1.2.3") "" []
                              ["-ldflags=-s"; "-w"])).
Proof. reflexivity. Qed.

Example roundTrip_env_without_equal :
  roundTrip sample.quiet sample.manifest
    (bingo.mkPackage (module.mkVersion "github.com/x/y" "v1.2.3") "" ["CGO_ENABLED"] [])
    sample.manifestFS
  = Ok (Some (bingo.mkPackage (module.mkVersion "github.com/x/y" "v1.2.3")
                              "CGO_ENABLED" [] [])).
Proof. reflexivity. Qed.




(** ** The cache prober: the directory of a candidate is shorter *)

Lemma weight_nil : weight [] = 0%nat.
Proof. reflexivity. Qed.

Lemma weight_app a b : weight (a ++ b) = (weight a + weight b)%nat.
Proof. unfold weight. by rewrite map_app, list_sum_app. Qed.

Lemma length_append (a b : string) :
  String.length (a +:+ b) = (String.length a + String.length b)%nat.
Proof. induction a as [|x a IH]; [done|]. rewrite append_cons. simpl. by rewrite IH. Qed.

Lemma Split_weight s c : weight (strings.Split s c) = S (String.length s).
Proof.
  induction s as [|a r IH]; [done|]. cbn [strings.Split].
  destruct (Split_cons r c) as (w & ws & Hs). rewrite Hs in *.
  destruct (Ascii.eqb a c); unfold weight in *; simpl in *; lia.
Qed.

Lemma Split_app_sep s c :
  strings.Split (s +:+ String c "") c = strings.Split s c ++ [""].
Proof.
  induction s as [|a r IH].
  - simpl. by rewrite Ascii.eqb_refl.
  - rewrite append_cons. cbn [strings.Split]. rewrite IH.
    destruct (Split_cons r c) as (w & ws & ->).
    by destruct (Ascii.eqb a c).
Qed.

Lemma clean_step_weight rooted stack seg :
  (weight (filepath.clean_step rooted stack seg) <= weight stack + weight [seg])%nat.
Proof.
  unfold filepath.clean_step.
  destruct (String.eqb seg ""); [lia|].
  destruct (String.eqb seg "."); [lia|].
  destruct (String.eqb seg "..").
  - destruct stack as [|top rest].
    + destruct rooted; unfold weight; simpl; lia.
    + destruct (String.eqb top ".."); unfold weight; simpl; lia.
  - unfold weight. simpl. lia.
Qed.

Lemma clean_fold_weight rooted segs stack :
  (weight (fold_left (filepath.clean_step rooted) segs stack)
   <= weight stack + weight segs)%nat.
Proof.
  revert stack. induction segs as [|seg segs IH]; intros stack; simpl.
  - unfold weight at 3. simpl. lia.
  - etransitivity; [apply IH|].
    pose proof (clean_step_weight rooted stack seg).
    change (seg :: segs) with ([seg] ++ segs). rewrite weight_app. lia.
Qed.

Lemma Join_length segs :
  segs <> [] -> S (String.length (strings.Join segs "/")) = weight segs.
Proof.
  induction segs as [|s segs IH]; [done|]. intros _.
  destruct segs as [|s' segs'].
  - unfold weight. simpl. lia.
  - change (strings.Join (s :: s' :: segs') "/")
      with (s +:+ String "/" (strings.Join (s' :: segs') "/")).
    rewrite length_append. simpl String.length.
    change (s :: s' :: segs') with ([s] ++ s' :: segs'). rewrite weight_app.
    rewrite <- IH by done. unfold weight. simpl. lia.
Qed.

Lemma weight_rev segs : weight (rev segs) = weight segs.
Proof.
  induction segs as [|s segs IH]; [done|]. simpl. rewrite weight_app, IH.
  unfold weight. simpl. lia.
Qed.

Lemma prefix_one c a r : String.prefix (String c "") (String a r) = Ascii.eqb a c.
Proof.
  simpl. rewrite prefix_empty.
  destruct (ascii_dec c a) as [->|Hne]; [by rewrite Ascii.eqb_refl|].
  symmetry. apply Ascii.eqb_neq. congruence.
Qed.

(** The length of what [Clean] makes of a stack. *)
Lemma Clean_out_length (rooted : bool) (stack : list string) :
  let body := strings.Join (rev stack) "/" in
  let out := if rooted then "/" +:+ body else body in
  (String.length (if String.eqb out "" then "." else out)
   <= Nat.max 1 (if rooted then weight stack else weight stack - 1))%nat.
Proof.
  intros body out.
  destruct (String.eqb_spec out "") as [_|_]; [simpl; lia|].
  unfold out, body. destruct (rev stack) as [|x xs] eqn:Hrev.
  - destruct rooted; simpl; lia.
  - assert (Hj := Join_length (x :: xs) ltac:(done)).
    rewrite <- Hrev, weight_rev in Hj. rewrite Hrev in Hj.
    destruct rooted.
    + rewrite length_append. simpl String.length at 1. lia.
    + lia.
Qed.

Lemma clean_fold_sep rooted segs :
  fold_left (filepath.clean_step rooted) (segs ++ [""]) [] =
  fold_left (filepath.clean_step rooted) segs [].
Proof. by rewrite fold_left_app. Qed.

(** The clean form of a text of two bytes or more that ends with a
    slash is shorter than the text. *)
Lemma Clean_shorter q0 :
  q0 <> "" ->
  (String.length (filepath.Clean (q0 +:+ "/")) < String.length (q0 +:+ "/"))%nat.
Proof.
  intros Hq0. unfold filepath.Clean.
  pose proof (Clean_out_length (strings.HasPrefix (q0 +:+ "/") "/")
                (fold_left (filepath.clean_step (strings.HasPrefix (q0 +:+ "/") "/"))
                           (strings.Split (q0 +:+ "/") "/") [])) as Hb.
  cbv zeta in Hb |- *.
  eapply Nat.le_lt_trans; [exact Hb|]. clear Hb.
  rewrite length_append. change (String.length "/") with 1%nat.
  change (q0 +:+ "/") with (q0 +:+ String "/" ""). rewrite Split_app_sep, clean_fold_sep.
  destruct q0 as [|a r]; [done|]. rewrite append_cons.
  unfold strings.HasPrefix. rewrite prefix_one.
  simpl String.length.
  destruct (Ascii.eqb a "/") eqn:Ha.
  - cbn [strings.Split]. rewrite Ha. cbn [fold_left].
    change (filepath.clean_step true [] "") with (@nil string).
    pose proof (clean_fold_weight true (strings.Split r "/") []) as Hw.
    rewrite Split_weight, weight_nil in Hw. lia.
  - pose proof (clean_fold_weight false (strings.Split (String a r) "/") []) as Hw.
    rewrite Split_weight, weight_nil in Hw. simpl String.length in Hw. lia.
Qed.

Lemma Contains_cons a r :
  strings.Contains (String a r) "/" = Ascii.eqb a "/" || strings.Contains r "/".
Proof. cbn [strings.Contains]. by rewrite prefix_one. Qed.

Lemma upto_last_slash_spec p :
  strings.Contains p "/" = true ->
  exists q0 rest,
    p = (q0 +:+ "/") +:+ rest /\ strings.Contains rest "/" = false /\
    filepath.upto_last_slash p = q0 +:+ "/".
Proof.
  induction p as [|a r IH]; [done|]. rewrite Contains_cons. intros H.
  cbn [filepath.upto_last_slash].
  destruct (strings.Contains r "/") eqn:Hr.
  - destruct (IH eq_refl) as (q0 & rest & -> & Hrest & Hup).
    exists (String a q0), rest. rewrite Hup. by rewrite !append_cons.
  - rewrite orb_false_r in H. rewrite H. apply Ascii.eqb_eq in H as ->.
    by exists "", r.
Qed.

Lemma Split_no_sep s c :
  strings.Contains s (String c "") = false -> strings.Split s c = [s].
Proof.
  rewrite Contains_Split. intros H.
  destruct (Split_cons s c) as (w & ws & Hs). rewrite Hs in H.
  destruct ws; [|done]. by rewrite (Split_single s c w Hs) in Hs.
Qed.

(** The directory of a path of more than two segments is shorter than
    the path. *)
Lemma Dir_shorter p :
  (2 < segments p)%nat -> (String.length (filepath.Dir p) < String.length p)%nat.
Proof.
  unfold segments. intros Hseg.
  assert (Hc : strings.Contains p "/" = true).
  { rewrite Contains_Split. apply Nat.ltb_lt. lia. }
  destruct (upto_last_slash_spec p Hc) as (q0 & rest & Hp & Hrest & Hup).
  unfold filepath.Dir. rewrite Hup.
  assert (Hq0 : q0 <> "").
  { intros ->. rewrite Hp in Hseg.
    change (("" +:+ "/") +:+ rest) with (String "/" rest) in Hseg.
    cbn [strings.Split] in Hseg. rewrite Ascii.eqb_refl in Hseg.
    rewrite (Split_no_sep rest "/" Hrest) in Hseg. simpl in Hseg. lia. }
  eapply Nat.lt_le_trans; [by apply Clean_shorter|].
  rewrite Hp, (length_append (q0 +:+ "/") rest). lia.
Qed.

(** ** The cache prober: the fuel is enough *)

Lemma probe_enough fuel E verbose u target p :
  (String.length p < fuel)%nat -> is_Some (probe fuel E verbose u target p).
Proof.
  revert p. induction fuel as [|fuel IH]; intros p Hlen; [lia|].
  cbn [probe]. fold (segments p).
  destruct (2 <? segments p)%nat eqn:Hseg; [|by eexists].
  apply Nat.ltb_lt in Hseg. pose proof (Dir_shorter p Hseg) as Hd.
  assert (Hnext : is_Some (probe fuel E verbose u target (filepath.Dir p)))
    by (apply IH; lia).
  cbn [negb].
  repeat match goal with
         | |- is_Some (Some _) => by eexists
         | |- is_Some (match ?x with _ => _ end) => destruct x
         | |- is_Some (if ?x then _ else _) => destruct x
         end; done.
Qed.

Lemma probe_more fuel fuel' E verbose u target p :
  (String.length p < fuel)%nat -> (String.length p < fuel')%nat ->
  probe fuel E verbose u target p = probe fuel' E verbose u target p.
Proof.
  revert fuel' p. induction fuel as [|fuel IH]; intros fuel' p Hlen Hlen'; [lia|].
  destruct fuel' as [|fuel']; [lia|].
  cbn [probe]. fold (segments p).
  destruct (2 <? segments p)%nat eqn:Hseg; [|done].
  apply Nat.ltb_lt in Hseg. pose proof (Dir_shorter p Hseg) as Hd.
  by rewrite (IH fuel' (filepath.Dir p)) by lia.
Qed.

(** [resolveInGoModCache] always answers: the probe does not run out of
    fuel. *)
Lemma resolveInGoModCache_probe E verbose u target :
  probe (S (String.length (bingo.Path target))) E verbose u target (bingo.Path target)
  = Some (resolveInGoModCache E verbose u target).
Proof.
  unfold resolveInGoModCache.
  destruct (probe_enough (S (String.length (bingo.Path target))) E verbose u target
              (bingo.Path target)) as [r Hr]; [lia|].
  by rewrite Hr.
Qed.

(** ** The cache prober: skipping and hitting candidates *)

Lemma probe_skip fuel E verbose u target p :
  (String.length p < fuel)%nat -> (2 < segments p)%nat ->
  host E (metaDir E p) = None ->
  probe fuel E verbose u target p = probe fuel E verbose u target (filepath.Dir p).
Proof.
  intros Hlen Hseg Hhost. destruct fuel as [|fuel]; [lia|].
  pose proof (Dir_shorter p Hseg) as Hd.
  rewrite (probe_more (S fuel) fuel E verbose u target (filepath.Dir p)) by lia.
  cbn [probe]. fold (segments p). fold (metaDir E p).
  apply Nat.ltb_lt in Hseg. by rewrite Hseg, Hhost.
Qed.

Lemma find_first {A} (P : A -> bool) before x after :
  Forall (fun y => P y = false) before -> P x = true ->
  find P (before ++ x :: after) = Some x.
Proof.
  intros Hb Hx. induction Hb as [|y ys Hy _ IH]; simpl.
  - by rewrite Hx.
  - by rewrite Hy.
Qed.

Lemma probe_hit fuel E verbose u target p files v :
  (String.length p < fuel)%nat -> (2 < segments p)%nat ->
  host E (metaDir E p) = Some (HostDir files) ->
  serves E u target p files v ->
  probe fuel E verbose u target p = Some (Ok (resolved target p v)).
Proof.
  intros Hlen Hseg Hhost Hs. destruct fuel as [|fuel]; [lia|].
  cbn [probe]. fold (segments p). fold (metaDir E p).
  apply Nat.ltb_lt in Hseg. rewrite Hseg, Hhost. cbn [negb].
  destruct Hs as [latest Hc Hl | lines parsed Hu Hv Hp Hi
                 | before name after Hu Hv Hp Hf Hb Hlen12 Hsuf].
  - replace (negb (runner.isNoUpdate u) || String.eqb (module.Vers (bingo.Module_ target)) "")
      with true.
    + by rewrite Hl.
    + destruct Hc as [-> | ->]; [done|]. by rewrite orb_true_r.
  - rewrite Hu. apply String.eqb_neq in Hv. rewrite Hv, Hp. cbn [negb orb].
    by rewrite Hi.
  - rewrite Hu. apply String.eqb_neq in Hv. rewrite Hv, Hp. cbn [negb orb].
    unfold ReadDir. rewrite Hhost, Hf.
    rewrite (find_first (infoMatches (module.Vers (bingo.Module_ target)))
               before (name, false) after Hb); [done|].
    unfold infoMatches. cbn [fst snd negb andb].
    apply Nat.ltb_lt in Hlen12. by rewrite Hlen12, Hsuf.
Qed.

Lemma candidate_S target k :
  candidate target (S k) = filepath.Dir (candidate target k).
Proof. reflexivity. Qed.

Lemma probe_reach fuel E verbose u target k :
  (String.length (bingo.Path target) < fuel)%nat ->
  skipped E target k ->
  (String.length (candidate target k) <= String.length (bingo.Path target))%nat /\
  probe fuel E verbose u target (bingo.Path target)
  = probe fuel E verbose u target (candidate target k).
Proof.
  intros Hlen. induction k as [|k IH]; intros Hskip; [done|].
  destruct IH as [Hk Hp].
  { intros j Hj. apply Hskip. lia. }
  destruct (Hskip k) as [Hseg Hhost]; [lia|].
  pose proof (Dir_shorter _ Hseg) as Hd. rewrite candidate_S. split; [lia|].
  rewrite Hp. apply probe_skip; [lia|done|done].
Qed.

(** The candidate [k] is the first with metadata, and its metadata
    serves the request: the prober answers with it. *)
Lemma resolveInGoModCache_serves E verbose u target k files v :
  skipped E target k ->
  (2 < segments (candidate target k))%nat ->
  host E (metaDir E (candidate target k)) = Some (HostDir files) ->
  serves E u target (candidate target k) files v ->
  resolveInGoModCache E verbose u target = Ok (resolved target (candidate target k) v).
Proof.
  intros Hskip Hseg Hhost Hs.
  pose proof (resolveInGoModCache_probe E verbose u target) as Hr.
  destruct (probe_reach (S (String.length (bingo.Path target))) E verbose u target k)
    as [Hk Hp]; [lia|done|].
  rewrite Hp, (probe_hit _ E verbose u target _ files v) in Hr; [|lia|done|done|done].
  by simplify_eq.
Qed.

Lemma probe_nothing fuel E verbose u target p :
  (String.length p < fuel)%nat ->
  (forall k, (2 < segments (Nat.iter k filepath.Dir p))%nat ->
             host E (metaDir E (Nat.iter k filepath.Dir p)) = None) ->
  probe fuel E verbose u target p = Some (Fail errNoCachedModule).
Proof.
  revert p. induction fuel as [|fuel IH]; intros p Hlen Hnone; [lia|].
  cbn [probe]. fold (segments p). fold (metaDir E p).
  destruct (2 <? segments p)%nat eqn:Hseg; [|done].
  apply Nat.ltb_lt in Hseg. pose proof (Hnone 0%nat Hseg) as H0.
  cbn [Nat.iter nat_rect] in H0. rewrite H0. cbn [negb].
  pose proof (Dir_shorter p Hseg) as Hd.
  apply IH; [lia|]. intros k. rewrite <- Nat.iter_succ_r. apply Hnone.
Qed.

(** Stripping the last segment: the directory of [p/a] is the clean
    form of [p/]. *)
Lemma Dir_strip p a :
  strings.Contains a "/" = false ->
  filepath.Dir ((p +:+ "/") +:+ a) = filepath.Clean (p +:+ "/").
Proof.
  intros Ha. unfold filepath.Dir. f_equal.
  induction p as [|x p IH].
  - change (("" +:+ "/") +:+ a) with (String "/" a). cbn [filepath.upto_last_slash].
    by rewrite Ha.
  - rewrite !append_cons. cbn [filepath.upto_last_slash]. rewrite IH.
    assert (strings.Contains ((p +:+ "/") +:+ a) "/" = true) as ->; [|done].
    clear. induction p as [|y p IH].
    + change (("" +:+ "/") +:+ a) with (String "/" a). by rewrite Contains_cons.
    + rewrite !append_cons, Contains_cons, IH. by rewrite orb_true_r.
Qed.

(** C6, amended: the prober goes from the full package locator to its
    directory and on while the candidate has more than two segments.
    When the two first candidates have at least three segments and no
    metadata, and the third (two segments shorter than the locator) has at
    least three segments and metadata that serves the request, the probe
    succeeds with the third; when no candidate of at least three segments
    has metadata, it fails with the no-cached-module error. *)
Theorem resolveInGoModCache_longest_first (E : Env) (verbose : bool)
    (u : runner.GetUpdatePolicy) (target : bingo.Package) :
  (forall files v,
      skipped E target 2 ->
      (2 < segments (candidate target 2))%nat ->
      host E (metaDir E (candidate target 2)) = Some (HostDir files) ->
      serves E u target (candidate target 2) files v ->
      resolveInGoModCache E verbose u target
      = Ok (resolved target (candidate target 2) v)) /\
  ((forall k, (2 < segments (candidate target k))%nat ->
              host E (metaDir E (candidate target k)) = None) ->
   resolveInGoModCache E verbose u target = Fail errNoCachedModule).
Proof.
  split.
  - intros files v. apply resolveInGoModCache_serves.
  - intros Hnone.
    pose proof (resolveInGoModCache_probe E verbose u target) as Hr.
    rewrite (probe_nothing _ E verbose u target (bingo.Path target)) in Hr;
      [by simplify_eq|lia|done].
Qed.

Lemma resolveInGoModCache_longest_first_witness :
  candidate (sample.unknown "github.com/x/y/cmd/z" "") 2 = "github.com/x/y" /\
  resolveInGoModCache (sample.env (Errorf "go get failed") "main" sample.cacheXY) false
    runner.NoUpdatePolicy (sample.unknown "github.com/x/y/cmd/z" "")
  = Ok (bingo.mkPackage (module.mkVersion "github.com/x/y" "v1.1.0") "cmd/z" [] []).
Proof.
  split; [reflexivity|].
  refine (proj1 (resolveInGoModCache_longest_first
                   (sample.env (Errorf "go get failed") "main" sample.cacheXY) false
                   runner.NoUpdatePolicy (sample.unknown "github.com/x/y/cmd/z" ""))
                [("list", false); ("v1.0.0.info", false); ("v1.1.0.info", false);
                 ("v1.1.1-0.20200101000000-abcdef123456.info", false)]
                "v1.1.0" _ _ _ _).
  - intros j Hj. destruct j as [|[|j]]; [split; [vm_compute; lia|reflexivity]..|lia].
  - vm_compute. lia.
  - reflexivity.
  - apply serves_latest; [by right|reflexivity].
Defined.

(** C6, as stated, fails on a locator of four segments: the metadata is
    only at the prefix two segments shorter, which has two segments and is
    never probed. *)
Lemma resolveInGoModCache_counterexample :
  let E := sample.env (Errorf "go get failed") "main" sample.cacheYaml in
  let target := sample.unknown "gopkg.in/yaml.v2/cmd/tool" "" in
  candidate target 2 = "gopkg.in/yaml.v2" /\
  host E (metaDir E (candidate target 0)) = None /\
  host E (metaDir E (candidate target 1)) = None /\
  host E (metaDir E (candidate target 2))
  = Some (HostDir [("list", false); ("v2.4.0.info", false)]) /\
  latestModVersion E (filepath.Join [metaDir E (candidate target 2); "list"]) = Ok "v2.4.0" /\
  resolveInGoModCache E false runner.NoUpdatePolicy target = Fail errNoCachedModule.
Proof. split_and!; reflexivity. Qed.

(** C7, amended: for a pinned revision (a version that is not empty
    and does not begin with [v], longer than twelve bytes) and no update,
    the prober scans the metadata directory of the first candidate that
    has one and succeeds on the first file whose name ends with the first
    twelve bytes of the revision followed by [.info]; the version of the
    coordinate becomes that name without [.info]. *)
Theorem resolveInGoModCache_revision (E : Env) (verbose : bool)
    (target : bingo.Package) (k : nat) (before after : list (string * bool))
    (name : string) :
  let version := module.Vers (bingo.Module_ target) in
  version <> "" ->
  strings.HasPrefix version "v" = false ->
  skipped E target k ->
  (2 < segments (candidate target k))%nat ->
  host E (metaDir E (candidate target k))
  = Some (HostDir (before ++ (name, false) :: after)) ->
  Forall (fun entry => infoMatches version entry = false) before ->
  (12 < String.length version)%nat ->
  strings.HasSuffix name (substring 0 12 version +:+ ".info") = true ->
  resolveInGoModCache E verbose runner.NoUpdatePolicy target
  = Ok (resolved target (candidate target k) (strings.TrimSuffix name ".info")).
Proof.
  intros version Hv Hp Hskip Hseg Hhost Hb Hlen Hsuf.
  eapply resolveInGoModCache_serves; [done|done|exact Hhost|].
  by eapply serves_revision.
Qed.

Lemma resolveInGoModCache_revision_witness :
  resolveInGoModCache (sample.env (Errorf "go get failed") "main" sample.cacheXY) false
    runner.NoUpdatePolicy
    (sample.unknown "github.com/x/y/cmd/z" "abcdef1234567890abcdef1234567890abcdef12")
  = Ok (bingo.mkPackage
          (module.mkVersion "github.com/x/y" "v1.1.1-0.20200101000000-abcdef123456")
          "cmd/z" [] []).
Proof.
  apply (resolveInGoModCache_revision
           (sample.env (Errorf "go get failed") "main" sample.cacheXY) false
           (sample.unknown "github.com/x/y/cmd/z" "abcdef1234567890abcdef1234567890abcdef12")
           2 [("list", false); ("v1.0.0.info", false); ("v1.1.0.info", false)] []
           "v1.1.1-0.20200101000000-abcdef123456.info").
  - discriminate.
  - reflexivity.
  - intros j Hj. destruct j as [|[|j]]; [split; [vm_compute; lia|reflexivity]..|lia].
  - vm_compute. lia.
  - reflexivity.
  - repeat constructor.
  - vm_compute. lia.
  - reflexivity.
Defined.

(** C7, as stated, fails on a file whose name starts with the first
    twelve bytes of the revision: the name has the prefix, and the prober
    finds no module. *)
Lemma resolveInGoModCache_revision_counterexample :
  let E := sample.env (Errorf "go get failed") "main" sample.cachePrefixed in
  let target := sample.unknown "github.com/x/y" "abcdef1234567890" in
  strings.HasPrefix (module.Vers (bingo.Module_ target)) "v" = false /\
  host E (metaDir E (bingo.Path target))
  = Some (HostDir [("abcdef123456-dirty.info", false)]) /\
  strings.HasPrefix "abcdef123456-dirty.info"
    (substring 0 12 (module.Vers (bingo.Module_ target))) = true /\
  resolveInGoModCache E false runner.NoUpdatePolicy target = Fail errNoCachedModule.
Proof. split_and!; reflexivity. Qed.

(** ** The version-resolution engine *)

Lemma find_none {A} (P : A -> bool) l :
  Forall (fun x => P x = false) l -> find P l = None.
Proof. induction 1 as [|x l Hx _ IH]; simpl; [done|]. by rewrite Hx. Qed.

(** C2, amended: when the toolchain resolution succeeds, the populated
    manifest has more than one indirect module and none of them matches
    the explicitly-known module path or the full package locator, the
    resolution falls through to the cache prober (as after a toolchain
    failure that carries the output of the toolchain) when no module path
    is known, and fails at once, without probing the cache, when a module
    path is known. *)
Theorem resolvePackage_no_match (E : Env) (verbose : bool) (tmpModFile : string)
    (u : runner.GetUpdatePolicy) (target : bingo.Package) (w : World)
    (out : string) (fs : FS) (mods : list module.Version) :
  GoGetD E tmpModFile u (bingo.String target) (pin w) = ((out, None), fs) ->
  bingo.ModIndirectModules E tmpModFile fs = Ok mods ->
  (1 < length mods)%nat ->
  Forall (fun m => module.Path m <> module.Path (bingo.Module_ target) /\
                   module.Path m <> bingo.Path target) mods ->
  fst (resolvePackage E verbose tmpModFile u target w)
  = if String.eqb (module.Path (bingo.Module_ target)) ""
    then cacheFallback E verbose u target (Errorf out)
    else Fail errNoIndirectModuleFor.
Proof.
  intros Hget Hmods Hlen Hnone. unfold resolvePackage. rewrite Hget, Hmods.
  cbn [fst]. unfold pickModule.
  destruct mods as [|m0 [|m1 mods]]; [simpl in Hlen; lia..|].
  rewrite !find_none.
  - by destruct (String.eqb (module.Path (bingo.Module_ target)) "").
  - eapply Forall_impl; [exact Hnone|]. intros m [_ H]. unfold pathIs.
    by apply String.eqb_neq.
  - eapply Forall_impl; [exact Hnone|]. intros m [H _]. unfold pathIs.
    by apply String.eqb_neq.
Qed.

Lemma resolvePackage_no_match_witness :
  fst (resolvePackage (sample.envGet sample.twoMods "main" sample.cacheXY) false
         "z-e.tmp.mod" runner.NoUpdatePolicy
         (sample.unknown "github.com/x/y/cmd/z" "") sample.emptyWorld)
  = Ok (bingo.mkPackage (module.mkVersion "github.com/x/y" "v1.1.0") "cmd/z" [] []).
Proof.
  rewrite (resolvePackage_no_match
             (sample.envGet sample.twoMods "main" sample.cacheXY) false
             "z-e.tmp.mod" runner.NoUpdatePolicy
             (sample.unknown "github.com/x/y/cmd/z" "") sample.emptyWorld
             "go: downloading"
             (os.WriteFile sample.emptyFS "z-e.tmp.mod"
                (Manifest {| modfile.t_module := Some []; modfile.t_require := sample.twoMods;
                             modfile.t_replace := []; modfile.t_comments := [] |}))
             [module.mkVersion "github.com/a/a" "v1.0.0";
              module.mkVersion "github.com/b/b" "v0.2.0"]).
  - reflexivity.
  - reflexivity.
  - reflexivity.
  - simpl. lia.
  - repeat constructor; discriminate.
Defined.

(** C2, as stated, fails when the module path is known: the toolchain
    succeeded, none of the two indirect modules matches the module path or
    the full locator, the cache prober would have resolved the package,
    and the resolution fails at once. *)
Lemma resolvePackage_no_match_counterexample :
  let E := sample.envGet sample.twoMods "main" sample.cacheXY in
  let target := bingo.mkPackage (module.mkVersion "github.com/x/y" "") "cmd/z" [] [] in
  let got := GoGetD E "z-e.tmp.mod" runner.NoUpdatePolicy (bingo.String target)
                    (pin sample.emptyWorld) in
  snd (fst got) = None /\
  bingo.ModIndirectModules E "z-e.tmp.mod" (snd got)
  = Ok [module.mkVersion "github.com/a/a" "v1.0.0";
        module.mkVersion "github.com/b/b" "v0.2.0"] /\
  bingo.Path target = "github.com/x/y/cmd/z" /\
  cacheFallback E false runner.NoUpdatePolicy target (Errorf (fst (fst got)))
  = Ok (bingo.mkPackage (module.mkVersion "github.com/x/y" "v1.1.0") "cmd/z" [] []) /\
  fst (resolvePackage E false "z-e.tmp.mod" runner.NoUpdatePolicy target sample.emptyWorld)
  = Fail errNoIndirectModuleFor.
Proof. split_and!; reflexivity. Qed.

(** ** The install step *)

(** The calls of the install step: for a valid tool name it first asks
    the toolchain to list the package, and then builds the binary if and
    only if the listing succeeded with an output that ends with [main]; for
    an output that does not end with [main] it fails with the
    not-installable error, nothing is built and the install directory is
    as before. *)
Theorem install_builds_iff_main (E : Env) (name : string) (link : bool)
    (modFile : bingo.ModFile) (pkg : bingo.Package) (w : World) :
  bingo.DirectPackage modFile = Some pkg ->
  validateTargetName name = None ->
  let listed := fst (GoList E (bingo.FileName modFile) (listArgs pkg) (pin w)) in
  let after := snd (install E name link modFile w) in
  calls after
  = calls w ++ CallList (bingo.FileName modFile) (listArgs pkg)
       :: (if endsWithMain listed
           then [CallBuild (bingo.FileName modFile) (bingo.Path pkg) (binName name pkg)]
           else []) /\
  (forall listOutput,
      listed = Ok listOutput -> strings.HasSuffix listOutput "main" = false ->
      fst (install E name link modFile w) = Fail errNonMain /\ bin after = bin w).
Proof.
  intros Hpkg Hname listed after. unfold after, listed, install, listArgs, binName.
  rewrite Hpkg, Hname.
  destruct (GoList E (bingo.FileName modFile) _ (pin w)) as [[listOutput|e|s] fs1];
    cbn [fst snd endsWithMain].
  - destruct (strings.HasSuffix listOutput "main") eqn:Hmain; cbn [negb].
    + destruct (GoBuild E _ _ _ _ _ fs1) as [[e|] fs2]; cbn [fst snd].
      * split; [|intros ? [= <-] ?; congruence]. simpl. by rewrite <- app_assoc.
      * destruct link; cbn [negb fst snd];
          (split; [|intros ? [= <-] ?; congruence]); simpl; by rewrite <- app_assoc.
    + cbn [fst snd]. split; [done|]. intros ? _ _. done.
  - split; [done|]. intros ? [=].
  - split; [done|]. intros ? [=].
Qed.

Lemma install_builds_iff_main_witness :
  calls (snd (install sample.quiet "z" false sample.pinned sample.emptyWorld))
  = [CallList "z.tmp.mod" ["-mod=mod"; "-f={{.Name}}"; "github.com/x/y/cmd/z"];
     CallBuild "z.tmp.mod" "github.com/x/y/cmd/z" "z-v1.2.3"].
Proof.
  apply (install_builds_iff_main sample.quiet "z" false sample.pinned sample.toolZ
           sample.emptyWorld); reflexivity.
Defined.

(** C8: the install step of a package that the toolchain lists as
    [domain], a library and not [main], does not fail with the
    not-installable error: the test of the listing is on its last four
    characters, the binary is built and the step succeeds. *)
Lemma install_domain_builds :
  let E := sample.env (Errorf "go get failed") "domain" sample.noHost in
  let ran := install E "z" false sample.pinned sample.emptyWorld in
  fst (GoList E "z.tmp.mod" (listArgs sample.toolZ) (pin sample.emptyWorld)) = Ok "domain" /\
  "domain" <> "main" /\
  fst ran = Ok tt /\
  calls (snd ran)
  = [CallList "z.tmp.mod" ["-mod=mod"; "-f={{.Name}}"; "github.com/x/y/cmd/z"];
     CallBuild "z.tmp.mod" "github.com/x/y/cmd/z" "z-v1.2.3"] /\
  bin (snd ran) !! "z-v1.2.3" = Some (Binary "github.com/x/y/cmd/z" "z.tmp.mod").
Proof. split_and!; first [reflexivity | discriminate]. Qed.

(** ** Uninstall *)

Lemma removesOnly_refl P fs : removesOnly P fs fs.
Proof. intros file ino H. by left. Qed.

Lemma removesOnly_trans (P Q : string -> Prop) fs1 fs2 fs3 :
  removesOnly P fs1 fs2 -> removesOnly Q fs2 fs3 ->
  removesOnly (fun file => P file \/ Q file) fs1 fs3.
Proof.
  intros H12 H23 file ino H1.
  destruct (H12 file ino H1) as [H2|HP]; [|by right; left].
  destruct (H23 file ino H2) as [H3|HQ]; [by left|by right; right].
Qed.

Lemma removesOnly_weaken (P Q : string -> Prop) fs fs' :
  (forall file, P file -> Q file) -> removesOnly P fs fs' -> removesOnly Q fs fs'.
Proof. intros HPQ H file ino Hf. destruct (H file ino Hf); [by left|right; auto]. Qed.

Lemma RemoveAll_fold_removesOnly files fs :
  removesOnly (fun file => In file files) fs (fold_left os.RemoveAll files fs) /\
  blocks (fold_left os.RemoveAll files fs) = blocks fs.
Proof.
  revert fs. induction files as [|x files IH]; intros fs; [split; [apply removesOnly_refl|done]|].
  cbn [fold_left]. destruct (IH (os.RemoveAll fs x)) as [Hr Hb]. split; [|by rewrite Hb].
  intros file ino Hf. destruct (decide (x = file)) as [->|Hne]; [right; by left|].
  destruct (Hr file ino) as [H|H]; [|by left|right; by right].
  unfold os.RemoveAll. cbn [names]. by rewrite lookup_delete_ne.
Qed.

Lemma WriteFile_removesOnly fs name c :
  removesOnly (fun _ => False) fs (os.WriteFile fs name c).
Proof.
  intros file ino Hf. left. unfold os.WriteFile, os.Lookup.
  destruct (names fs !! name) as [i|] eqn:Hn; [done|]. cbn [names].
  destruct (decide (name = file)) as [->|Hne]; [congruence|].
  by rewrite lookup_insert_ne.
Qed.

(** [removeAllGlob] removes only names that match the pattern, and
    touches neither the install directory nor the toolchain. *)
Lemma removeAllGlob_removesOnly E glob w :
  let w' := snd (removeAllGlob E glob w) in
  removesOnly (fun file => matches E glob file = true) (pin w) (pin w') /\
  bin w' = bin w /\ calls w' = calls w.
Proof.
  unfold removeAllGlob, Glob.
  destruct (Match E glob ""); cbn [snd]; [|split; [apply removesOnly_refl|done]].
  split; [|done]. cbn [pin setPin].
  eapply removesOnly_weaken;
    [|apply (RemoveAll_fold_removesOnly
               (List.filter (fun n => matches E glob n) (os.ReadDirNames (pin w))) (pin w))].
  intros file Hin. by apply filter_In in Hin as [_ Hin].
Qed.

Lemma removeAllGlob_result E glob w :
  (exists e, fst (removeAllGlob E glob w) = Fail e) \/ fst (removeAllGlob E glob w) = Ok tt.
Proof.
  unfold removeAllGlob, Glob. destruct (Match E glob ""); cbn [fst]; eauto.
Qed.

Lemma bind_unfold {A B} (act : M A) (k : A -> M B) w :
  bind act k w =
  match act w with
  | (Ok a, w') => k a w'
  | (Fail e, w') => (Fail e, w')
  | (Panic s, w') => (Panic s, w')
  end.
Proof. reflexivity. Qed.

Lemma cleanGoGetTmpFiles_removesOnly E w :
  let w' := snd (cleanGoGetTmpFiles E w) in
  removesOnly (fun file => transient E file = true) (pin w) (pin w') /\
  bin w' = bin w /\ calls w' = calls w.
Proof.
  unfold cleanGoGetTmpFiles, transient. rewrite !bind_unfold.
  pose proof (removeAllGlob_removesOnly E "*.sum" w) as (H1 & B1 & C1).
  destruct (removeAllGlob E "*.sum" w) as [[[]|e|s] w1]; cbn [snd] in *;
    try (split; [|done]; eapply removesOnly_weaken; [|exact H1];
         intros file Hf; cbv beta in Hf; by rewrite Hf).
  rewrite !bind_unfold.
  pose proof (removeAllGlob_removesOnly E "*.*.tmp.*" w1) as (H2 & B2 & C2).
  destruct (removeAllGlob E "*.*.tmp.*" w1) as [[[]|e|s] w2]; cbn [snd] in *;
    try (split; [|split; congruence];
         eapply removesOnly_weaken; [|exact (removesOnly_trans _ _ _ _ _ H1 H2)];
         intros file [Hf|Hf]; cbv beta in Hf; rewrite Hf; by rewrite ?orb_true_r).
  pose proof (removeAllGlob_removesOnly E "*.tmp.*" w2) as (H3 & B3 & C3).
  split; [|split; congruence].
  eapply removesOnly_weaken;
    [|exact (removesOnly_trans _ _ _ _ _ (removesOnly_trans _ _ _ _ _ H1 H2) H3)].
  intros file [[Hf|Hf]|Hf]; cbv beta in Hf; rewrite Hf; by rewrite ?orb_true_r.
Qed.

Lemma ensureModDirExists_removesOnly w :
  let w' := snd (wrapM "ensure mod dir" ensureModDirExists w) in
  fst (wrapM "ensure mod dir" ensureModDirExists w) = Ok tt /\
  removesOnly (fun _ => False) (pin w) (pin w') /\
  bin w' = bin w /\ calls w' = calls w.
Proof.
  cbn. split; [done|]. split; [|done].
  eapply removesOnly_weaken;
    [|exact (removesOnly_trans _ _ _ _ _
               (removesOnly_trans _ _ _ _ _
                  (WriteFile_removesOnly (pin w) bingo.FakeRootModFileName fakeRootMod)
                  (WriteFile_removesOnly _ "README.md" modREADME))
               (WriteFile_removesOnly _ ".gitignore" gitignore))].
  intros file [[[]|[]]|[]].
Qed.

Lemma prepass_removesOnly E w :
  let w' := snd (prepass E w) in
  removesOnly (fun file => transient E file = true) (pin w) (pin w') /\
  bin w' = bin w /\ calls w' = calls w.
Proof.
  unfold prepass. rewrite bind_unfold.
  pose proof (cleanGoGetTmpFiles_removesOnly E w) as (H1 & B1 & C1).
  destruct (cleanGoGetTmpFiles E w) as [[[]|e|s] w1]; cbn [snd] in *; [|done..].
  pose proof (ensureModDirExists_removesOnly w1) as (_ & H2 & B2 & C2).
  split; [|split; congruence].
  eapply removesOnly_weaken; [|exact (removesOnly_trans _ _ _ _ _ H1 H2)].
  by intros file [Hf|[]].
Qed.

Lemma get_prepass E c rawTarget w :
  get E c rawTarget w =
  match prepass E w with
  | (Ok _, w2) =>
      (if String.eqb rawTarget "" then getAll E c
       else
         match parseTarget rawTarget with
         | Fail e => fail (Wrap e "parse %v")
         | Panic s => fun w => (Panic s, w)
         | Ok (name0, pkgPath, versions) =>
             if negb (runner.isNoUpdate (update c)) && hasVersionArgs versions
             then fail errUpgradeVersions
             else if negb (String.eqb (rename c) "")
             then getRename E c name0 pkgPath versions
             else getTool E c name0 pkgPath versions
         end) w2
  | (Fail e, w2) => (Fail e, w2)
  | (Panic s, w2) => (Panic s, w2)
  end.
Proof.
  unfold get, prepass. rewrite !bind_unfold.
  destruct (cleanGoGetTmpFiles E w) as [[[]|e|s] w1]; [|done..].
  rewrite !bind_unfold.
  by destruct (wrapM "ensure mod dir" ensureModDirExists w1) as [[[]|e|s] w2].
Qed.

Lemma parseTarget_not_empty rawTarget v : parseTarget rawTarget = Ok v -> rawTarget <> "".
Proof. intros H ->. discriminate. Qed.

Lemma existingModFiles_result E targetName fs :
  (exists e, existingModFiles E targetName fs = Fail e) \/
  (exists files, existingModFiles E targetName fs = Ok files).
Proof.
  unfold existingModFiles, Glob.
  destruct (Match E (targetName +:+ ".mod") ""); [|eauto].
  destruct (Match E (targetName +:+ ".*.mod") ""); eauto.
Qed.

(** What [get] does for a target with the version [none], once the
    pre-pass is done: it fails, or it removes the files that match
    [name.*], the name having been given without locator and having an
    existing manifest. *)
Lemma getNone_cases E c name0 pkgPath versions w2 :
  hd "" versions = "none" ->
  let branch :=
    (if negb (runner.isNoUpdate (update c)) && hasVersionArgs versions
     then fail errUpgradeVersions
     else if negb (String.eqb (rename c) "")
     then getRename E c name0 pkgPath versions
     else getTool E c name0 pkgPath versions) w2 in
  (exists e, fst branch = Fail e) \/
  (pkgPath = "" /\
   (exists file files, existingModFiles E name0 (pin w2) = Ok (file :: files)) /\
   branch = removeAllGlob E (name0 +:+ ".*") w2).
Proof.
  intros Hnone branch. unfold branch.
  assert (Hargs : hasVersionArgs versions = true).
  { unfold hasVersionArgs. by rewrite Hnone. }
  rewrite Hargs, andb_true_r.
  destruct (runner.isNoUpdate (update c)); cbn [negb]; [|left; by eexists].
  destruct (String.eqb (rename c) "") eqn:Hren; cbn [negb].
  - unfold getTool.
    destruct (String.eqb (name c) "") eqn:Hname; cbn [negb].
    + destruct (existingModFiles_result E name0 (pin w2)) as [[e He]|[files Hf]].
      * rewrite He. left. by eexists.
      * rewrite Hf, Hnone. cbn [String.eqb Ascii.eqb Bool.eqb].
        destruct (String.eqb_spec pkgPath "") as [->|Hp]; cbn [negb];
          [|left; by eexists].
        destruct files as [|file files]; cbn [length Nat.eqb]; [left; by eexists|].
        right. split_and!; [done|by eexists _, _|done].
    + unfold validateNewName. rewrite Hnone.
      destruct (String.eqb (name c) name0); left; by eexists.
  - unfold getRename. rewrite Hargs.
    destruct (String.eqb pkgPath ""); left; by eexists.
Qed.





(** ** Atomicity: what a run of [getPackage] does to the file of record *)

Section FileOfRecord.

Variable E : Env.
Variable out : string.
Hypothesis toolchain : toolchainKeeps E out.
Hypothesis notTransient : transient E out = false.

Lemma recordIs_RemoveAll rec c fs file :
  file <> out -> recordIs out rec c fs -> recordIs out rec c (os.RemoveAll fs file).
Proof.
  intros Hne (Hwf & Hb & Hrec). unfold os.RemoveAll. split_and!; cbn [names blocks].
  - intros n j Hn. cbn [names blocks] in *.
    apply lookup_delete_Some in Hn as [_ Hn]. by eapply Hwf.
  - by rewrite lookup_delete_ne.
  - intros ino Hino. destruct (Hrec ino Hino) as [Halone Hc]. split; [|done].
    intros n Hn. apply lookup_delete_Some in Hn as [_ Hn]. by apply Halone.
Qed.

Lemma recordIs_RemoveAll_fold rec c files fs :
  ~ In out files -> recordIs out rec c fs ->
  recordIs out rec c (fold_left os.RemoveAll files fs).
Proof.
  revert fs. induction files as [|x files IH]; intros fs Hnin Hr; [done|].
  cbn [fold_left]. apply IH.
  - intros Hin. apply Hnin. by right.
  - apply recordIs_RemoveAll; [|done]. intros ->. apply Hnin. by left.
Qed.

Lemma recordIs_removeAllGlob rec c glob w :
  matches E glob out = false -> recordIs out rec c (pin w) ->
  recordIs out rec c (pin (snd (removeAllGlob E glob w))).
Proof.
  intros Hm Hr. unfold removeAllGlob, Glob.
  destruct (Match E glob ""); [|done]. cbn [snd pin setPin].
  apply recordIs_RemoveAll_fold; [|done].
  intros Hin. apply filter_In in Hin as [_ Hin]. congruence.
Qed.

Lemma recordIs_clean rec c w :
  recordIs out rec c (pin w) ->
  recordIs out rec c (pin (snd (cleanGoGetTmpFiles E w))).
Proof.
  intros Hr. unfold transient in notTransient.
  apply orb_false_iff in notTransient as [H12 H3].
  apply orb_false_iff in H12 as [H1 H2].
  unfold cleanGoGetTmpFiles. rewrite !bind_unfold.
  pose proof (recordIs_removeAllGlob rec c "*.sum" w H1 Hr) as Hr1.
  destruct (removeAllGlob E "*.sum" w) as [[[]|e|s] w1]; cbn [snd] in *; [|done..].
  rewrite !bind_unfold.
  pose proof (recordIs_removeAllGlob rec c "*.*.tmp.*" w1 H2 Hr1) as Hr2.
  destruct (removeAllGlob E "*.*.tmp.*" w1) as [[[]|e|s] w2]; cbn [snd] in *; [|done..].
  by apply recordIs_removeAllGlob.
Qed.

Lemma recordIs_WriteInode rec c fs j x :
  (forall ino, rec = Some ino -> j <> ino) ->
  recordIs out rec c fs -> recordIs out rec c (os.WriteInode fs j x).
Proof.
  intros Hj (Hwf & Hb & Hrec). unfold os.WriteInode. split_and!; cbn [names blocks].
  - intros n i Hn. cbn [names blocks] in *. rewrite length_insert. by eapply Hwf.
  - done.
  - intros ino Hino. destruct (Hrec ino Hino) as [Halone Hc]. split; [done|].
    rewrite list_lookup_insert_ne; [done|]. by apply Hj.
Qed.

Lemma recordIs_WriteFile rec c fs file x :
  file <> out -> recordIs out rec c fs -> recordIs out rec c (os.WriteFile fs file x).
Proof.
  intros Hne Hr. unfold os.WriteFile, os.Lookup.
  destruct (names fs !! file) as [j|] eqn:Hfile.
  - apply recordIs_WriteInode; [|done]. intros ino Hino Heq. subst j.
    destruct Hr as (_ & Hb & Hrec). destruct (Hrec ino Hino) as [Halone _].
    by apply Hne, Halone.
  - destruct Hr as (Hwf & Hb & Hrec). split_and!; cbn [names blocks].
    + intros n i Hn. cbn [names blocks] in *. rewrite length_app. simpl.
      apply lookup_insert_Some in Hn as [[_ <-]|[_ Hn]]; [lia|].
      pose proof (Hwf n i Hn). lia.
    + by rewrite lookup_insert_ne.
    + intros ino Hino. destruct (Hrec ino Hino) as [Halone Hc].
      assert (Hlt : (ino < length (blocks fs))%nat).
      { eapply Hwf. rewrite Hb. exact Hino. }
      split.
      * intros n Hn. apply lookup_insert_Some in Hn as [[_ Heq]|[_ Hn]]; [lia|].
        by apply Halone.
      * by rewrite lookup_app_l.
Qed.

(** *** The manifest store on another file than the file of record *)

Lemma Reload_f mf fs : bingo.f (snd (bingo.Reload E mf fs)) = bingo.f mf /\
                       bingo.filename (snd (bingo.Reload E mf fs)) = bingo.filename mf.
Proof.
  unfold bingo.Reload.
  destruct (bingo.parseContent E _) as [file|e|s]; [|done..].
  destruct (bingo.firstDirect _) as [[p|]|e|s]; done.
Qed.

Lemma OpenModFile_f file fs mf :
  bingo.OpenModFile E file fs = Ok mf ->
  names fs !! file = Some (bingo.f mf) /\ bingo.filename mf = file /\
  is_Some (bingo.m mf).
Proof.
  unfold bingo.OpenModFile, os.Lookup.
  destruct (names fs !! file) as [ino|]; [|done].
  set (mf0 := {| bingo.filename := file; bingo.f := ino; bingo.m := None;
                 bingo.directPackage := None; bingo.autoReplaceDisabled := false |}).
  pose proof (Reload_f mf0 fs) as [Hf Hn].
  destruct (bingo.Reload E mf0 fs) as [[[]|e|s] mf1]; [|done..].
  cbn [snd] in Hf, Hn.
  destruct (bingo.m mf1) as [syntax|] eqn:Hm; [|done].
  destruct (modfile.ModuleStmt syntax) as [suffix|]; [|done].
  destruct (bingo.metaMissing suffix); intros [= <-]; cbn; rewrite ?Hf, ?Hn, ?Hm; eauto.
Qed.

Lemma Flush_f mf fs :
  bingo.f (snd (fst (bingo.Flush E mf fs))) = bingo.f mf /\
  bingo.filename (snd (fst (bingo.Flush E mf fs))) = bingo.filename mf.
Proof.
  unfold bingo.Flush. destruct (bingo.m mf); [|done]. cbn [fst snd]. apply Reload_f.
Qed.

Lemma recordIs_Flush rec c mf fs :
  (forall ino, rec = Some ino -> bingo.f mf <> ino) ->
  recordIs out rec c fs -> recordIs out rec c (snd (bingo.Flush E mf fs)).
Proof.
  intros Hf Hr. unfold bingo.Flush. destruct (bingo.m mf); [|done].
  cbn [snd]. by apply recordIs_WriteInode.
Qed.

Lemma SetDirectRequire_f mf target mf' :
  bingo.SetDirectRequire mf target = Ok mf' ->
  bingo.f mf' = bingo.f mf /\ bingo.filename mf' = bingo.filename mf.
Proof. unfold bingo.SetDirectRequire. destruct (bingo.m mf); [|done]. by intros [= <-]. Qed.

Lemma SetReplace_f mf target mf' :
  bingo.SetReplace mf target = Ok mf' ->
  bingo.f mf' = bingo.f mf /\ bingo.filename mf' = bingo.filename mf.
Proof. unfold bingo.SetReplace. destruct (bingo.m mf); [|done]. by intros [= <-]. Qed.

(** The file of an opened manifest is not the file of record. *)
Lemma OpenModFile_other rec c file fs mf :
  file <> out -> recordIs out rec c fs -> bingo.OpenModFile E file fs = Ok mf ->
  forall ino, rec = Some ino -> bingo.f mf <> ino.
Proof.
  intros Hne (_ & Hb & Hrec) Hopen ino Hino Heq.
  destruct (OpenModFile_f file fs mf Hopen) as (Hf & _ & _).
  destruct (Hrec ino Hino) as [Halone _]. apply Hne, Halone. by rewrite Hf, Heq.
Qed.

Lemma OpenModFile_ext file fs fs' :
  names fs !! file = names fs' !! file ->
  (forall ino, names fs !! file = Some ino -> blocks fs !! ino = blocks fs' !! ino) ->
  bingo.OpenModFile E file fs = bingo.OpenModFile E file fs'.
Proof.
  intros Hn Hb. unfold bingo.OpenModFile, os.Lookup. rewrite <- Hn.
  destruct (names fs !! file) as [ino|]; [|done].
  unfold bingo.Reload, os.ReadInode. cbn [bingo.f]. by rewrite (Hb ino eq_refl).
Qed.

Lemma reformatted_recordIs rec c fs fs' :
  recordIs out rec c fs -> recordIs out rec c fs' ->
  reformatted E out fs = reformatted E out fs'.
Proof.
  intros (_ & Hb & Hrec) (_ & Hb' & Hrec'). unfold reformatted.
  rewrite (OpenModFile_ext out fs fs'); [done|congruence|].
  intros ino Hino. rewrite Hb in Hino.
  destruct (Hrec ino Hino) as [_ ->]. by destruct (Hrec' ino Hino) as [_ ->].
Qed.

Lemma recordIs_WriteInode_own rec c fs ino x :
  rec = Some ino -> recordIs out rec c fs ->
  recordIs out rec (Some x) (os.WriteInode fs ino x).
Proof.
  intros Hino (Hwf & Hb & Hrec). unfold os.WriteInode. split_and!.
  - intros n i Hn. cbn [names blocks] in *. rewrite length_insert. by eapply Hwf.
  - done.
  - intros ino' Hino'. assert (ino' = ino) as -> by congruence.
    destruct (Hrec ino Hino) as [Halone Hc]. split; [done|]. cbn [blocks].
    apply list_lookup_insert_eq. eapply Hwf. rewrite Hb. exact Hino.
Qed.

Lemma noRename_refl w : noRename w w.
Proof. exists []. by rewrite app_nil_r. Qed.

Lemma noRename_trans w1 w2 w3 : noRename w1 w2 -> noRename w2 w3 -> noRename w1 w3.
Proof.
  intros (l1 & H1 & R1) (l2 & H2 & R2). exists (l1 ++ l2). split.
  - by rewrite H2, H1, <- app_assoc.
  - by rewrite existsb_app, R1, R2.
Qed.

Lemma noRename_setPin w fs : noRename w (setPin w fs).
Proof. exists []. by rewrite app_nil_r. Qed.

Lemma noRename_log w c : isRename c = false -> noRename w (logCall c w).
Proof. intros Hc. exists [c]. split; [done|]. simpl. by rewrite Hc. Qed.

Lemma noRename_setPin_r w w' fs : noRename w w' -> noRename w (setPin w' fs).
Proof. intros H. eapply noRename_trans; [exact H|apply noRename_setPin]. Qed.

Lemma noRename_setBin_r w w' b : noRename w w' -> noRename w (setBin w' b).
Proof. intros (l & Hl & Hn). by exists l. Qed.

Lemma noRename_log_r w w' c :
  isRename c = false -> noRename w w' -> noRename w (logCall c w').
Proof. intros Hc H. eapply noRename_trans; [exact H|by apply noRename_log]. Qed.

Ltac quiet :=
  repeat first [ apply noRename_refl
               | apply noRename_setPin_r
               | apply noRename_setBin_r
               | apply noRename_log_r; [reflexivity|] ].

(** *** Creating the temporary manifests *)

Lemma fromScratch_record rec c dir modFile w fs :
  modFile <> out -> recordIs out rec c fs ->
  let w1 := logCall (CallModInit modFile) (setPin w fs) in
  let ran :=
    match GoModInit E dir modFile fs with
    | (Some e, fs1) => (Fail (Wrap e "mod init"), setPin w1 fs1)
    | (None, fs1) => (bingo.OpenModFile E modFile fs1, setPin w1 fs1)
    end in
  recordIs out rec c (pin (snd ran)) /\ noRename w (snd ran) /\
  forall mf, fst ran = Ok mf ->
    (forall ino, rec = Some ino -> bingo.f mf <> ino) /\ bingo.filename mf = modFile.
Proof.
  intros Hne Hr w1 ran. unfold ran.
  destruct (toolchain modFile rec c fs Hne Hr) as (Hinit & _).
  specialize (Hinit dir).
  destruct (GoModInit E dir modFile fs) as [[e|] fs1]; cbn [fst snd pin setPin] in *.
  - split_and!; [done| |done]. exists [CallModInit modFile]. done.
  - split_and!; [done| |]. { exists [CallModInit modFile]. done. }
    intros mf Hopen. split.
    + by eapply OpenModFile_other.
    + by destruct (OpenModFile_f modFile fs1 mf Hopen) as (_ & ? & _).
Qed.

Lemma Create_record existing modFile rec c w :
  modFile <> out -> recordIs out rec c (pin w) ->
  let ran := bingo.CreateFromExistingOrNew E existing modFile w in
  (recordIs out rec c (pin (snd ran)) \/
   (existing = out /\ is_Some (reformatted E out (pin w)) /\
    recordIs out rec (reformatted E out (pin w)) (pin (snd ran)))) /\
  noRename w (snd ran) /\
  forall mf, fst ran = Ok mf ->
    (forall ino, rec = Some ino -> bingo.f mf <> ino) /\ bingo.filename mf = modFile.
Proof.
  intros Hne Hr ran. unfold ran, bingo.CreateFromExistingOrNew.
  pose proof (recordIs_RemoveAll rec c (pin w) modFile Hne Hr) as Hr0.
  set (fs := os.RemoveAll (pin w) modFile) in *.
  pose proof (fromScratch_record rec c (filepath.Dir existing) modFile w fs Hne Hr0)
    as Hscratch. cbv zeta in Hscratch.
  assert (Hs : let ran0 :=
                 match GoModInit E (filepath.Dir existing) modFile fs with
                 | (Some e, fs1) =>
                     (Fail (Wrap e "mod init"),
                      setPin (logCall (CallModInit modFile) (setPin w fs)) fs1)
                 | (None, fs1) =>
                     (bingo.OpenModFile E modFile fs1,
                      setPin (logCall (CallModInit modFile) (setPin w fs)) fs1)
                 end in
               (recordIs out rec c (pin (snd ran0)) \/
                (existing = out /\ is_Some (reformatted E out (pin w)) /\
                 recordIs out rec (reformatted E out (pin w)) (pin (snd ran0)))) /\
               noRename w (snd ran0) /\
               forall mf, fst ran0 = Ok mf ->
                 (forall ino, rec = Some ino -> bingo.f mf <> ino) /\
                 bingo.filename mf = modFile).
  { cbv zeta. destruct Hscratch as (H1 & H2 & H3). split_and!; [by left|done|done]. }
  cbv zeta in Hs.
  destruct (String.eqb existing "") eqn:Hex; cbn [negb]; [exact Hs|].
  destruct (os.Lookup fs existing) as [ino0|] eqn:Hlook; [|exact Hs].
  destruct (bingo.OpenModFile E existing fs) as [o|e|s] eqn:Hopen;
    [|exact Hs|split_and!; [by left|apply noRename_setPin|done]].
  destruct (OpenModFile_f existing fs o Hopen) as (Hfo & Hno & [syntax Hsyn]).
  unfold bingo.Close, bingo.Flush. rewrite Hsyn.
  set (fs1 := os.WriteInode fs (bingo.f o) (Manifest (modfile.Format syntax))).
  assert (Hr1 : recordIs out rec c fs1 \/
                (existing = out /\ is_Some (reformatted E out (pin w)) /\
                 recordIs out rec (reformatted E out (pin w)) fs1)).
  { destruct (decide (existing = out)) as [->|Hneq].
    - right. split; [done|].
      assert (Hsame : bingo.OpenModFile E out (pin w) = Ok o).
      { rewrite <- Hopen. apply OpenModFile_ext; [|done].
        unfold fs, os.RemoveAll. cbn [names]. by rewrite lookup_delete_ne. }
      unfold reformatted. rewrite Hsame, Hsyn. cbn [option_map]. split; [by eexists|].
      apply (recordIs_WriteInode_own rec c); [|done].
      destruct Hr0 as (_ & Hb & _). by rewrite <- Hb.
    - left. apply recordIs_WriteInode; [|done].
      by eapply OpenModFile_other. }
  assert (Hcopy : forall c', recordIs out rec c' fs1 ->
            forall fs2, snd (bingo.copyFile existing modFile fs1) = fs2 ->
            recordIs out rec c' fs2).
  { intros c' Hc' fs2 <-. unfold bingo.copyFile.
    destruct (os.ReadFile fs1 existing); [|done]. cbn [snd].
    by apply recordIs_WriteFile. }
  destruct (bingo.Reload E o fs1) as [[[]|e|s] o'] eqn:Hreload; cbn [fst snd].
  - destruct (bingo.copyFile existing modFile fs1) as [[[]|e|s] fs2] eqn:Hcp;
      cbn [fst snd pin setPin].
    + assert (Hr2 : recordIs out rec c fs2 \/
                    (existing = out /\ is_Some (reformatted E out (pin w)) /\
                     recordIs out rec (reformatted E out (pin w)) fs2)).
      { destruct Hr1 as [H|(H1 & H2 & H3)]; [left|right; split_and!; [done..|]];
          eapply Hcopy; eauto; by rewrite Hcp. }
      split_and!; [done|apply noRename_setPin|].
      intros mf Hmf. split.
      * destruct Hr2 as [H|(_ & _ & H)]; by eapply OpenModFile_other.
      * by destruct (OpenModFile_f modFile fs2 mf Hmf) as (_ & ? & _).
    + split_and!; [|apply noRename_setPin|done].
      destruct Hr1 as [H|(H1 & H2 & H3)]; [left|right; split_and!; [done..|]];
        eapply Hcopy; eauto; by rewrite Hcp.
    + split_and!; [|apply noRename_setPin|done].
      destruct Hr1 as [H|(H1 & H2 & H3)]; [left|right; split_and!; [done..|]];
        eapply Hcopy; eauto; by rewrite Hcp.
  - split_and!; [done|apply noRename_setPin|done].
  - split_and!; [done|apply noRename_setPin|done].
Qed.

(** *** Resolution, install and commit *)

Lemma resolve_record rec c verb tmpModFile u target w :
  tmpModFile <> out -> recordIs out rec c (pin w) ->
  let ran := resolvePackage E verb tmpModFile u target w in
  recordIs out rec c (pin (snd ran)) /\ noRename w (snd ran).
Proof.
  intros Hne Hr ran. unfold ran, resolvePackage.
  destruct (toolchain tmpModFile rec c (pin w) Hne Hr) as (_ & Hget & _).
  specialize (Hget u (bingo.String target)).
  destruct (GoGetD E tmpModFile u (bingo.String target) (pin w)) as [[o gerr] fs].
  cbn [snd] in Hget.
  assert (Hn : noRename w (logCall (CallGetD tmpModFile (bingo.String target)) (setPin w fs)))
    by quiet.
  destruct gerr as [e|]; [done|].
  destruct (bingo.ModIndirectModules E tmpModFile fs); done.
Qed.

Lemma install_record rec c nm lnk mf w :
  bingo.filename mf <> out -> recordIs out rec c (pin w) ->
  let ran := install E nm lnk mf w in
  recordIs out rec c (pin (snd ran)) /\ noRename w (snd ran).
Proof.
  intros Hne Hr ran. unfold ran, install.
  destruct (bingo.DirectPackage mf) as [pkg|]; [|split; [done|quiet]].
  destruct (validateTargetName nm); [split; [done|quiet]|].
  unfold bingo.FileName.
  destruct (toolchain (bingo.filename mf) rec c (pin w) Hne Hr) as (_ & _ & Hlist & _).
  specialize (Hlist (bingo.BuildFlags pkg ++ ["-mod=mod"; "-f={{.Name}}"; bingo.Path pkg])).
  destruct (GoList E (bingo.filename mf) _ (pin w)) as [listed fs1]. cbn [snd] in Hlist.
  destruct listed as [listOutput|e|s]; [|split; [done|quiet]..].
  destruct (strings.HasSuffix listOutput "main"); cbn [negb];
    [|split; [done|quiet]].
  destruct (toolchain (bingo.filename mf) rec c fs1 Hne Hlist) as (_ & _ & _ & Hbuild).
  specialize (Hbuild (bingo.BuildEnvs pkg) (bingo.Path pkg)
                (nm +:+ "-" +:+ module.Vers (bingo.Module_ pkg)) (bingo.BuildFlags pkg)).
  destruct (GoBuild E (bingo.filename mf) _ _ _ _ fs1) as [built fs2]. cbn [snd] in Hbuild.
  destruct built as [e|]; [split; [done|quiet]|].
  destruct lnk; cbn [negb snd pin setBin]; (split; [done|quiet]).
Qed.

Lemma Rename_record rec c fs old :
  recordIs out rec c fs -> fst (os.Rename fs old out) <> Ok tt ->
  recordIs out rec c (snd (os.Rename fs old out)).
Proof. unfold os.Rename. by destruct (os.Lookup fs old). Qed.

Lemma commit_record rec c cfg nm target repl mf w :
  (forall ino, rec = Some ino -> bingo.f mf <> ino) ->
  bingo.filename mf <> out -> recordIs out rec c (pin w) ->
  let ran := commitPackage E cfg nm out target repl mf w in
  (forall ino, rec = Some ino -> bingo.f (snd (fst ran)) <> ino) /\
  exists l, calls (snd ran) = calls w ++ l /\
    (is_ok (fst (fst ran)) = true -> existsb isRename l = true) /\
    (existsb isRename l = false -> recordIs out rec c (pin (snd ran))).
Proof.
  intros Hf Hne Hr ran. unfold ran, commitPackage.
  assert (Hquiet : forall (r : result unit) mf' w', is_ok r = false ->
            (forall ino, rec = Some ino -> bingo.f mf' <> ino) ->
            recordIs out rec c (pin w') -> noRename w w' ->
            (forall ino, rec = Some ino -> bingo.f (snd (fst (r, mf', w'))) <> ino) /\
            exists l, calls (snd (r, mf', w')) = calls w ++ l /\
              (is_ok (fst (fst (r, mf', w'))) = true -> existsb isRename l = true) /\
              (existsb isRename l = false -> recordIs out rec c (pin (snd (r, mf', w'))))).
  { intros r mf' w' Hr' Hf' Hrec (l & Hl & Hn). cbn [fst snd]. split; [done|].
    exists l. split_and!; [done|congruence|done]. }
  destruct (if negb (bingo.AutoReplaceDisabled mf) && (0 <? length repl)%nat
            then bingo.SetReplace mf repl else Ok mf) as [mf1|e|s] eqn:Hrepl;
    [|apply Hquiet; [done..|apply noRename_refl]|apply Hquiet; [done..|apply noRename_refl]].
  assert (Hmf1 : bingo.f mf1 = bingo.f mf /\ bingo.filename mf1 = bingo.filename mf).
  { destruct (negb _ && _); [by apply SetReplace_f in Hrepl|by simplify_eq]. }
  destruct Hmf1 as [Hf1 Hn1].
  assert (Hf1' : forall ino, rec = Some ino -> bingo.f mf1 <> ino) by (by rewrite Hf1).
  set (target' := match bingo.DirectPackage mf1 with
                  | Some old => withBuild target old
                  | None => target
                  end).
  destruct (bingo.SetDirectRequire mf1 target') as [mf2|e|s] eqn:Hset;
    [|apply Hquiet; [done..|apply noRename_refl]|apply Hquiet; [done..|apply noRename_refl]].
  apply SetDirectRequire_f in Hset as [Hf2 Hn2].
  assert (Hf2' : forall ino, rec = Some ino -> bingo.f mf2 <> ino) by (by rewrite Hf2).
  pose proof (Flush_f mf2 (pin w)) as [Hf3 Hn3].
  pose proof (recordIs_Flush rec c mf2 (pin w) Hf2' Hr) as Hr3.
  destruct (bingo.Flush E mf2 (pin w)) as [[flushed mf3] fs3]. cbn [fst snd] in Hf3, Hn3, Hr3.
  assert (Hf3' : forall ino, rec = Some ino -> bingo.f mf3 <> ino) by (by rewrite Hf3).
  destruct flushed as [[]|e|s];
    [|apply Hquiet; [done..|apply noRename_setPin]|apply Hquiet; [done..|apply noRename_setPin]].
  assert (Hne3 : bingo.filename mf3 <> out) by congruence.
  pose proof (install_record rec c nm (link cfg) mf3 (setPin w fs3) Hne3 Hr3) as [Hr4 Hn4].
  destruct (install E nm (link cfg) mf3 (setPin w fs3)) as [[[]|e|s] w1]; cbn [snd] in Hr4, Hn4;
    [|apply Hquiet; [done..|]|apply Hquiet; [done..|]];
    try (eapply noRename_trans; [apply noRename_setPin|exact Hn4]).
  unfold bingo.FileName.
  pose proof (Rename_record rec c (pin w1) (bingo.filename mf3) Hr4) as Hr5.
  assert (Hn4' : noRename w w1) by (eapply noRename_trans; [apply noRename_setPin|exact Hn4]).
  destruct (os.Rename (pin w1) (bingo.filename mf3) out) as [[[]|e|s] fs5]; cbn [fst snd] in Hr5.
  - cbn [fst snd]. split; [done|]. destruct Hn4' as (l & Hl & _).
    exists (l ++ [CallRename (bingo.filename mf3) out]). split_and!.
    + cbn [calls logCall setPin]. by rewrite Hl, <- app_assoc.
    + intros _. rewrite existsb_app. simpl. by rewrite orb_true_r.
    + rewrite existsb_app. simpl. by rewrite orb_true_r.
  - apply Hquiet; [done|done|by apply Hr5|].
    eapply noRename_trans; [exact Hn4'|apply noRename_setPin].
  - apply Hquiet; [done|done|by apply Hr5|].
    eapply noRename_trans; [exact Hn4'|apply noRename_setPin].
Qed.

(** *** The deferred closes *)

Lemma closeCaptured_record {A} rec c mf (r : result A) w :
  (forall ino, rec = Some ino -> bingo.f mf <> ino) ->
  let ran := closeCaptured E mf r w in
  calls (snd ran) = calls w /\
  (recordIs out rec c (pin w) -> recordIs out rec c (pin (snd ran))) /\
  (is_ok (fst ran) = true -> is_ok r = true).
Proof.
  intros Hf ran. unfold ran, closeCaptured, bingo.Close.
  pose proof (fun H => recordIs_Flush rec c mf (pin w) Hf H) as Hr.
  destruct (bingo.Flush E mf (pin w)) as [[closed mf'] fs]. cbn [fst snd pin setPin] in *.
  split_and!; [done|done|]. by destruct r, closed.
Qed.

Lemma closeDropped_record {A} rec c mf (r : result A) w :
  (forall ino, rec = Some ino -> bingo.f mf <> ino) ->
  let ran := closeDropped E mf r w in
  calls (snd ran) = calls w /\
  (recordIs out rec c (pin w) -> recordIs out rec c (pin (snd ran))) /\
  (is_ok (fst ran) = true -> is_ok r = true).
Proof.
  intros Hf ran. unfold ran, closeDropped, bingo.Close.
  pose proof (fun H => recordIs_Flush rec c mf (pin w) Hf H) as Hr.
  destruct (bingo.Flush E mf (pin w)) as [[closed mf'] fs]. cbn [fst snd pin setPin] in *.
  split_and!; [done|done|]. by destruct r, closed.
Qed.

(** *** Progress of a run *)

Lemma progress_quiet {A} rec c0 c1 w (r : result A) w' :
  is_ok r = false -> noRename w w' ->
  recordIs out rec c0 (pin w') \/ recordIs out rec c1 (pin w') ->
  progress out rec c0 c1 w r w'.
Proof.
  intros Hr (l & Hl & Hn) Hrec. exists l. split_and!; [done|congruence|done].
Qed.

Lemma progress_after {A} rec c0 c1 w w1 (r : result A) w' :
  noRename w w1 -> progress out rec c0 c1 w1 r w' -> progress out rec c0 c1 w r w'.
Proof.
  intros (l1 & H1 & N1) (l & Hl & Hok & Hrec). exists (l1 ++ l). split_and!.
  - by rewrite Hl, H1, <- app_assoc.
  - intros H. rewrite existsb_app, (Hok H). by rewrite orb_true_r.
  - rewrite existsb_app, N1. exact Hrec.
Qed.

Lemma stage_progress rec c0 cfg nm tmp target repl w :
  tmp <> out -> recordIs out rec c0 (pin w) ->
  let ran := stagePackage E cfg nm out tmp target repl w in
  progress out rec c0 (reformatted E out (pin w)) w (fst ran) (snd ran).
Proof.
  intros Hne Hr ran. unfold ran, stagePackage.
  pose proof (recordIs_clean rec c0 w Hr) as Hr1.
  pose proof (cleanGoGetTmpFiles_removesOnly E w) as (_ & _ & Hc1).
  assert (Hn1 : noRename w (snd (cleanGoGetTmpFiles E w))).
  { exists []. by rewrite app_nil_r. }
  rewrite (reformatted_recordIs rec c0 (pin w) (pin (snd (cleanGoGetTmpFiles E w))) Hr Hr1).
  destruct (cleanGoGetTmpFiles E w) as [[[]|e|s] w1]; cbn [fst snd] in *;
    [|apply progress_quiet; [done|done|by left]..].
  eapply progress_after; [exact Hn1|].
  pose proof (Create_record out tmp rec c0 w1 Hne Hr1) as (Hr2 & Hn2 & Hmf).
  unfold wrapM.
  destruct (bingo.CreateFromExistingOrNew E out tmp w1) as [[mf|e|s] w2];
    cbn [fst snd] in *;
    [|apply progress_quiet; [done|done|]; destruct Hr2 as [?|(_ & _ & ?)]; auto..].
  destruct (Hmf mf eq_refl) as [Hf Hname].
  eapply progress_after; [exact Hn2|].
  assert (Htmp : bingo.filename mf <> out) by congruence.
  assert (Hcommit : forall c, recordIs out rec c (pin w2) ->
            let ran := commitPackage E cfg nm out target repl mf w2 in
            let fin := closeCaptured E (snd (fst ran)) (fst (fst ran)) (snd ran) in
            exists l, calls (snd fin) = calls w2 ++ l /\
              (is_ok (fst fin) = true -> existsb isRename l = true) /\
              (existsb isRename l = false -> recordIs out rec c (pin (snd fin)))).
  { intros c Hc ran0 fin.
    destruct (commit_record rec c cfg nm target repl mf w2 Hf Htmp Hc)
      as (Hf' & l & Hl & Hok & Hrec).
    fold ran0 in Hf', Hl, Hok, Hrec.
    destruct (closeCaptured_record rec c (snd (fst ran0)) (fst (fst ran0)) (snd ran0) Hf')
      as (Hcalls & Hkeep & Hres).
    fold fin in Hcalls, Hkeep, Hres.
    exists l. split_and!; [congruence|auto|auto]. }
  destruct (commitPackage E cfg nm out target repl mf w2) as [[r mf'] w3] eqn:Hran.
  cbn [fst snd] in Hcommit.
  destruct Hr2 as [Hc|(_ & _ & Hc)]; destruct (Hcommit _ Hc) as (l & Hl & Hok & Hrec);
    exists l; split_and!; auto.
Qed.

Lemma modFileNames_distinct i nm :
  snd (fst (modFileNames i nm)) <> fst (fst (modFileNames i nm)) /\
  snd (modFileNames i nm) <> fst (fst (modFileNames i nm)) /\
  fst (fst (modFileNames i nm)) <> "".
Proof.
  unfold modFileNames.
  destruct (0 <? i)%nat; cbn [fst snd]; split_and!; intros H;
    apply (f_equal String.length) in H; rewrite ?length_append in H; simpl in H; lia.
Qed.

Lemma getPackage_progress rec c0 cfg i nm target w :
  out = fst (fst (modFileNames i nm)) ->
  recordIs out rec c0 (pin w) ->
  let ran := getPackage E cfg i nm target w in
  progress out rec c0 (reformatted E out (pin w)) w (fst ran) (snd ran).
Proof.
  intros Hout Hr ran. unfold ran, getPackage.
  destruct (modFileNames_distinct i nm) as (Hempty & Htmp & Hnonempty).
  rewrite <- Hout in Hempty, Htmp, Hnonempty.
  destruct (modFileNames i nm) as [[out' tmpEmpty] tmp]. cbn [fst snd] in *. subst out'.
  destruct (needsResolve (update cfg) target); [|by apply stage_progress].
  pose proof (Create_record "" tmpEmpty rec c0 w Hempty Hr) as (Hr1 & Hn1 & Hmf).
  assert (Hr1' : recordIs out rec c0
                   (pin (snd (bingo.CreateFromExistingOrNew E "" tmpEmpty w)))).
  { destruct Hr1 as [?|(Heq & _)]; [done|]. by subst out. }
  clear Hr1. unfold wrapM.
  destruct (bingo.CreateFromExistingOrNew E "" tmpEmpty w) as [[mfE|e|s] w1];
    cbn [fst snd] in *; [|apply progress_quiet; [done|done|by left]..].
  destruct (Hmf mfE eq_refl) as [Hf Hname].
  set (body := bind _ _).
  assert (Hbody : progress out rec c0 (reformatted E out (pin w)) w (fst (body w1))
                           (snd (body w1))).
  { eapply progress_after; [exact Hn1|].
    rewrite (reformatted_recordIs rec c0 (pin w) (pin w1) Hr Hr1').
    unfold body. rewrite bind_unfold. unfold bingo.FileName. rewrite Hname.
    pose proof (resolve_record rec c0 (verbose cfg) tmpEmpty (update cfg) target w1
                  Hempty Hr1') as [Hr2 Hn2].
    destruct (resolvePackage E (verbose cfg) tmpEmpty (update cfg) target w1)
      as [[target'|e|s] w2]; cbn [fst snd] in *;
      [|apply progress_quiet; [done|done|by left]..].
    eapply progress_after; [exact Hn2|].
    rewrite (reformatted_recordIs rec c0 (pin w1) (pin w2) Hr1' Hr2).
    rewrite bind_unfold.
    destruct (if negb (strings.HasSuffix (module.Vers (bingo.Module_ target')) "+incompatible")
              then autoFetchReplaceStatements E target' else Ok []) as [repl|e|s];
      [|apply progress_quiet; [done|apply noRename_refl|by left]..].
    by apply stage_progress. }
  destruct (body w1) as [r w2]. cbn [fst snd] in Hbody.
  destruct Hbody as (l & Hl & Hok & Hrec).
  destruct (closeDropped_record rec c0 mfE r w2 Hf) as (Hcalls & Hkeep0 & Hres).
  destruct (closeDropped_record rec (reformatted E out (pin w)) mfE r w2 Hf)
    as (_ & Hkeep1 & _).
  exists l. split_and!; [congruence|auto|].
  intros Hn. destruct (Hrec Hn); auto.
Qed.

End FileOfRecord.


Lemma ReadFile_recordIs out rec c fs :
  recordIs out rec c fs ->
  os.ReadFile fs out = match rec with Some _ => c | None => None end.
Proof.
  intros (_ & Hb & Hrec). unfold os.ReadFile, os.Lookup, os.ReadInode. rewrite Hb.
  destruct rec as [ino|]; [|done]. cbn. by destruct (Hrec ino eq_refl) as [_ ->].
Qed.

Lemma recordIs_initial out fs :
  wfFS fs ->
  (forall ino file, names fs !! out = Some ino -> names fs !! file = Some ino -> file = out) ->
  recordIs out (names fs !! out) (os.ReadFile fs out) fs.
Proof.
  intros Hwf Halone. split_and!; [done|done|].
  intros ino Hino. split; [intros file; by apply Halone|].
  unfold os.ReadFile, os.Lookup, os.ReadInode. by rewrite Hino.
Qed.


(** The sample toolchain leaves every file alone but the manifest it
    is run on. *)
Lemma sample_toolchainKeeps getErr listOutput hostfs out :
  toolchainKeeps (sample.env getErr listOutput hostfs) out.
Proof.
  intros modFile rec c fs Hne Hr. split_and!; intros; cbn [snd]; try done.
  by apply recordIs_WriteFile.
Qed.

Lemma wfFS_WriteFile fs file x : wfFS fs -> wfFS (os.WriteFile fs file x).
Proof.
  intros Hwf n j. unfold os.WriteFile, os.WriteInode, os.Lookup.
  destruct (names fs !! file) eqn:Hf; cbn [names blocks].
  - intros Hn. rewrite length_insert. by eapply Hwf.
  - rewrite length_app. simpl. intros Hn.
    apply lookup_insert_Some in Hn as [[_ <-]|[_ Hn]]; [lia|].
    pose proof (Hwf n j Hn). lia.
Qed.

Lemma wfFS_empty : wfFS sample.emptyFS.
Proof. intros n j H. cbn in H. by rewrite lookup_empty in H. Qed.



(** * Further properties *)

(** ** The target parser *)

Lemma lower_not_upper a : isUpper (strings.lower a) = false.
Proof.
  unfold strings.lower, isUpper.
  destruct ((65 <=? nat_of_ascii a)%nat && (nat_of_ascii a <=? 90)%nat) eqn:Hu; [|done].
  apply andb_true_iff in Hu as [H1 H2].
  apply Nat.leb_le in H1. apply Nat.leb_le in H2.
  rewrite nat_ascii_embedding by lia.
  apply andb_false_iff. right. apply Nat.leb_gt. lia.
Qed.

Lemma noUpper_ToLower s : noUpper (strings.ToLower s) = true.
Proof.
  induction s as [|a r IH]; [done|]. cbn [strings.ToLower noUpper].
  by rewrite lower_not_upper, IH.
Qed.

(** X1: when [parseTarget] succeeds, the version list is not empty
    (so that [versions[0]] in [get] is in range), it is the version list
    of the raw target, and the package path is the locator as it was
    written when the locator has a slash, and empty when it has none. *)
Theorem parseTarget_shape (rawTarget name pkgPath : string) (versions : list string) :
  parseTarget rawTarget = Ok (name, pkgPath, versions) ->
  versions <> [] /\ versions = versionList rawTarget /\
  pkgPath = (if strings.Contains (locator rawTarget) "/" then locator rawTarget else "").
Proof.
  intros Hp.
  assert (Hne : rawTarget <> "").
  { intros ->. by cbn in Hp. }
  pose proof (parseTarget_versions rawTarget Hne) as Hv. rewrite Hp in Hv.
  destruct Hv as [-> _]. split_and!; [|done|].
  - unfold versionList.
    destruct (strings.Split rawTarget "@") as [|? [|s1 ?]]; [done|done|apply Split_not_nil].
  - unfold parseTarget in Hp. fold (locator rawTarget) in Hp.
    destruct (String.eqb rawTarget ""); [done|].
    destruct (if (1 <? _)%nat then _ else _); [done|].
    destruct (strings.Contains (locator rawTarget) "/"); [|by simplify_eq].
    destruct (_ && _); by simplify_eq.
Qed.

Lemma parseTarget_shape_witness :
  ["v1.0.0"; "v1.1.0"] <> [] /\
  ["v1.0.0"; "v1.1.0"] = versionList "github.com/X/Tool@v1.0.0,v1.1.0" /\
  "github.com/X/Tool" = "github.com/X/Tool".
Proof.
  apply (parseTarget_shape "github.com/X/Tool@v1.0.0,v1.1.0" "tool"). reflexivity.
Defined.

(** X2: the tool name that [parseTarget] returns has no upper-case
    ASCII letter, whatever the case of the raw target. *)
Theorem parseTarget_name_lower (rawTarget name pkgPath : string) (versions : list string) :
  parseTarget rawTarget = Ok (name, pkgPath, versions) -> noUpper name = true.
Proof.
  intros Hp. unfold parseTarget in Hp.
  destruct (String.eqb rawTarget ""); [done|].
  destruct (if (1 <? _)%nat then _ else _); [done|].
  destruct (strings.Contains _ "/"); [destruct (_ && _)|];
    simplify_eq; apply noUpper_ToLower.
Qed.

Lemma parseTarget_name_lower_witness : noUpper "tool" = true.
Proof.
  apply (parseTarget_name_lower "github.com/X/Tool@v1.0.0" "tool" "github.com/X/Tool"
           ["v1.0.0"]).
  reflexivity.
Defined.

(** X3: a raw target that is a bare name, without slash and without
    [@], parses to the lower-cased name, no package path and the single
    empty version. *)
Theorem parseTarget_bare_name (rawTarget : string) :
  rawTarget <> "" ->
  strings.Contains rawTarget "/" = false ->
  strings.Contains rawTarget "@" = false ->
  parseTarget rawTarget = Ok (strings.ToLower rawTarget, "", [""]).
Proof.
  intros Hne Hslash Hat. unfold parseTarget.
  destruct (String.eqb_spec rawTarget "") as [|_]; [done|].
  rewrite (Split_no_sep rawTarget "@" Hat). cbn [hd length Nat.ltb Nat.leb].
  by rewrite Hslash.
Qed.

Lemma parseTarget_bare_name_witness :
  parseTarget "GoImports" = Ok ("goimports", "", [""]).
Proof. apply (parseTarget_bare_name "GoImports"); [discriminate|reflexivity|reflexivity]. Defined.

(** ** Removing the files that match a pattern *)

Lemma ReadDirNames_elem fs file :
  In file (os.ReadDirNames fs) <-> is_Some (names fs !! file).
Proof.
  unfold os.ReadDirNames. rewrite <- list_elem_of_In, merge_sort_Permutation.
  rewrite list_elem_of_In, in_map_iff. split.
  - intros ([k v] & <- & Hin). apply list_elem_of_In, elem_of_map_to_list in Hin.
    by exists v.
  - intros [v Hv]. exists (file, v). split; [done|].
    by apply list_elem_of_In, elem_of_map_to_list.
Qed.

Lemma RemoveAll_fold_lookup files fs file :
  names (fold_left os.RemoveAll files fs) !! file
  = if decide (file ∈ files) then None else names fs !! file.
Proof.
  revert fs. induction files as [|x files IH]; intros fs.
  - cbn. rewrite decide_False; [done|]. apply not_elem_of_nil.
  - cbn [fold_left]. rewrite IH. unfold os.RemoveAll. cbn [names].
    destruct (decide (file ∈ files)) as [Hin|Hnin].
    + rewrite decide_True; [done|by right].
    + destruct (decide (x = file)) as [->|Hne].
      * rewrite decide_True; [|by left]. apply lookup_delete_eq.
      * rewrite decide_False; [by rewrite lookup_delete_ne|].
        intros Hin. apply elem_of_cons in Hin as [?|?]; congruence.
Qed.

Lemma removeAllGlob_lookup E glob w file :
  Match E glob "" <> None ->
  fst (removeAllGlob E glob w) = Ok tt /\
  names (pin (snd (removeAllGlob E glob w))) !! file
  = if matches E glob file then None else names (pin w) !! file.
Proof.
  intros Hm. unfold removeAllGlob, Glob.
  destruct (Match E glob "") as [b|]; [|done]. cbn [fst snd pin setPin]. split; [done|].
  rewrite RemoveAll_fold_lookup.
  destruct (matches E glob file) eqn:Hf.
  - destruct (names (pin w) !! file) as [ino|] eqn:Hn.
    + rewrite decide_True; [done|]. apply list_elem_of_In, filter_In. split; [|done].
      apply ReadDirNames_elem. by exists ino.
    + by destruct (decide _).
  - rewrite decide_False; [done|]. intros Hin.
    apply list_elem_of_In, filter_In in Hin as [_ Hin]. congruence.
Qed.

Lemma removeAllGlob_Ok E glob w w' :
  removeAllGlob E glob w = (Ok tt, w') -> Match E glob "" <> None.
Proof. unfold removeAllGlob, Glob. by destruct (Match E glob ""). Qed.


(** X5: when the clean-up of temporary files succeeds, no name that
    matches one of its three patterns is left in the pin directory, and
    every other name is bound as before. *)
Theorem cleanGoGetTmpFiles_exact (E : Env) (w : World) :
  fst (cleanGoGetTmpFiles E w) = Ok tt ->
  forall file, names (pin (snd (cleanGoGetTmpFiles E w))) !! file
               = if transient E file then None else names (pin w) !! file.
Proof.
  unfold cleanGoGetTmpFiles, transient. rewrite !bind_unfold.
  destruct (removeAllGlob E "*.sum" w) as [[[]|e|s] w1] eqn:H1; [|done..].
  rewrite !bind_unfold.
  destruct (removeAllGlob E "*.*.tmp.*" w1) as [[[]|e|s] w2] eqn:H2; [|done..].
  intros H3 file.
  destruct (removeAllGlob E "*.tmp.*" w2) as [[[]|e|s] w3] eqn:H3'; [|done..].
  cbn [snd].
  pose proof (proj2 (removeAllGlob_lookup E _ w file (removeAllGlob_Ok _ _ _ _ H1))) as L1.
  pose proof (proj2 (removeAllGlob_lookup E _ w1 file (removeAllGlob_Ok _ _ _ _ H2))) as L2.
  pose proof (proj2 (removeAllGlob_lookup E _ w2 file (removeAllGlob_Ok _ _ _ _ H3'))) as L3.
  rewrite H1 in L1. rewrite H2 in L2. rewrite H3' in L3. cbn [snd] in *.
  rewrite L3, L2, L1.
  by destruct (matches E "*.sum" file), (matches E "*.*.tmp.*" file),
       (matches E "*.tmp.*" file).
Qed.

Lemma cleanGoGetTmpFiles_exact_witness :
  names (pin (snd (cleanGoGetTmpFiles sample.quiet sample.installed))) !! "other.sum" = None /\
  names (pin (snd (cleanGoGetTmpFiles sample.quiet sample.installed))) !! "z.mod"
  = names (pin sample.installed) !! "z.mod".
Proof.
  split.
  - apply (cleanGoGetTmpFiles_exact sample.quiet sample.installed eq_refl "other.sum").
  - apply (cleanGoGetTmpFiles_exact sample.quiet sample.installed eq_refl "z.mod").
Defined.

(** X6: when an uninstall (version [none]) succeeds, no name that
    matches [name.*] is left in the pin directory. *)
Theorem get_none_removes_all (E : Env) (c : getConfig) (rawTarget name0 pkgPath : string)
    (versions : list string) (w : World) :
  parseTarget rawTarget = Ok (name0, pkgPath, versions) ->
  hd "" versions = "none" ->
  fst (get E c rawTarget w) = Ok tt ->
  forall file, matches E (name0 +:+ ".*") file = true ->
               names (pin (snd (get E c rawTarget w))) !! file = None.
Proof.
  intros Hparse Hnone. rewrite get_prepass.
  destruct (prepass E w) as [[[]|e|s] w2]; [|done..].
  rewrite (proj2 (String.eqb_neq _ _) (parseTarget_not_empty _ _ Hparse)), Hparse.
  destruct (getNone_cases E c name0 pkgPath versions w2 Hnone)
    as [[e He]|(_ & _ & Hrm)]; [congruence|].
  rewrite Hrm. intros Hok file Hfile.
  destruct (removeAllGlob E (name0 +:+ ".*") w2) as [[[]|e|s] w3] eqn:Hr; [|done..].
  pose proof (proj2 (removeAllGlob_lookup E _ w2 file (removeAllGlob_Ok _ _ _ _ Hr))) as L.
  rewrite Hr, Hfile in L. exact L.
Qed.

Lemma get_none_removes_all_witness :
  names (pin (snd (get sample.quiet sample.config "z@none" sample.installed))) !! "z.mod"
  = None.
Proof.
  apply (get_none_removes_all sample.quiet sample.config "z@none" "z" "" ["none"]
           sample.installed); reflexivity.
Defined.

(** ** The install step: names, failures and links *)

(** X7: under the name [cmd] or [go] the install step fails before it
    asks the toolchain anything: no call is recorded and nothing has
    changed. *)
Theorem install_rejects_name (E : Env) (name : string) (link : bool)
    (modFile : bingo.ModFile) (pkg : bingo.Package) (w : World) :
  bingo.DirectPackage modFile = Some pkg ->
  name = "cmd" \/ name = "go" ->
  exists e, install E name link modFile w = (Fail (Wrap e (bingo.String pkg)), w).
Proof.
  intros Hpkg [->| ->]; unfold install; rewrite Hpkg; by eexists.
Qed.

Lemma install_rejects_name_witness :
  exists e, install sample.quiet "cmd" true sample.pinned sample.emptyWorld
            = (Fail (Wrap e (bingo.String sample.toolZ)), sample.emptyWorld).
Proof.
  apply (install_rejects_name sample.quiet "cmd" true sample.pinned sample.toolZ
           sample.emptyWorld); [reflexivity|by left].
Defined.

(** X8: an install step that fails because the name is refused, the
    listing fails, the package is not a main package or the build fails
    (the failures of the step in this embedding, where removing and making
    the link always work) leaves the install directory as it was: no
    binary is recorded and no link is touched. *)
Theorem install_failure_keeps_bin (E : Env) (name : string) (link : bool)
    (modFile : bingo.ModFile) (w : World) :
  fst (install E name link modFile w) <> Ok tt ->
  bin (snd (install E name link modFile w)) = bin w.
Proof.
  unfold install.
  destruct (bingo.DirectPackage modFile) as [pkg|]; [|done].
  destruct (validateTargetName name); [done|].
  destruct (GoList E _ _ (pin w)) as [[listOutput|e|s] fs1]; [|done..].
  destruct (negb (strings.HasSuffix listOutput "main")); [done|].
  destruct (GoBuild E _ _ _ _ _ fs1) as [[e|] fs2]; [done|].
  by destruct (negb link).
Qed.

Lemma install_failure_keeps_bin_witness :
  bin (snd (install brokenBuild "z" true sample.pinned sample.installed))
  = bin sample.installed.
Proof.
  apply (install_failure_keeps_bin brokenBuild "z" true sample.pinned sample.installed).
  discriminate.
Defined.

Lemma binName_not_name name pkg : binName name pkg <> name.
Proof.
  unfold binName. intros H. apply (f_equal String.length) in H.
  rewrite !length_append in H. cbn in H. lia.
Qed.

(** X9: when the install step succeeds, the install directory holds
    the binary under [name-version]; under [name] it holds the link to
    that binary when a link was asked for, and what it held before when
    not; every other entry is as before. *)
Theorem install_links (E : Env) (name : string) (link : bool)
    (modFile : bingo.ModFile) (pkg : bingo.Package) (w : World) :
  bingo.DirectPackage modFile = Some pkg ->
  fst (install E name link modFile w) = Ok tt ->
  let after := bin (snd (install E name link modFile w)) in
  after !! binName name pkg = Some (Binary (bingo.Path pkg) (bingo.FileName modFile)) /\
  after !! name = (if link then Some (Symlink (binName name pkg)) else bin w !! name) /\
  forall other, other <> name -> other <> binName name pkg ->
                after !! other = bin w !! other.
Proof.
  intros Hpkg. pose proof (binName_not_name name pkg) as Hne.
  unfold install, binName in *. rewrite Hpkg.
  destruct (validateTargetName name); [done|].
  destruct (GoList E _ _ (pin w)) as [[listOutput|e|s] fs1]; [|done..].
  destruct (strings.HasSuffix listOutput "main"); cbn [negb]; [|done].
  destruct (GoBuild E _ _ _ _ _ fs1) as [[e|] fs2]; [done|].
  destruct link; cbn [negb fst snd bin setBin logCall setPin]; intros _.
  - split_and!.
    + rewrite lookup_insert_ne by done. rewrite lookup_delete_ne by done.
      apply lookup_insert_eq.
    + apply lookup_insert_eq.
    + intros other H1 H2. rewrite lookup_insert_ne by done.
      rewrite lookup_delete_ne by done. by rewrite lookup_insert_ne.
  - split_and!.
    + apply lookup_insert_eq.
    + by rewrite lookup_insert_ne.
    + intros other H1 H2. by rewrite lookup_insert_ne.
Qed.

Lemma install_links_witness :
  let after := bin (snd (install sample.quiet "z" true sample.pinned sample.emptyWorld)) in
  after !! "z-v1.2.3" = Some (Binary "github.com/x/y/cmd/z" "z.tmp.mod") /\
  after !! "z" = Some (Symlink "z-v1.2.3") /\
  forall other, other <> "z" -> other <> "z-v1.2.3" ->
                after !! other = bin sample.emptyWorld !! other.
Proof.
  apply (install_links sample.quiet "z" true sample.pinned sample.toolZ sample.emptyWorld);
    reflexivity.
Defined.

(** ** The cache prober: short locators and broken version lists *)

(** X10: for a package path of at most two segments the cache prober
    fails with the no-cached-module error, whatever the cache holds: no
    candidate is examined. *)
Theorem resolveInGoModCache_short (E : Env) (verbose : bool)
    (u : runner.GetUpdatePolicy) (target : bingo.Package) :
  (segments (bingo.Path target) <= 2)%nat ->
  resolveInGoModCache E verbose u target = Fail errNoCachedModule.
Proof.
  intros Hseg. unfold resolveInGoModCache, segments in *. cbn [probe].
  replace (2 <? length (strings.Split (bingo.Path target) "/"))%nat with false; [done|].
  symmetry. apply Nat.ltb_ge. lia.
Qed.

Lemma resolveInGoModCache_short_witness :
  resolveInGoModCache (sample.env (Errorf "go get failed") "main" sample.cacheYaml) false
    runner.NoUpdatePolicy (sample.unknown "gopkg.in/yaml.v2" "")
  = Fail errNoCachedModule.
Proof. apply resolveInGoModCache_short. vm_compute. lia. Defined.

(** X11: when no version is pinned or an update is requested, the
    first candidate that has a metadata directory decides: if its version
    list cannot be read or is empty, the cache prober fails with that
    error and does not go on to the shorter candidates. *)
Theorem resolveInGoModCache_latest_stops (E : Env) (verbose : bool)
    (u : runner.GetUpdatePolicy) (target : bingo.Package) (k : nat)
    (node : hostnode) (e : error) :
  skipped E target k ->
  (2 < segments (candidate target k))%nat ->
  host E (metaDir E (candidate target k)) = Some node ->
  (forall e', node <> HostErr e') ->
  runner.isNoUpdate u = false \/ module.Vers (bingo.Module_ target) = "" ->
  latestModVersion E (filepath.Join [metaDir E (candidate target k); "list"]) = Fail e ->
  resolveInGoModCache E verbose u target = Fail (Wrap e "get latest version from %v").
Proof.
  intros Hskip Hseg Hhost Hnode Hmode Hlist.
  pose proof (resolveInGoModCache_probe E verbose u target) as Hprobe.
  destruct (probe_reach (S (String.length (bingo.Path target))) E verbose u target k
              ltac:(lia) Hskip) as [Hlen Hreach].
  rewrite Hreach in Hprobe. unfold segments, metaDir in *.
  cbn [probe] in Hprobe.
  replace (2 <? length (strings.Split (candidate target k) "/"))%nat with true in Hprobe
    by (symmetry; by apply Nat.ltb_lt).
  cbn [negb] in Hprobe. rewrite Hhost in Hprobe.
  assert (Hlatest : negb (runner.isNoUpdate u)
                    || String.eqb (module.Vers (bingo.Module_ target)) "" = true).
  { destruct Hmode as [->| ->]; [done|]. by rewrite orb_true_r. }
  rewrite Hlatest, Hlist in Hprobe.
  destruct node as [entries|lines parsed|e']; [congruence|congruence|by destruct (Hnode e')].
Qed.

Lemma resolveInGoModCache_latest_stops_witness :
  resolveInGoModCache (sample.env (Errorf "go get failed") "main" cacheShadowed) false
    runner.NoUpdatePolicy (sample.unknown "github.com/x/y/cmd/z" "")
  = Fail (Wrap os.errNotExist "get latest version from %v").
Proof.
  apply (resolveInGoModCache_latest_stops _ false runner.NoUpdatePolicy
           (sample.unknown "github.com/x/y/cmd/z" "") 0 (HostDir []) os.errNotExist).
  - intros j Hj. lia.
  - vm_compute. lia.
  - reflexivity.
  - discriminate.
  - by right.
  - reflexivity.
Defined.

(** ** The version-resolution engine after a successful [go get -d] *)

(** X12: after a successful [go get -d], a populated manifest without
    indirect module makes the resolution fail, without a look at the
    cache; a single indirect module is taken as the module of the target,
    its path not being compared with the package path. *)
Theorem resolvePackage_adopts (E : Env) (verbose : bool) (tmpModFile : string)
    (u : runner.GetUpdatePolicy) (target : bingo.Package) (w : World)
    (out : string) (fs : FS) :
  GoGetD E tmpModFile u (bingo.String target) (pin w) = ((out, None), fs) ->
  (bingo.ModIndirectModules E tmpModFile fs = Ok [] ->
   fst (resolvePackage E verbose tmpModFile u target w) = Fail errNoIndirectModule) /\
  (forall m0, bingo.ModIndirectModules E tmpModFile fs = Ok [m0] ->
     fst (resolvePackage E verbose tmpModFile u target w)
     = Ok (resolved target (module.Path m0) (module.Vers m0))).
Proof.
  intros Hget. unfold resolvePackage. rewrite Hget.
  split; [intros ->|intros m0 ->]; done.
Qed.

Lemma resolvePackage_adopts_witness :
  let E := sample.envGet
             [ {| modfile.l_path := "github.com/other/mod"; modfile.l_vers := "v0.3.0";
                  modfile.l_suffix := ["// indirect"] |} ] "main" sample.noHost in
  fst (resolvePackage E false "z-e.tmp.mod" runner.NoUpdatePolicy
         (sample.unknown "github.com/x/y/cmd/z" "") sample.emptyWorld)
  = Ok (bingo.mkPackage (module.mkVersion "github.com/other/mod" "v0.3.0")
                        "github.com/x/y/cmd/z" [] []).
Proof.
  intros E.
  eapply (proj2 (resolvePackage_adopts E false "z-e.tmp.mod" runner.NoUpdatePolicy
                   (sample.unknown "github.com/x/y/cmd/z" "") sample.emptyWorld
                   "go: downloading" _ eq_refl)
            (module.mkVersion "github.com/other/mod" "v0.3.0")).
  reflexivity.
Defined.

(** ** The escaping of module paths *)


(** ** The driver: what the flags exclude *)

(** X14: an upgrade ([-u]) of a target that names a version fails,
    and nothing but the pre-pass has been done. *)
Theorem get_upgrade_with_version (E : Env) (c : getConfig)
    (rawTarget name0 pkgPath : string) (versions : list string) (w : World) :
  parseTarget rawTarget = Ok (name0, pkgPath, versions) ->
  runner.isNoUpdate (update c) = false ->
  hasVersionArgs versions = true ->
  fst (prepass E w) = Ok tt ->
  get E c rawTarget w = (Fail errUpgradeVersions, snd (prepass E w)).
Proof.
  intros Hparse Hu Hargs Hpre. rewrite get_prepass.
  destruct (prepass E w) as [[[]|e|s] w2]; [|done..].
  rewrite (proj2 (String.eqb_neq _ _) (parseTarget_not_empty _ _ Hparse)), Hparse.
  by rewrite Hu, Hargs.
Qed.

Lemma get_upgrade_with_version_witness :
  get sample.quiet upgrade "z@v1.3.0" sample.installed
  = (Fail errUpgradeVersions, snd (prepass sample.quiet sample.installed)).
Proof.
  apply (get_upgrade_with_version sample.quiet upgrade "z@v1.3.0" "z" "" ["v1.3.0"]);
    reflexivity.
Defined.

(** X15: an uninstall (version [none]) together with an upgrade, a
    rename or a name of its own always fails, and nothing but the pre-pass
    has been done. *)
Theorem get_none_with_flags (E : Env) (c : getConfig)
    (rawTarget name0 pkgPath : string) (versions : list string) (w : World) :
  parseTarget rawTarget = Ok (name0, pkgPath, versions) ->
  hd "" versions = "none" ->
  runner.isNoUpdate (update c) = false \/ rename c <> "" \/ name c <> "" ->
  fst (prepass E w) = Ok tt ->
  exists e, get E c rawTarget w = (Fail e, snd (prepass E w)).
Proof.
  intros Hparse Hnone Hflags Hpre. rewrite get_prepass.
  destruct (prepass E w) as [[[]|e|s] w2]; [|done..]. cbn [snd].
  rewrite (proj2 (String.eqb_neq _ _) (parseTarget_not_empty _ _ Hparse)), Hparse.
  assert (Hargs : hasVersionArgs versions = true).
  { unfold hasVersionArgs. by rewrite Hnone. }
  rewrite Hargs, andb_true_r.
  destruct (runner.isNoUpdate (update c)) eqn:Hu; cbn [negb]; [|by eexists].
  destruct (String.eqb_spec (rename c) "") as [Hren|Hren]; cbn [negb].
  - destruct Hflags as [?|[?|Hname]]; [done|done|].
    unfold getTool. rewrite (proj2 (String.eqb_neq _ _) Hname). cbn [negb].
    unfold validateNewName. rewrite Hnone.
    destruct (String.eqb (name c) name0); by eexists.
  - unfold getRename. rewrite Hargs.
    destruct (String.eqb pkgPath ""); by eexists.
Qed.

Lemma get_none_with_flags_witness :
  exists e, get sample.quiet named "z@none" sample.installed
            = (Fail e, snd (prepass sample.quiet sample.installed)).
Proof.
  apply (get_none_with_flags sample.quiet named "z@none" "z" "" ["none"]);
    [reflexivity|reflexivity|right; right; discriminate|reflexivity].
Defined.

(** ** The calls of a run of [getPackage] *)

Lemma callsOnly_refl P w : callsOnly P w w.
Proof. exists []. by rewrite app_nil_r. Qed.

Lemma callsOnly_trans P w1 w2 w3 :
  callsOnly P w1 w2 -> callsOnly P w2 w3 -> callsOnly P w1 w3.
Proof.
  intros (l1 & H1 & R1) (l2 & H2 & R2). exists (l1 ++ l2). split.
  - by rewrite H2, H1, <- app_assoc.
  - by rewrite forallb_app, R1, R2.
Qed.

Lemma callsOnly_same P w w' : calls w' = calls w -> callsOnly P w w'.
Proof. intros H. exists []. by rewrite app_nil_r. Qed.

Lemma callsOnly_setPin_r P w w' fs : callsOnly P w w' -> callsOnly P w (setPin w' fs).
Proof. intros (l & Hl & Hn). by exists l. Qed.

Lemma callsOnly_setBin_r P w w' b : callsOnly P w w' -> callsOnly P w (setBin w' b).
Proof. intros (l & Hl & Hn). by exists l. Qed.

Lemma callsOnly_log_r P w w' c :
  P c = true -> callsOnly P w w' -> callsOnly P w (logCall c w').
Proof.
  intros Hc (l & Hl & Hn). exists (l ++ [c]). split.
  - cbn [calls logCall]. by rewrite Hl, <- app_assoc.
  - rewrite forallb_app, Hn. simpl. by rewrite Hc.
Qed.

Ltac logged :=
  repeat first [ apply callsOnly_refl
               | apply callsOnly_setPin_r
               | apply callsOnly_setBin_r
               | apply callsOnly_log_r; [reflexivity|] ].

Lemma Create_calls E existing modFile w :
  callsOnly (fun c => negb (isGetD c)) w
            (snd (bingo.CreateFromExistingOrNew E existing modFile w)).
Proof.
  unfold bingo.CreateFromExistingOrNew.
  destruct (negb (String.eqb existing "")).
  - destruct (os.Lookup _ existing).
    + destruct (bingo.OpenModFile E existing _) as [o|e|s].
      * destruct (bingo.Close E o _) as [[[[]|e|s] o'] fs1].
        -- destruct (bingo.copyFile existing modFile fs1) as [[[]|e|s] fs2];
             cbn [snd]; logged.
        -- cbn [snd]; logged.
        -- cbn [snd]; logged.
      * destruct (GoModInit E _ modFile _) as [[e'|] fs1]; cbn [snd]; logged.
      * cbn [snd]; logged.
    + destruct (GoModInit E _ modFile _) as [[e'|] fs1]; cbn [snd]; logged.
  - destruct (GoModInit E _ modFile _) as [[e'|] fs1]; cbn [snd]; logged.
Qed.

Lemma install_calls E name link modFile w :
  callsOnly (fun c => negb (isGetD c)) w (snd (install E name link modFile w)).
Proof.
  unfold install.
  destruct (bingo.DirectPackage modFile) as [pkg|]; [|logged].
  destruct (validateTargetName name); [logged|].
  destruct (GoList E _ _ (pin w)) as [[listOutput|e|s] fs1]; cbn [snd]; [|logged..].
  destruct (negb (strings.HasSuffix listOutput "main")); cbn [snd]; [logged|].
  destruct (GoBuild E _ _ _ _ _ fs1) as [[e|] fs2]; cbn [snd]; [logged|].
  destruct (negb link); cbn [snd]; logged.
Qed.

Lemma commitPackage_calls E c name outModFile target replaceStmts tmpModFile w :
  callsOnly (fun c => negb (isGetD c)) w
    (snd (commitPackage E c name outModFile target replaceStmts tmpModFile w)).
Proof.
  unfold commitPackage.
  match goal with
  | |- context [match (if ?b then ?x else ?y) with _ => _ end] =>
      destruct (if b then x else y) as [mf1|e|s]
  end; cbn [snd]; [|logged..].
  destruct (bingo.SetDirectRequire mf1 _) as [mf2|e|s]; cbn [snd]; [|logged..].
  destruct (bingo.Flush E mf2 (pin w)) as [[[[]|e|s] mf3] fs]; cbn [snd]; [|logged..].
  pose proof (install_calls E name (link c) mf3 (setPin w fs)) as Hi.
  destruct (install E name (link c) mf3 (setPin w fs)) as [[[]|e|s] w1]; cbn [snd] in *;
    [|exact Hi..].
  destruct (os.Rename (pin w1) _ outModFile) as [[[]|e|s] fs2]; cbn [snd];
    first [ apply callsOnly_log_r; [reflexivity|]; by apply callsOnly_setPin_r
          | by apply callsOnly_setPin_r ].
Qed.

Lemma stagePackage_calls E c name outModFile tmpModFilePath target replaceStmts w :
  callsOnly (fun c => negb (isGetD c)) w
    (snd (stagePackage E c name outModFile tmpModFilePath target replaceStmts w)).
Proof.
  unfold stagePackage.
  pose proof (cleanGoGetTmpFiles_removesOnly E w) as (_ & _ & Hc).
  destruct (cleanGoGetTmpFiles E w) as [[[]|e|s] w1]; cbn [snd] in *;
    [|by apply callsOnly_same..].
  eapply callsOnly_trans; [by apply callsOnly_same|].
  unfold wrapM.
  pose proof (Create_calls E outModFile tmpModFilePath w1) as Hcreate.
  destruct (bingo.CreateFromExistingOrNew E outModFile tmpModFilePath w1)
    as [[tmpModFile|e|s] w2]; cbn [snd] in *; [|exact Hcreate..].
  eapply callsOnly_trans; [exact Hcreate|].
  pose proof (commitPackage_calls E c name outModFile target replaceStmts tmpModFile w2)
    as Hcommit.
  destruct (commitPackage E c name outModFile target replaceStmts tmpModFile w2)
    as [[r mf] w3]; cbn [snd] in *.
  unfold closeCaptured. destruct (bingo.Close E mf (pin w3)) as [[cl ?] fs]. cbn [snd].
  by apply callsOnly_setPin_r.
Qed.



(** ** The manifest store: what an open manifest looks like *)

Lemma setDirectRequire_Requires_shape file r :
  modfile.Requires (bingo.setDirectRequire file r) =
  if String.eqb (module.Path (bingo.Module_ r)) "" then []
  else [ {| modfile.Mod := bingo.Module_ r; modfile.Indirect := false;
            modfile.Suffix := directToken r |} ].
Proof.
  unfold bingo.setDirectRequire, directToken.
  destruct (bingo.Module_ r) as [path vers] eqn:Hm.
  destruct (0 <? length (bingo.directMeta r))%nat; simpl;
    destruct (String.eqb path ""); done.
Qed.

Lemma setDirectRequire_rest file r :
  modfile.ModuleStmt (bingo.setDirectRequire file r) = modfile.ModuleStmt file /\
  modfile.Comments (bingo.setDirectRequire file r) = modfile.Comments file.
Proof.
  unfold bingo.setDirectRequire.
  destruct (0 <? length (bingo.directMeta r))%nat; simpl; done.
Qed.

Lemma Trim_metaComment : strings.Trim bingo.metaComment "010" = bingo.metaComment.
Proof. reflexivity. Qed.

(** X17: a manifest that [OpenModFile] returns is open on the file of
    that name, has at most one require line, which is not indirect, has
    none when no direct package was read, and has the marker of the tool
    among the comments of its module line. *)
Theorem OpenModFile_invariant (E : Env) (modFile : string) (fs : FS) (mf : bingo.ModFile) :
  bingo.OpenModFile E modFile fs = Ok mf ->
  bingo.filename mf = modFile /\ names fs !! modFile = Some (bingo.f mf) /\
  exists syntax sfx,
    bingo.m mf = Some syntax /\
    (length (modfile.Requires syntax) <= 1)%nat /\
    Forall (fun r => modfile.Indirect r = false) (modfile.Requires syntax) /\
    (bingo.directPackage mf = None -> modfile.Requires syntax = []) /\
    modfile.ModuleStmt syntax = Some sfx /\
    exists tok, In tok sfx /\ strings.Trim tok "010" = bingo.metaComment.
Proof.
  unfold bingo.OpenModFile, os.Lookup.
  destruct (names fs !! modFile) as [ino|]; [|done].
  assert (Hreq : forall file p,
            (length (modfile.Requires (bingo.setDirectRequire file p)) <= 1)%nat /\
            Forall (fun r => modfile.Indirect r = false)
                   (modfile.Requires (bingo.setDirectRequire file p))).
  { intros file p. rewrite setDirectRequire_Requires_shape.
    destruct (String.eqb _ ""); cbn; [split; [lia|constructor]|].
    split; [lia|]. by repeat constructor. }
  assert (Hmark : forall syntax suffix,
            modfile.ModuleStmt syntax = Some suffix ->
            exists sfx,
              modfile.ModuleStmt
                (if bingo.metaMissing suffix
                 then modfile.setModuleSuffix syntax (suffix ++ [bingo.metaComment])
                 else syntax) = Some sfx /\
              exists tok, In tok sfx /\ strings.Trim tok "010" = bingo.metaComment).
  { intros syntax suffix Hs. destruct (bingo.metaMissing suffix) eqn:Hmiss.
    - exists (suffix ++ [bingo.metaComment]). split; [done|].
      exists bingo.metaComment. split; [apply in_or_app; right; by left|].
      apply Trim_metaComment.
    - exists suffix. split; [done|]. unfold bingo.metaMissing in Hmiss.
      destruct suffix as [|tok rest]; [done|]. exists tok. split; [by left|].
      apply negb_false_iff in Hmiss. by apply String.eqb_eq. }
  unfold bingo.Reload. cbn [bingo.f bingo.filename].
  destruct (bingo.parseContent E _) as [file|e|s]; [|done..].
  destruct (bingo.firstDirect _) as [[p|]|e|s]; [| |done..]; cbn [bingo.m].
  - destruct (setDirectRequire_rest (bingo.dropAllRequire file) p) as [Hstmt _].
    destruct (modfile.ModuleStmt (bingo.setDirectRequire _ p)) as [suffix|] eqn:Hs; [|done].
    destruct (Hmark _ _ Hs) as (sfx & Hsfx & Htok).
    destruct (Hreq (bingo.dropAllRequire file) p) as [Hlen Hdirect].
    destruct (bingo.metaMissing suffix); intros [= <-]; cbn in *;
      (split_and!; [done|done|]); eexists _, sfx; split_and!; try done.
  - destruct (modfile.ModuleStmt (bingo.dropAllRequire file)) as [suffix|] eqn:Hs; [|done].
    destruct (Hmark _ _ Hs) as (sfx & Hsfx & Htok).
    destruct (bingo.metaMissing suffix); intros [= <-]; cbn in *;
      (split_and!; [done|done|]); eexists _, sfx;
      split_and!; first [done | cbn; lia | by constructor].
Qed.

Lemma OpenModFile_invariant_witness :
  exists mf, bingo.OpenModFile sample.quiet "z.mod" (pin sample.edited) = Ok mf /\
  bingo.filename mf = "z.mod" /\ names (pin sample.edited) !! "z.mod" = Some (bingo.f mf) /\
  exists syntax sfx,
    bingo.m mf = Some syntax /\
    (length (modfile.Requires syntax) <= 1)%nat /\
    Forall (fun r => modfile.Indirect r = false) (modfile.Requires syntax) /\
    (bingo.directPackage mf = None -> modfile.Requires syntax = []) /\
    modfile.ModuleStmt syntax = Some sfx /\
    exists tok, In tok sfx /\ strings.Trim tok "010" = bingo.metaComment.
Proof.
  eexists. split; [reflexivity|].
  apply (OpenModFile_invariant sample.quiet "z.mod" (pin sample.edited)). reflexivity.
Defined.

Lemma firstDirect_short before l after tok rest :
  Forall (fun x => modfile.isIndirect (modfile.l_suffix x) = true) before ->
  modfile.l_suffix l = tok :: rest ->
  modfile.isIndirect (tok :: rest) = false ->
  (String.length tok < 3)%nat ->
  bingo.firstDirect
    (map (fun x => {| modfile.Mod := module.mkVersion (modfile.l_path x) (modfile.l_vers x);
                      modfile.Indirect := modfile.isIndirect (modfile.l_suffix x);
                      modfile.Suffix := modfile.l_suffix x |})
         (before ++ l :: after))
  = Panic bingo.errSliceBounds.
Proof.
  intros Hbefore Hl Hdirect Hlen.
  induction Hbefore as [|x before Hx _ IH];
    cbn [map app bingo.firstDirect modfile.Indirect modfile.Suffix].
  - rewrite Hl, Hdirect.
    by replace (String.length tok <? 3)%nat with true by (symmetry; by apply Nat.ltb_lt).
  - by rewrite Hx.
Qed.

(** X18: [OpenModFile] panics on a manifest whose first require line
    that is not indirect ends with a comment of less than three bytes
    (a bare [//]): the comment is sliced from its fourth byte on. *)
Theorem OpenModFile_short_comment (E : Env) (modFile : string) (fs : FS) (ino : nat)
    (t : modfile.Text) (before after : list modfile.ReqLine) (l : modfile.ReqLine)
    (tok : string) (rest : list string) :
  names fs !! modFile = Some ino ->
  blocks fs !! ino = Some (Manifest t) ->
  forallb (fun x => CheckRequire E (modfile.l_path x) (modfile.l_vers x))
          (modfile.t_require t) = true ->
  modfile.t_require t = before ++ l :: after ->
  Forall (fun x => modfile.isIndirect (modfile.l_suffix x) = true) before ->
  modfile.l_suffix l = tok :: rest ->
  modfile.isIndirect (tok :: rest) = false ->
  (String.length tok < 3)%nat ->
  bingo.OpenModFile E modFile fs = Panic bingo.errSliceBounds.
Proof.
  intros Hname Hblock Hcheck Hreq Hbefore Hl Hdirect Hlen.
  unfold bingo.OpenModFile, os.Lookup. rewrite Hname.
  unfold bingo.Reload, os.ReadInode. cbn [bingo.f]. rewrite Hblock.
  unfold bingo.parseContent, modfile.Parse. rewrite Hcheck. cbn [modfile.Requires].
  rewrite Hreq.
  by rewrite (firstDirect_short before l after tok rest Hbefore Hl Hdirect Hlen).
Qed.

Lemma OpenModFile_short_comment_witness :
  bingo.OpenModFile sample.quiet "z.mod"
    (os.WriteFile sample.emptyFS "z.mod"
       (Manifest {| modfile.t_module := Some [bingo.metaComment];
                    modfile.t_require :=
                      [ {| modfile.l_path := "github.com/x/y"; modfile.l_vers := "v1.2.3";
                           modfile.l_suffix := ["//"] |} ];
                    modfile.t_replace := []; modfile.t_comments := [] |}))
  = Panic bingo.errSliceBounds.
Proof.
  eapply (OpenModFile_short_comment sample.quiet "z.mod" _ 0 _ [] []
            {| modfile.l_path := "github.com/x/y"; modfile.l_vers := "v1.2.3";
               modfile.l_suffix := ["//"] |} "//" []);
    try reflexivity.
  - constructor.
  - cbn. lia.
Defined.

(** ** The manifest store: setting the require and the replace lines *)



Lemma DropReplace_fold_In l file r :
  In r (modfile.Replaces
          (fold_left (fun fl x => modfile.DropReplace fl (module.Path (modfile.Old x))
                                                      (module.Vers (modfile.Old x)))
                     l file)) ->
  In r (modfile.Replaces file) /\
  forall x, In x l -> modfile.Old x <> modfile.Old r.
Proof.
  revert file. induction l as [|y l IH]; intros file; cbn [fold_left].
  - intros H. split; [done|]. by intros x [].
  - intros H. apply IH in H as [Hin Hl]. unfold modfile.DropReplace in Hin.
    cbn [modfile.Replaces modfile.setReplaces] in Hin.
    apply filter_In in Hin as [Hin Hne]. split; [done|].
    intros x [<-|Hx]; [|by apply Hl]. intros Heq. rewrite Heq in Hne.
    by rewrite !String.eqb_refl in Hne.
Qed.

Lemma DropReplace_fold_rest l file :
  let file' := fold_left (fun fl x => modfile.DropReplace fl (module.Path (modfile.Old x))
                                                          (module.Vers (modfile.Old x)))
                         l file in
  modfile.Requires file' = modfile.Requires file /\
  modfile.ModuleStmt file' = modfile.ModuleStmt file /\
  modfile.Comments file' = modfile.Comments file.
Proof.
  revert file. induction l as [|y l IH]; intros file; cbn [fold_left]; [done|].
  destruct (IH (modfile.DropReplace file (module.Path (modfile.Old y))
                                    (module.Vers (modfile.Old y)))) as (H1 & H2 & H3).
  cbv zeta. by rewrite H1, H2, H3.
Qed.

Lemma updateReplace_fresh path vers new rs :
  Forall (fun r => module.Path (modfile.Old r) <> path) rs ->
  modfile.updateReplace path vers new true rs = (rs, true).
Proof.
  induction 1 as [|r rs Hr _ IH]; cbn [modfile.updateReplace]; [done|].
  unfold modfile.sameOld. rewrite (proj2 (String.eqb_neq _ _) Hr). cbn [andb].
  by rewrite IH.
Qed.

Lemma AddReplace_fold targets file :
  NoDup (map (fun r => module.Path (modfile.Old r)) targets) ->
  (forall t r, In t targets -> In r (modfile.Replaces file) ->
               module.Path (modfile.Old r) <> module.Path (modfile.Old t)) ->
  let file' := fold_left (fun fl r => modfile.AddReplace fl (modfile.Old r) (modfile.New r))
                         targets file in
  modfile.Replaces file' = modfile.Replaces file ++ targets /\
  modfile.Requires file' = modfile.Requires file /\
  modfile.ModuleStmt file' = modfile.ModuleStmt file /\
  modfile.Comments file' = modfile.Comments file.
Proof.
  revert file. induction targets as [|t targets IH]; intros file Hnd Hfresh; cbn [fold_left].
  - cbv zeta. by rewrite app_nil_r.
  - apply NoDup_cons in Hnd as [Ht Hnd].
    assert (Hadd : modfile.AddReplace file (modfile.Old t) (modfile.New t)
                   = modfile.setReplaces file (modfile.Replaces file ++ [t])).
    { unfold modfile.AddReplace. rewrite updateReplace_fresh; [by destruct t|].
      apply Forall_forall. intros r Hr. apply list_elem_of_In in Hr.
      apply (Hfresh t r); [by left|done]. }
    rewrite Hadd.
    destruct (IH (modfile.setReplaces file (modfile.Replaces file ++ [t])) Hnd)
      as (H1 & H2 & H3 & H4).
    { intros t' r Ht' Hr. cbn [modfile.Replaces modfile.setReplaces] in Hr.
      apply in_app_or in Hr as [Hr|[<-|[]]]; [apply Hfresh; [by right|done]|].
      intros Heq. apply Ht. rewrite Heq. apply list_elem_of_In, in_map_iff.
      by exists t'. }
    cbv zeta. rewrite H1, H2, H3, H4. cbn [modfile.Replaces modfile.setReplaces].
    by rewrite <- app_assoc.
Qed.

Lemma filter_all {A} (P : A -> bool) l :
  Forall (fun x => P x = true) l -> List.filter P l = l.
Proof. induction 1 as [|x l Hx _ IH]; cbn; [done|]. by rewrite Hx, IH. Qed.



(** ** The comment of the direct require line, read *)

Lemma metaLoop_words elem rel0 env0 rel envs flags :
  bingo.metaLoop elem rel0 env0 = (rel, envs, flags) ->
  (exists more, envs = env0 ++ more /\
     Forall (fun e => e <> "" /\ strings.Contains e "=" = true /\
                      strings.HasPrefix e "-" = false /\ In e elem) more) /\
  (rel = rel0 \/
   (rel <> "" /\ strings.Contains rel "=" = false /\
    strings.HasPrefix rel "-" = false /\ In rel elem)) /\
  (exists before, elem = before ++ flags /\
     Forall (fun w => strings.HasPrefix w "-" = false) before) /\
  match flags with
  | [] => True
  | f0 :: _ => strings.HasPrefix f0 "-" = true
  end.
Proof.
  revert rel0 env0. induction elem as [|l rest IH]; intros rel0 env0; cbn [bingo.metaLoop].
  - intros [= <- <- <-]. split_and!; [|by left| |done].
    + exists []. by rewrite app_nil_r.
    + by exists [].
  - destruct (String.eqb_spec l "") as [->|Hne].
    { intros H. destruct (IH _ _ H) as ((more & -> & Hmore) & Hrel & (before & -> & Hb) & Hf).
      split_and!; [| | |done].
      - exists more. split; [done|]. eapply Forall_impl; [exact Hmore|].
        intros e (? & ? & ? & ?). split_and!; [done..|by right].
      - destruct Hrel as [?|(? & ? & ? & ?)]; [by left|right]. split_and!; [done..|by right].
      - exists ("" :: before). split; [done|]. by constructor. }
    destruct (strings.HasPrefix l "-") eqn:Hdash.
    { intros [= <- <- <-]. split_and!; [|by left| |done].
      - exists []. by rewrite app_nil_r.
      - by exists []. }
    destruct (strings.Contains l "=") eqn:Heq; cbn [negb].
    + intros H. destruct (IH _ _ H) as ((more & -> & Hmore) & Hrel & (before & -> & Hb) & Hf).
      split_and!; [| | |done].
      * exists (l :: more). split; [by rewrite <- app_assoc|]. constructor.
        -- split_and!; [done..|by left].
        -- eapply Forall_impl; [exact Hmore|].
           intros e (? & ? & ? & ?). split_and!; [done..|by right].
      * destruct Hrel as [?|(? & ? & ? & ?)]; [by left|right]. split_and!; [done..|by right].
      * exists (l :: before). split; [done|]. by constructor.
    + intros H. destruct (IH _ _ H) as ((more & -> & Hmore) & Hrel & (before & -> & Hb) & Hf).
      split_and!; [| | |done].
      * exists more. split; [done|]. eapply Forall_impl; [exact Hmore|].
        intros e (? & ? & ? & ?). split_and!; [done..|by right].
      * right. destruct Hrel as [->|(? & ? & ? & ?)]; split_and!; try done;
          first [by left | by right].
      * exists (l :: before). split; [done|]. by constructor.
Qed.

(** X21: whatever the line, [parseDirectPackageMeta] returns as
    environment entries only words of the line that hold a [=] and do not
    start with a dash; as relative path the empty string or such a word
    without [=]; and as flags the words of the line from the first one
    that starts with a dash on, all of them, as they stand. *)
Theorem parseDirectPackageMeta_words (line rel : string) (envs flags : list string) :
  bingo.parseDirectPackageMeta line = (rel, envs, flags) ->
  Forall (fun e => e <> "" /\ strings.Contains e "=" = true /\
                   strings.HasPrefix e "-" = false /\ In e (strings.Split line " ")) envs /\
  (rel = "" \/
   (strings.Contains rel "=" = false /\ strings.HasPrefix rel "-" = false /\
    In rel (strings.Split line " "))) /\
  (exists before, strings.Split line " " = before ++ flags /\
     Forall (fun w => strings.HasPrefix w "-" = false) before) /\
  match flags with
  | [] => True
  | f0 :: _ => strings.HasPrefix f0 "-" = true
  end.
Proof.
  intros H. unfold bingo.parseDirectPackageMeta in H.
  destruct (metaLoop_words _ _ _ _ _ _ H) as ((more & -> & Hmore) & Hrel & Hflags & Hf).
  split_and!; [done| |done|done].
  destruct Hrel as [?|(? & ? & ? & ?)]; [by left|by right].
Qed.

Lemma parseDirectPackageMeta_words_witness :
  Forall (fun e => e <> "" /\ strings.Contains e "=" = true /\
                   strings.HasPrefix e "-" = false /\
                   In e (strings.Split "cmd/z CGO_ENABLED=0 -tags a=b  netgo" " "))
         ["CGO_ENABLED=0"] /\
  ("cmd/z" = "" \/
   (strings.Contains "cmd/z" "=" = false /\ strings.HasPrefix "cmd/z" "-" = false /\
    In "cmd/z" (strings.Split "cmd/z CGO_ENABLED=0 -tags a=b  netgo" " "))) /\
  (exists before,
     strings.Split "cmd/z CGO_ENABLED=0 -tags a=b  netgo" " "
     = before ++ ["-tags"; "a=b"; ""; "netgo"] /\
     Forall (fun w => strings.HasPrefix w "-" = false) before) /\
  strings.HasPrefix "-tags" "-" = true.
Proof.
  apply (parseDirectPackageMeta_words "cmd/z CGO_ENABLED=0 -tags a=b  netgo" "cmd/z"
           ["CGO_ENABLED=0"] ["-tags"; "a=b"; ""; "netgo"]).
  reflexivity.
Defined.

(** ** Listing the pinned tools *)

Lemma Flush_names E mf fs :
  names (snd (bingo.Flush E mf fs)) = names fs /\
  length (blocks (snd (bingo.Flush E mf fs))) = length (blocks fs).
Proof.
  unfold bingo.Flush. destruct (bingo.m mf); [|done]. cbn [snd names blocks os.WriteInode].
  split; [done|]. apply length_insert.
Qed.

Lemma ModDirectPackage_names E file fs :
  names (snd (bingo.ModDirectPackage E file fs)) = names fs /\
  length (blocks (snd (bingo.ModDirectPackage E file fs))) = length (blocks fs).
Proof.
  unfold bingo.ModDirectPackage. destruct (bingo.OpenModFile E file fs) as [mf|e|s]; [|done..].
  unfold bingo.Close. pose proof (Flush_names E mf fs) as Hf.
  by destruct (bingo.Flush E mf fs) as [[c mf'] fs1].
Qed.

Lemma listLoop_names E files pkgs fs :
  names (snd (bingo.listLoop E false files pkgs fs)) = names fs /\
  length (blocks (snd (bingo.listLoop E false files pkgs fs))) = length (blocks fs).
Proof.
  revert pkgs fs. induction files as [|file files IH]; intros pkgs fs; [done|].
  cbn [bingo.listLoop]. destruct (String.eqb _ bingo.FakeRootModFileName); [apply IH|].
  pose proof (ModDirectPackage_names E file fs) as [Hn Hb].
  destruct (bingo.ModDirectPackage E file fs) as [[pkg|e|s] fs1]; cbn [snd] in *.
  - destruct (bingo.addVersion _ _ _ _ pkgs) as [pkgs'|];
      match goal with
      | |- context [bingo.listLoop E false files ?acc fs1] =>
          destruct (IH acc fs1); split; congruence
      end.
  - destruct (IH pkgs fs1). split; congruence.
  - done.
Qed.

(** X22: listing the pinned tools without removal of the malformed
    manifests neither creates nor deletes nor renames a file of the pin
    directory: every name is bound as before. *)
Theorem ListPinnedMainPackages_keeps_names (E : Env) (fs : FS) :
  names (snd (bingo.ListPinnedMainPackages E false fs)) = names fs /\
  length (blocks (snd (bingo.ListPinnedMainPackages E false fs))) = length (blocks fs).
Proof.
  unfold bingo.ListPinnedMainPackages.
  destruct (Glob E "*.mod" fs) as [modFiles|e|s]; [apply listLoop_names|done..].
Qed.

Lemma addVersion_Some name varName base v pkgs pkgs' :
  bingo.addVersion name varName base v pkgs = Some pkgs' ->
  map bingo.Name pkgs' = map bingo.Name pkgs /\
  (Forall (fun p => bingo.Versions p <> []) pkgs ->
   Forall (fun p => bingo.Versions p <> []) pkgs').
Proof.
  revert pkgs'. induction pkgs as [|p rest IH]; intros pkgs'; cbn [bingo.addVersion]; [done|].
  destruct (String.eqb (bingo.Name p) name).
  - intros [= <-]. split; [done|]. intros Hall. apply Forall_cons in Hall as [Hp Hrest].
    constructor; [|done]. cbn [bingo.Versions].
    destruct (String.eqb base _); [done|]. by destruct (bingo.Versions p).
  - destruct (bingo.addVersion name varName base v rest) as [rest'|]; [|done].
    intros [= <-]. destruct (IH rest' eq_refl) as [Hn Hv]. split; [cbn; by rewrite Hn|].
    intros Hall. apply Forall_cons in Hall as [Hp Hrest]. constructor; [done|by apply Hv].
Qed.

Lemma addVersion_None name varName base v pkgs :
  bingo.addVersion name varName base v pkgs = None -> ~ In name (map bingo.Name pkgs).
Proof.
  induction pkgs as [|p rest IH]; cbn [bingo.addVersion]; [by intros _ []|].
  destruct (String.eqb_spec (bingo.Name p) name) as [|Hne]; [done|].
  destruct (bingo.addVersion name varName base v rest); [done|].
  intros _ [?|?]; [done|by apply IH].
Qed.

Lemma listLoop_distinct E rem files pkgs fs pkgs' :
  NoDup (map bingo.Name pkgs) ->
  Forall (fun p => bingo.Versions p <> []) pkgs ->
  fst (bingo.listLoop E rem files pkgs fs) = Ok pkgs' ->
  NoDup (map bingo.Name pkgs') /\ Forall (fun p => bingo.Versions p <> []) pkgs'.
Proof.
  revert pkgs fs. induction files as [|file files IH]; intros pkgs fs Hnd Hv;
    cbn [bingo.listLoop].
  - by intros [= <-].
  - destruct (String.eqb _ bingo.FakeRootModFileName); [by apply IH|].
    destruct (bingo.ModDirectPackage E file fs) as [[pkg|e|s] fs1]; [|by apply IH|done].
    destruct (bingo.addVersion _ _ _ _ pkgs) as [pkgs1|] eqn:Hadd.
    + destruct (addVersion_Some _ _ _ _ _ _ Hadd) as [Hn Hv1].
      apply IH; [by rewrite Hn|by apply Hv1].
    + apply addVersion_None in Hadd. apply IH.
      * rewrite map_app. cbn [map bingo.Name]. apply NoDup_app. split_and!; [done| |].
        -- intros x Hx [Heq|[]]%list_elem_of_In. apply Hadd, list_elem_of_In.
           by rewrite Heq.
        -- apply NoDup_singleton.
      * apply Forall_app. split; [done|]. by repeat constructor.
Qed.



(** ** The names of the manifest files *)

Lemma substring_append_l a b : substring 0 (String.length a) (a +:+ b) = a.
Proof.
  induction a as [|c a IH].
  - change ("" +:+ b) with b. by destruct b.
  - rewrite append_cons. cbn [String.length substring]. by rewrite IH.
Qed.

Lemma substring_append_r a b n : substring (String.length a) n (a +:+ b) = substring 0 n b.
Proof.
  induction a as [|c a IH]; [done|].
  rewrite append_cons. cbn [String.length substring]. exact IH.
Qed.

Lemma TrimSuffix_append s suf : strings.TrimSuffix (s +:+ suf) suf = s.
Proof.
  unfold strings.TrimSuffix, strings.HasSuffix. rewrite length_append.
  replace (String.length s + String.length suf - String.length suf)%nat
    with (String.length s) by lia.
  rewrite substring_append_r, substring_all, String.eqb_refl.
  replace (String.length suf <=? String.length s + String.length suf)%nat with true
    by (symmetry; apply Nat.leb_le; lia).
  cbn [andb]. apply substring_append_l.
Qed.

Lemma Contains_append a b c :
  strings.Contains (a +:+ b) (String c "")
  = strings.Contains a (String c "") || strings.Contains b (String c "").
Proof.
  induction a as [|x a IH].
  - cbn [append]. change ("" +:+ b) with b. cbn [strings.Contains String.prefix].
    by destruct b.
  - rewrite append_cons. cbn [strings.Contains]. rewrite !prefix_one, IH.
    by rewrite orb_assoc.
Qed.

Lemma Split_sep_app w c rest :
  strings.Contains w (String c "") = false ->
  strings.Split (w +:+ String c rest) c = w :: strings.Split rest c.
Proof.
  induction w as [|a w IH]; intros Hw.
  - change ("" +:+ String c rest) with (String c rest). cbn [strings.Split].
    by rewrite Ascii.eqb_refl.
  - rewrite append_cons. cbn [strings.Split].
    cbn [strings.Contains] in Hw. rewrite prefix_one in Hw.
    apply orb_false_iff in Hw as [Ha Hw]. rewrite Ha, (IH Hw). done.
Qed.

Lemma string_of_uint_digits d c :
  isDigit c = false -> strings.Contains (NilZero.string_of_uint d) (String c "") = false.
Proof.
  intros Hc.
  assert (H : forall u, strings.Contains (NilEmpty.string_of_uint u) (String c "") = false).
  { induction u as [|u IH|u IH|u IH|u IH|u IH|u IH|u IH|u IH|u IH|u IH];
      cbn [NilEmpty.string_of_uint strings.Contains]; [done|..];
      rewrite prefix_one, IH, orb_false_r;
      apply Ascii.eqb_neq; intros <-; discriminate. }
  destruct d; cbn [NilZero.string_of_uint]; try apply H.
  change "0" with (String "0" ""). unfold strings.Contains. rewrite prefix_one.
  cbn [String.prefix]. rewrite !orb_false_r.
  apply Ascii.eqb_neq. intros <-. discriminate.
Qed.

(** X24: [NameFromModFile] reads back the tool name from the name of
    the file of record that [getPackage] uses, for a name without dot and
    without slash, and tells whether the file is one of an array (its
    index is not zero). *)
Theorem NameFromModFile_modFileNames (i : nat) (name : string) :
  name <> "" ->
  strings.Contains name "." = false ->
  strings.Contains name "/" = false ->
  bingo.NameFromModFile (fst (fst (modFileNames i name))) = (name, (0 <? i)%nat).
Proof.
  intros Hne Hdot Hslash. unfold modFileNames, bingo.NameFromModFile.
  assert (Hbase : forall s, strings.Contains s "/" = false -> s <> "" -> filepath.Base s = s).
  { intros s Hs Hs'. rewrite Base_last_Split; rewrite (Split_no_sep s "/" Hs); done. }
  destruct (0 <? i)%nat; cbn [fst].
  - assert (Hfile : name +:+ "." +:+ decimal i +:+ ".mod"
                    = (name +:+ "." +:+ decimal i) +:+ ".mod").
    { by rewrite !append_assoc. }
    rewrite Hbase.
    + rewrite Hfile, TrimSuffix_append.
      change (name +:+ "." +:+ decimal i) with (name +:+ String "." (decimal i)).
      rewrite (Split_sep_app name "." (decimal i) Hdot). cbn [hd length].
      by destruct (Split_cons (decimal i) ".") as (w & ws & ->).
    + rewrite !Contains_append, Hslash. unfold decimal.
      by rewrite string_of_uint_digits.
    + destruct name; [done|]. by rewrite append_cons.
  - rewrite Hbase.
    + rewrite TrimSuffix_append, (Split_no_sep name "." Hdot). done.
    + by rewrite Contains_append, Hslash.
    + destruct name; [done|]. by rewrite append_cons.
Qed.

Lemma NameFromModFile_modFileNames_witness :
  bingo.NameFromModFile "goimports.2.mod" = ("goimports", true).
Proof.
  apply (NameFromModFile_modFileNames 2 "goimports"); [discriminate|reflexivity|reflexivity].
Defined.

(** ** The commit of a run of [getPackage] *)

Lemma Create_filename E existing modFile w mf :
  fst (bingo.CreateFromExistingOrNew E existing modFile w) = Ok mf ->
  bingo.filename mf = modFile.
Proof.
  unfold bingo.CreateFromExistingOrNew.
  assert (Hopen : forall fs, bingo.OpenModFile E modFile fs = Ok mf -> bingo.filename mf = modFile).
  { intros fs H. by destruct (OpenModFile_f E modFile fs mf H) as (_ & ? & _). }
  destruct (negb (String.eqb existing "")).
  - destruct (os.Lookup _ existing).
    + destruct (bingo.OpenModFile E existing _) as [o|e|s].
      * destruct (bingo.Close E o _) as [[[[]|e|s] o'] fs1]; [|done..].
        destruct (bingo.copyFile existing modFile fs1) as [[[]|e|s] fs2]; [|done..].
        cbn [fst]. apply Hopen.
      * destruct (GoModInit E _ modFile _) as [[e'|] fs1]; [done|]. cbn [fst]. apply Hopen.
      * done.
    + destruct (GoModInit E _ modFile _) as [[e'|] fs1]; [done|]. cbn [fst]. apply Hopen.
  - destruct (GoModInit E _ modFile _) as [[e'|] fs1]; [done|]. cbn [fst]. apply Hopen.
Qed.

Lemma commitPackage_commits E c name outModFile target replaceStmts tmpModFile w :
  bingo.filename tmpModFile <> outModFile ->
  let ran := commitPackage E c name outModFile target replaceStmts tmpModFile w in
  fst (fst ran) = Ok tt ->
  is_Some (names (pin (snd ran)) !! outModFile) /\
  names (pin (snd ran)) !! bingo.filename tmpModFile = None.
Proof.
  intros Hne. unfold commitPackage.
  assert (H1 : forall mf1,
            (if negb (bingo.AutoReplaceDisabled tmpModFile) && (0 <? length replaceStmts)%nat
             then bingo.SetReplace tmpModFile replaceStmts else Ok tmpModFile) = Ok mf1 ->
            bingo.filename mf1 = bingo.filename tmpModFile).
  { intros mf1. destruct (_ && _); [|by intros [= <-]].
    intros H. by destruct (SetReplace_f _ _ _ H). }
  destruct (if _ && _ then _ else _) as [mf1|e|s]; [|done..].
  specialize (H1 mf1 eq_refl).
  match goal with
  | |- context [bingo.SetDirectRequire mf1 ?t] =>
      destruct (bingo.SetDirectRequire mf1 t) as [mf2|e|s] eqn:H2
  end; [|done..].
  destruct (SetDirectRequire_f _ _ _ H2) as [_ Hn2].
  pose proof (Flush_f E mf2 (pin w)) as [_ Hn3].
  destruct (bingo.Flush E mf2 (pin w)) as [[[[]|e|s] mf3] fs]; [|done..].
  cbn [fst snd] in Hn3.
  destruct (install E name (link c) mf3 (setPin w fs)) as [[[]|e|s] w1]; [|done..].
  unfold os.Rename, os.Lookup, bingo.FileName.
  destruct (names (pin w1) !! bingo.filename mf3) as [ino|]; [|done].
  cbn [fst snd pin logCall setPin names]. intros _.
  assert (Hmf3 : bingo.filename mf3 = bingo.filename tmpModFile) by congruence.
  rewrite Hmf3. split.
  - rewrite lookup_insert_eq. by eexists.
  - rewrite lookup_insert_ne by done. apply lookup_delete_eq.
Qed.

Lemma Close_names E mf fs : names (snd (bingo.Close E mf fs)) = names fs.
Proof. unfold bingo.Close. apply Flush_names. Qed.

Lemma closeCaptured_names {A} E mf (r : result A) w :
  names (pin (snd (closeCaptured E mf r w))) = names (pin w) /\
  (is_ok (fst (closeCaptured E mf r w)) = true -> is_ok r = true).
Proof.
  unfold closeCaptured. pose proof (Close_names E mf (pin w)) as Hn.
  destruct (bingo.Close E mf (pin w)) as [[cl mf'] fs]. cbn [fst snd pin setPin] in *.
  split; [done|]. by destruct r, cl.
Qed.

Lemma closeDropped_names {A} E mf (r : result A) w :
  names (pin (snd (closeDropped E mf r w))) = names (pin w) /\
  (is_ok (fst (closeDropped E mf r w)) = true -> is_ok r = true).
Proof.
  unfold closeDropped. pose proof (Close_names E mf (pin w)) as Hn.
  destruct (bingo.Close E mf (pin w)) as [[cl mf'] fs]. cbn [fst snd pin setPin] in *.
  split; [done|]. by destruct r, cl.
Qed.

Lemma stagePackage_commits E c name outModFile tmpModFilePath target replaceStmts w :
  tmpModFilePath <> outModFile ->
  let ran := stagePackage E c name outModFile tmpModFilePath target replaceStmts w in
  is_ok (fst ran) = true ->
  is_Some (names (pin (snd ran)) !! outModFile) /\
  names (pin (snd ran)) !! tmpModFilePath = None.
Proof.
  intros Hne. unfold stagePackage.
  destruct (cleanGoGetTmpFiles E w) as [[[]|e|s] w1]; [|done..].
  unfold wrapM.
  pose proof (Create_filename E outModFile tmpModFilePath w1) as Hfile.
  destruct (bingo.CreateFromExistingOrNew E outModFile tmpModFilePath w1)
    as [[tmpModFile|e|s] w2]; [|done..].
  specialize (Hfile tmpModFile eq_refl).
  pose proof (commitPackage_commits E c name outModFile target replaceStmts tmpModFile w2)
    as Hcommit.
  rewrite Hfile in Hcommit. specialize (Hcommit Hne). cbv zeta in Hcommit.
  destruct (commitPackage E c name outModFile target replaceStmts tmpModFile w2)
    as [[r mf] w3]. cbn [fst snd] in Hcommit.
  destruct (closeCaptured_names E mf r w3) as [Hn Hok]. cbv zeta.
  intros Hran. rewrite Hn. apply Hcommit.
  specialize (Hok Hran). by destruct r as [[]|?|?].
Qed.

(** X25: when a run of [getPackage] succeeds, the file of record is
    there and the temporary manifest is gone from the pin directory: the
    one was renamed over the other, and nothing but the closes of the
    manifests came after. *)
Theorem getPackage_commits (E : Env) (c : getConfig) (i : nat) (name : string)
    (target : bingo.Package) (w : World) :
  fst (getPackage E c i name target w) = Ok tt ->
  is_Some (names (pin (snd (getPackage E c i name target w)))
             !! fst (fst (modFileNames i name))) /\
  names (pin (snd (getPackage E c i name target w))) !! snd (modFileNames i name) = None.
Proof.
  destruct (modFileNames_distinct i name) as (_ & Hne & _).
  unfold getPackage.
  destruct (modFileNames i name) as [[outModFile tmpE] tmpModFilePath]. cbn [fst snd] in *.
  destruct (needsResolve (update c) target).
  - unfold wrapM.
    destruct (bingo.CreateFromExistingOrNew E "" tmpE w) as [[tmpEmptyModFile|e|s] w1];
      [|done..].
    rewrite !bind_unfold.
    destruct (resolvePackage E (verbose c) _ (update c) target w1) as [[target'|e|s] w2].
    + rewrite !bind_unfold.
      destruct (if negb _ then _ else _) as [replaceStmts|e|s].
      * pose proof (stagePackage_commits E c name outModFile tmpModFilePath target'
                      replaceStmts w2 Hne) as Hstage. cbv zeta in Hstage.
        destruct (stagePackage E c name outModFile tmpModFilePath target' replaceStmts w2)
          as [r w3]. cbn [fst snd] in Hstage.
        destruct (closeDropped_names E tmpEmptyModFile r w3) as [Hn Hok].
        intros Hran. rewrite Hn. apply Hstage. apply Hok. by rewrite Hran.
      * destruct (closeDropped_names E tmpEmptyModFile (@Fail unit e) w2) as [_ Hok].
        intros Hran. rewrite Hran in Hok. by specialize (Hok eq_refl).
      * destruct (closeDropped_names E tmpEmptyModFile (@Panic unit s) w2) as [_ Hok].
        intros Hran. rewrite Hran in Hok. by specialize (Hok eq_refl).
    + destruct (closeDropped_names E tmpEmptyModFile (@Fail unit e) w2) as [_ Hok].
      intros Hran. rewrite Hran in Hok. by specialize (Hok eq_refl).
    + destruct (closeDropped_names E tmpEmptyModFile (@Panic unit s) w2) as [_ Hok].
      intros Hran. rewrite Hran in Hok. by specialize (Hok eq_refl).
  - intros Hran. apply stagePackage_commits; [done|]. by rewrite Hran.
Qed.

Lemma getPackage_commits_witness :
  is_Some (names (pin (snd (getPackage sample.quiet sample.config 0 "z" sample.toolZ
                              sample.installed))) !! "z.mod") /\
  names (pin (snd (getPackage sample.quiet sample.config 0 "z" sample.toolZ
                     sample.installed))) !! "z.tmp.mod" = None.
Proof.
  apply (getPackage_commits sample.quiet sample.config 0 "z" sample.toolZ sample.installed).
  reflexivity.
Defined.

(** ** The target parser: a single version, a second [@] *)

(** X26: a raw target with a single version is never refused by
    [parseTarget]: the checks for duplicates and for [none] are made only
    on a list of several versions, so that [name@none] parses. *)
Theorem parseTarget_single_version (rawTarget : string) :
  rawTarget <> "" ->
  length (versionList rawTarget) = 1%nat ->
  exists name pkgPath, parseTarget rawTarget = Ok (name, pkgPath, versionList rawTarget).
Proof.
  intros Hne Hone. pose proof (parseTarget_versions rawTarget Hne) as Hv.
  destruct (parseTarget rawTarget) as [[[name pkgPath] versions]|e|s]; [|lia|done].
  destruct Hv as [-> _]. by eexists _, _.
Qed.

Lemma parseTarget_single_version_witness :
  exists name pkgPath, parseTarget "z@none" = Ok (name, pkgPath, versionList "z@none").
Proof. apply parseTarget_single_version; [discriminate|reflexivity]. Defined.

(** X29: of a raw target with more than one [@], [parseTarget] reads
    only what stands before the second one: the rest is ignored. *)
Theorem parseTarget_second_at (n v rest : string) :
  strings.Contains n "@" = false ->
  strings.Contains v "@" = false ->
  parseTarget (n +:+ "@" +:+ v +:+ "@" +:+ rest) = parseTarget (n +:+ "@" +:+ v).
Proof.
  intros Hn Hv. unfold parseTarget.
  change (n +:+ "@" +:+ v +:+ "@" +:+ rest) with (n +:+ String "@" (v +:+ String "@" rest)).
  change (n +:+ "@" +:+ v) with (n +:+ String "@" v).
  rewrite !(Split_sep_app n "@" _ Hn), (Split_sep_app v "@" rest Hv), (Split_no_sep v "@" Hv).
  destruct (Split_cons rest "@") as (r0 & rs & ->). cbn [hd].
  assert (Hne : forall x, String.eqb (n +:+ String "@" x) "" = false).
  { intros x. destruct n; [done|]. by rewrite append_cons. }
  by rewrite !Hne.
Qed.

Lemma parseTarget_second_at_witness :
  parseTarget "tool@v1.0.0@v2.0.0" = parseTarget "tool@v1.0.0".
Proof. apply (parseTarget_second_at "tool" "v1.0.0" "v2.0.0"); reflexivity. Defined.

(** ** The driver: tools that are not there, names that are taken *)

(** X27: a tool asked for by its bare name, without upgrade, rename
    or name of its own, of which the pin directory has no manifest, is
    refused as never installed, and nothing but the pre-pass has been
    done. *)
Theorem get_never_installed (E : Env) (c : getConfig) (rawTarget name0 : string)
    (versions : list string) (w : World) :
  parseTarget rawTarget = Ok (name0, "", versions) ->
  hd "" versions <> "none" ->
  update c = runner.NoUpdatePolicy ->
  rename c = "" ->
  name c = "" ->
  fst (prepass E w) = Ok tt ->
  existingModFiles E name0 (pin (snd (prepass E w))) = Ok [] ->
  get E c rawTarget w = (Fail errNeverInstalled, snd (prepass E w)).
Proof.
  intros Hparse Hnone Hu Hren Hname Hpre Hex. rewrite get_prepass.
  destruct (prepass E w) as [[[]|e|s] w2]; [|done..]. cbn [snd] in *.
  pose proof (parseTarget_not_empty _ _ Hparse) as Hne.
  rewrite (proj2 (String.eqb_neq _ _) Hne), Hparse, Hu, Hren.
  cbn [runner.isNoUpdate negb andb String.eqb].
  unfold getTool. rewrite Hname, Hu. cbn [negb String.eqb runner.isNoUpdate]. rewrite Hex.
  rewrite (proj2 (String.eqb_neq _ _) Hnone). cbn [length Nat.ltb Nat.leb].
  rewrite andb_false_r. cbn [andb].
  pose proof (parseTarget_versions rawTarget Hne) as Hv. rewrite Hparse in Hv.
  destruct Hv as [Hv _].
  assert (Hcons : exists v rest, versions = v :: rest).
  { rewrite Hv. unfold versionList.
    destruct (strings.Split rawTarget "@") as [|? [|s1 ?]]; [by eexists _, _..|].
    apply Split_cons. }
  destruct Hcons as (v & rest & ->). by cbn.
Qed.

Lemma get_never_installed_witness :
  get sample.quiet sample.config "goimports" sample.installed
  = (Fail errNeverInstalled, snd (prepass sample.quiet sample.installed)).
Proof.
  apply (get_never_installed sample.quiet sample.config "goimports" "goimports" [""]);
    first [reflexivity | discriminate].
Defined.

(** X28: a rename to a name of which the pin directory already has a
    manifest is refused, and nothing but the pre-pass has been done: no
    manifest of the taken name is overwritten. *)
Theorem get_rename_taken (E : Env) (c : getConfig) (rawTarget name0 : string)
    (versions : list string) (w : World) (file : string) (files : list string) :
  parseTarget rawTarget = Ok (name0, "", versions) ->
  hasVersionArgs versions = false ->
  rename c <> "" ->
  rename c <> name0 ->
  fst (prepass E w) = Ok tt ->
  existingModFiles E (rename c) (pin (snd (prepass E w))) = Ok (file :: files) ->
  get E c rawTarget w = (Fail errRenameTaken, snd (prepass E w)).
Proof.
  intros Hparse Hargs Hren Hdiff Hpre Hex. rewrite get_prepass.
  destruct (prepass E w) as [[[]|e|s] w2]; [|done..]. cbn [snd] in *.
  rewrite (proj2 (String.eqb_neq _ _) (parseTarget_not_empty _ _ Hparse)), Hparse, Hargs.
  rewrite andb_false_r, (proj2 (String.eqb_neq _ _) Hren). cbn [negb].
  unfold getRename. cbn [String.eqb negb]. rewrite Hargs.
  unfold validateNewName. rewrite (proj2 (String.eqb_neq _ _) Hdiff).
  assert (Hhd : String.eqb (hd "" versions) "none" = false).
  { unfold hasVersionArgs in Hargs. apply orb_false_iff in Hargs as [Hhd _].
    apply negb_false_iff, String.eqb_eq in Hhd. by rewrite Hhd. }
  by rewrite Hhd, Hex.
Qed.

Lemma get_rename_taken_witness :
  get sample.quiet renamed "z" taken
  = (Fail errRenameTaken, snd (prepass sample.quiet taken)).
Proof.
  apply (get_rename_taken sample.quiet renamed "z" "z" [""] taken "zed.mod" []);
    first [reflexivity | discriminate].
Defined.

(** ** Seeding the temporary manifest *)

Lemma OpenModFile_block E file fs mf :
  bingo.OpenModFile E file fs = Ok mf -> is_Some (blocks fs !! bingo.f mf).
Proof.
  intros Hopen. destruct (OpenModFile_f E file fs mf Hopen) as (Hname & _ & _).
  unfold bingo.OpenModFile, os.Lookup in Hopen. rewrite Hname in Hopen.
  unfold bingo.Reload, os.ReadInode in Hopen. cbn [bingo.f] in Hopen.
  destruct (blocks fs !! bingo.f mf); [by eexists|done].
Qed.

Lemma ReadFile_at fs file ino c :
  names fs !! file = Some ino -> blocks fs !! ino = Some c -> os.ReadFile fs file = Some c.
Proof. unfold os.ReadFile, os.Lookup, os.ReadInode. intros -> Hb. exact Hb. Qed.


